(** * PropPredict: the analysis script [src/data/make_dataset.py]

    The script is orchestration glue over pandas, scipy, scikit-learn and
    friends. The embedding follows that split: the glue (the two helper
    functions, the table manipulations, the loops, the prints, the control
    flow between the stages) is written out as Rocq definitions, and every
    statistics or learning routine the script calls is a field of the record
    [Lib], so whatever is proved holds for any behaviour of those routines.

    Numbers: the script computes on float64. The type [num] of numbers is a
    parameter, with the few arithmetic operations the script itself performs
    ([Q3 - Q1], [1.5 * IQR], [< 3], [np.sqrt], ...) as fields of [Lib]. An
    exact instance over the rationals ([QLib]) serves the concrete examples. *)

From Stdlib Require Import ZArith QArith Qround Qabs Ascii String List Lia.
From stdpp Require Import base gmap list strings.

Open Scope Z_scope.
Open Scope string_scope.

(** ** Python exceptions *)

(** The part of Python's exception hierarchy the script can meet, with
    pandas' [EmptyDataError] and [ParserError] (both derive from
    [ValueError]); [UserClass] stands for any further class, given its base. *)
Inductive pyclass : Type :=
| BaseException
| Exception
| KeyboardInterrupt
| SystemExit
| GeneratorExit
| OSError
| FileNotFoundError
| PermissionError
| IsADirectoryError
| ValueError
| EmptyDataError
| ParserError
| UnicodeDecodeError
| MemoryError
| LookupError
| KeyError
| AttributeError
| TypeError
| NameError
| UserClass (name : string) (base : pyclass).

#[global] Instance pyclass_eq_dec : EqDecision pyclass.
Proof. solve_decision. Defined.

(** Method resolution order: the class, then its ancestors. *)
Fixpoint mro (c : pyclass) : list pyclass :=
  match c with
  | BaseException => [BaseException]
  | Exception => [Exception; BaseException]
  | KeyboardInterrupt => [KeyboardInterrupt; BaseException]
  | SystemExit => [SystemExit; BaseException]
  | GeneratorExit => [GeneratorExit; BaseException]
  | OSError => [OSError; Exception; BaseException]
  | FileNotFoundError => [FileNotFoundError; OSError; Exception; BaseException]
  | PermissionError => [PermissionError; OSError; Exception; BaseException]
  | IsADirectoryError => [IsADirectoryError; OSError; Exception; BaseException]
  | ValueError => [ValueError; Exception; BaseException]
  | EmptyDataError => [EmptyDataError; ValueError; Exception; BaseException]
  | ParserError => [ParserError; ValueError; Exception; BaseException]
  | UnicodeDecodeError => [UnicodeDecodeError; ValueError; Exception; BaseException]
  | MemoryError => [MemoryError; Exception; BaseException]
  | LookupError => [LookupError; Exception; BaseException]
  | KeyError => [KeyError; LookupError; Exception; BaseException]
  | AttributeError => [AttributeError; Exception; BaseException]
  | TypeError => [TypeError; Exception; BaseException]
  | NameError => [NameError; Exception; BaseException]
  | UserClass n b => UserClass n b :: mro b
  end.

Definition issubclass (c d : pyclass) : bool := bool_decide (d ∈ mro c).

(** A raised exception: its class and its message ([str(e)]). *)
Record exn : Type := mkExn { exn_class : pyclass; exn_msg : string }.

#[global] Instance exn_eq_dec : EqDecision exn.
Proof. solve_decision. Defined.

Definition isinstance (e : exn) (c : pyclass) : bool := issubclass (exn_class e) c.

(** The result of evaluating a Python expression or statement. *)
Inductive outcome (A : Type) : Type :=
| Ret (a : A)
| Raise (e : exn).
Arguments Ret {A} a.
Arguments Raise {A} e.

Definition obind {A B} (o : outcome A) (k : A -> outcome B) : outcome B :=
  match o with
  | Ret a => k a
  | Raise e => Raise e
  end.

#[global] Instance outcome_ret : MRet outcome := fun A a => Ret a.
#[global] Instance outcome_bind : MBind outcome := fun A B k o => obind o k.

Fixpoint omapM {A B} (f : A -> outcome B) (l : list A) : outcome (list B) :=
  match l with
  | [] => Ret []
  | a :: l' => obind (f a) (fun b => obind (omapM f l') (fun bs => Ret (b :: bs)))
  end.

(** ** Cells, series and tables *)

(** One cell of a table. [CNull] is a missing value of an object column
    ([None], [NaT]); a missing value of a float column is a NaN of [num]. *)
Inductive cell (num : Type) : Type :=
| CNull
| CInt (z : Z)
| CFloat (x : num)
| CStr (s : string)
| CDate (ns : Z).
Arguments CNull {num}.
Arguments CInt {num} z.
Arguments CFloat {num} x.
Arguments CStr {num} s.
Arguments CDate {num} ns.

#[global] Instance cell_eq_dec {num} `{EqDecision num} : EqDecision (cell num).
Proof. solve_decision. Defined.

(** A table, column by column as pandas stores it: the row labels and, for
    each column in order, its label and its values (one per row). *)
Record DataFrame (num : Type) : Type := mkFrame {
  df_index : list Z;
  df_columns : list (string * list (cell num))
}.
Arguments mkFrame {num} df_index df_columns.
Arguments df_index {num} d.
Arguments df_columns {num} d.

#[global] Instance DataFrame_eq_dec {num} `{EqDecision num} : EqDecision (DataFrame num).
Proof. solve_decision. Defined.

(** Column dtypes the script tests for. *)
Inductive dtype : Type := Int64 | Float64 | Datetime64 | Object.

#[global] Instance dtype_eq_dec : EqDecision dtype.
Proof. solve_decision. Defined.

(** ** The regressors of scikit-learn and xgboost, as the script builds them *)

(** [random_state] is the constructor argument: [Some z] for
    [random_state=z], [None] when it is left out. *)
Inductive estimator : Type :=
| LinearRegression
| RandomForestRegressor (random_state : option Z)
| DecisionTreeRegressor (random_state : option Z)
| GradientBoostingRegressor (random_state : option Z)
| KNeighborsRegressor
| XGBRegressor (random_state : option Z).

#[global] Instance estimator_eq_dec : EqDecision estimator.
Proof. solve_decision. Defined.

(** Where a routine takes its random numbers from: nowhere (it is not
    randomised), a generator of its own made from the seed it was given, or,
    with no seed, numpy's global generator in its current state. *)
Inductive randomness : Type :=
| Unused
| Seeded (seed : Z)
| FromGlobal (state : Z).

(** ** The library interface *)

(** What [GridSearchCV.fit] leaves behind. *)
Record grid_result (fitted num : Type) : Type := mkGrid {
  best_estimator_ : fitted;
  best_params_ : nat;
  best_score_ : num
}.
Arguments mkGrid {fitted num} best_estimator_ best_params_ best_score_.
Arguments best_estimator_ {fitted num} g.
Arguments best_params_ {fitted num} g.
Arguments best_score_ {fitted num} g.

(** Every routine the script calls and does not define. A routine that can
    fail returns an [outcome]; a randomised routine receives the source of
    its random numbers, and is a function of it and of its other arguments. *)
Record Lib (num : Type) : Type := mkLib {
  (* float64 arithmetic the script performs itself *)
  fadd : num -> num -> num;
  fsub : num -> num -> num;
  fmul : num -> num -> num;
  flt : num -> num -> bool;
  fabs : num -> num;
  fsqrt : num -> num;
  fisnan : num -> bool;
  float_of_Q : Q -> num;
  float_of_Z : Z -> num;
  (* pandas *)
  read_csv : string -> outcome (DataFrame num);
  to_datetime : list (cell num) -> outcome (list (cell num));
  describe : DataFrame num -> outcome (DataFrame num);
  sort_values : list (string * num) -> list (string * num);
  groupby_apply_list : list (cell num) -> list (cell num) -> list (list (cell num));
  quantile : list (cell num) -> Q -> outcome num;
  skew : list (cell num) -> outcome num;
  value_counts : list (cell num) -> list (cell num * nat);
  (* scipy.stats *)
  pearsonr : list (cell num) -> list (cell num) -> outcome (num * num);
  f_oneway : list (list (cell num)) -> outcome (num * num);
  zscore : list (cell num) -> outcome (list num);
  (* statsmodels *)
  add_constant : DataFrame num -> DataFrame num;
  variance_inflation_factor : DataFrame num -> nat -> outcome num;
  (* category_encoders, scikit-learn, xgboost *)
  mutual_info_regression :
    DataFrame num -> list (cell num) -> list bool -> randomness -> outcome (list num);
  MEstimateEncoder_fit_transform :
    list string -> Q -> DataFrame num -> list (cell num) -> outcome (DataFrame num);
  StandardScaler_fit_transform : DataFrame num -> outcome (list (list num));
  train_test_split :
    DataFrame num -> list (cell num) -> Q -> randomness ->
    outcome (DataFrame num * DataFrame num * list (cell num) * list (cell num));
  fitted : Type;
  fit : estimator -> randomness -> DataFrame num -> list (cell num) -> outcome fitted;
  GridSearchCV_fit :
    estimator -> randomness -> string -> list nat -> nat -> string ->
    DataFrame num -> list (cell num) -> outcome (grid_result fitted num);
  predict : fitted -> DataFrame num -> outcome (list num);
  mean_absolute_error : list (cell num) -> list num -> outcome num;
  mean_squared_error : list (cell num) -> list num -> outcome num;
  r2_score : list (cell num) -> list num -> outcome num
}.
Arguments fadd {num} l. Arguments fsub {num} l. Arguments fmul {num} l.
Arguments flt {num} l. Arguments fabs {num} l. Arguments fsqrt {num} l.
Arguments fisnan {num} l. Arguments float_of_Q {num} l. Arguments float_of_Z {num} l.
Arguments read_csv {num} l. Arguments to_datetime {num} l. Arguments describe {num} l.
Arguments sort_values {num} l. Arguments groupby_apply_list {num} l.
Arguments quantile {num} l. Arguments skew {num} l. Arguments value_counts {num} l.
Arguments pearsonr {num} l. Arguments f_oneway {num} l. Arguments zscore {num} l.
Arguments add_constant {num} l. Arguments variance_inflation_factor {num} l.
Arguments mutual_info_regression {num} l. Arguments MEstimateEncoder_fit_transform {num} l.
Arguments StandardScaler_fit_transform {num} l. Arguments train_test_split {num} l.
Arguments fitted {num} l. Arguments fit {num} l. Arguments GridSearchCV_fit {num} l.
Arguments predict {num} l. Arguments mean_absolute_error {num} l.
Arguments mean_squared_error {num} l. Arguments r2_score {num} l.

(** ** What the script writes and shows *)

(** A value handed to [print] or to a plot. *)
Inductive pyval (num : Type) : Type :=
| VStr (s : string)
| VInt (z : Z)
| VFloat (x : num)
| VExn (e : exn)
| VFrame (d : DataFrame num)
| VCells (s : list (cell num))
| VNames (l : list string)
| VCounts (l : list (string * nat))
| VDtypes (l : list (string * dtype))
| VScores (l : list (string * num))
| VFloats (l : list num)
| VShape (rows cols : nat)
| VRandom (z : Z).
Arguments VStr {num} s. Arguments VInt {num} z. Arguments VFloat {num} x.
Arguments VExn {num} e. Arguments VFrame {num} d. Arguments VCells {num} s.
Arguments VNames {num} l. Arguments VCounts {num} l. Arguments VDtypes {num} l.
Arguments VScores {num} l. Arguments VFloats {num} l. Arguments VShape {num} rows cols.
Arguments VRandom {num} z.

(** [Printed fmt args]: one call of [print]; [fmt] is the text, with a hole
    [{}] for each formatted value, and [args] are the values in order.
    [Shown title args]: one figure brought up by [plt.show()], with its title
    and the data drawn. *)
Inductive event (num : Type) : Type :=
| Printed (fmt : string) (args : list (pyval num))
| Shown (title : string) (args : list (pyval num)).
Arguments Printed {num} fmt args.
Arguments Shown {num} title args.

(** ** The interpreter state *)

(** What a run cannot control: the wall clock read by [time.time()] and the
    entropy that feeds numpy's unseeded global generator. *)
Record env (num : Type) : Type := mkEnv {
  env_clock : nat -> num;
  env_entropy : nat -> Z
}.
Arguments mkEnv {num} env_clock env_entropy.
Arguments env_clock {num} e.
Arguments env_entropy {num} e.

(** Tables are mutable objects: variables hold references into [heap]. *)
Record state (num : Type) : Type := mkState {
  stdout : list (event num);
  heap : gmap nat (DataFrame num);
  ticks : nat;
  draws : nat
}.
Arguments mkState {num} stdout heap ticks draws.
Arguments stdout {num} s.
Arguments heap {num} s.
Arguments ticks {num} s.
Arguments draws {num} s.

Definition M (num A : Type) : Type := env num -> state num -> outcome A * state num.

#[global] Instance M_ret {num} : MRet (M num) := fun A a _ s => (Ret a, s).

#[global] Instance M_bind {num} : MBind (M num) := fun A B k m e s =>
  match m e s with
  | (Ret a, s') => k a e s'
  | (Raise x, s') => (Raise x, s')
  end.

(** * The program *)

Section Program.
Context {num : Type} {num_eq_dec : EqDecision num} (L : Lib num).

Abbreviation Cell := (cell num).
Abbreviation Frame := (DataFrame num).
Abbreviation Py := (M num).

(** ** Interpreter primitives *)

Definition raise {A} (c : pyclass) (msg : string) : Py A :=
  fun _ s => (Raise (mkExn c msg), s).

(** A library call. *)
Definition lift {A} (o : outcome A) : Py A := fun _ s => (o, s).

Definition print (fmt : string) (args : list (pyval num)) : Py unit :=
  fun _ s => (Ret tt, mkState (stdout s ++ [Printed fmt args]) (heap s) (ticks s) (draws s)).

(** [plt.figure(...)], the drawing calls, and [plt.show()]. *)
Definition plt_show (title : string) (args : list (pyval num)) : Py unit :=
  fun _ s => (Ret tt, mkState (stdout s ++ [Shown title args]) (heap s) (ticks s) (draws s)).

(** [time.time()] *)
Definition time_time : Py num :=
  fun e s => (Ret (env_clock e (ticks s)), mkState (stdout s) (heap s) (S (ticks s)) (draws s)).

(** A draw from numpy's global generator, which the script never seeds
    (seaborn's bootstrapped confidence bands use it). *)
Definition np_random : Py Z :=
  fun e s => (Ret (env_entropy e (draws s)), mkState (stdout s) (heap s) (ticks s) (S (draws s))).

(** scikit-learn's [check_random_state]: an integer seeds a generator of
    the routine's own; without one the routine draws from the global
    generator. *)
Definition check_random_state (random_state : option Z) : Py randomness :=
  match random_state with
  | Some seed => mret (Seeded seed)
  | None => state ← np_random; mret (FromGlobal state)
  end.

(** The random numbers a regressor uses when it is fitted. *)
Definition randomness_of (model : estimator) : Py randomness :=
  match model with
  | LinearRegression | KNeighborsRegressor => mret Unused
  | RandomForestRegressor random_state
  | DecisionTreeRegressor random_state
  | GradientBoostingRegressor random_state
  | XGBRegressor random_state => check_random_state random_state
  end.

(** A new table object; the reference is one not in use. *)
Definition new_frame (d : Frame) : Py nat :=
  fun _ s =>
    let l := fresh (dom (heap s)) in
    (Ret l, mkState (stdout s) (<[l := d]> (heap s)) (ticks s) (draws s)).

Definition deref (l : nat) : Py Frame :=
  fun _ s =>
    match heap s !! l with
    | Some d => (Ret d, s)
    | None => (Raise (mkExn NameError "name is not defined"), s)
    end.

(** In-place update of the object behind a reference. *)
Definition assign (l : nat) (d : Frame) : Py unit :=
  fun _ s => (Ret tt, mkState (stdout s) (<[l := d]> (heap s)) (ticks s) (draws s)).

(** [del name], for the only reference to an object. *)
Definition del (l : nat) : Py unit :=
  fun _ s => (Ret tt, mkState (stdout s) (delete l (heap s)) (ticks s) (draws s)).

(** [try: body except C1: h1 except C2: h2 ...]: the first clause whose class
    the exception is an instance of handles it; with none, it propagates. *)
Definition try_except {A} (body : Py A) (handlers : list (pyclass * (exn -> Py A))) : Py A :=
  fun e s =>
    match body e s with
    | (Ret a, s') => (Ret a, s')
    | (Raise x, s') =>
        match find (fun h => isinstance x (fst h)) handlers with
        | Some h => snd h x e s'
        | None => (Raise x, s')
        end
    end.

(** [for x in l: body x] *)
Fixpoint for_each {A} (l : list A) (body : A -> Py unit) : Py unit :=
  match l with
  | [] => mret tt
  | a :: l' => body a ;; for_each l' body
  end.

Fixpoint mapM {A B} (f : A -> Py B) (l : list A) : Py (list B) :=
  match l with
  | [] => mret []
  | a :: l' => b ← f a; bs ← mapM f l'; mret (b :: bs)
  end.

(** ** Tables: the pandas operations the script uses *)

Definition columns (d : Frame) : list string := (df_columns d).*1.

Definition nrows (d : Frame) : nat := length (df_index d).

Definition shape (d : Frame) : pyval num := VShape (nrows d) (length (df_columns d)).

Definition named (c : string) (p : string * list Cell) : bool := bool_decide (p.1 = c).

(** [d[c]] *)
Definition getitem (d : Frame) (c : string) : outcome (list Cell) :=
  match find (named c) (df_columns d) with
  | Some p => Ret p.2
  | None => Raise (mkExn KeyError c)
  end.

(** [d[cols]]: for each label in turn, the columns that carry it. *)
Definition getitem_list (d : Frame) (cols : list string) : outcome Frame :=
  obind
    (omapM (fun c =>
              match List.filter (named c) (df_columns d) with
              | [] => Raise (mkExn KeyError c)
              | ps => Ret ps
              end) cols)
    (fun pss => Ret (mkFrame (df_index d) (concat pss))).

(** [d[c] = s], on the value of the table. *)
Definition setitem (d : Frame) (c : string) (s : list Cell) : outcome Frame :=
  if bool_decide (length s = nrows d) then
    if bool_decide (c ∈ columns d) then
      Ret (mkFrame (df_index d)
             (List.map (fun p => if named c p then (c, s) else p) (df_columns d)))
    else Ret (mkFrame (df_index d) (df_columns d ++ [(c, s)]))
  else Raise (mkExn ValueError "Length of values does not match length of index").

(** [names.drop(c)] on a column index. *)
Definition index_drop (names : list string) (c : string) : outcome (list string) :=
  if bool_decide (c ∈ names) then Ret (List.filter (fun n => negb (bool_decide (n = c))) names)
  else Raise (mkExn KeyError c).

(** [d.drop(c, axis=1)] *)
Definition frame_drop (d : Frame) (c : string) : outcome Frame :=
  if bool_decide (c ∈ columns d) then
    Ret (mkFrame (df_index d) (List.filter (fun p => negb (named c p)) (df_columns d)))
  else Raise (mkExn KeyError c).

Fixpoint select_by {A} (mask : list bool) (l : list A) : list A :=
  match mask, l with
  | b :: mask', a :: l' => if b then a :: select_by mask' l' else select_by mask' l'
  | _, _ => []
  end.

(** [d[mask]] for a boolean mask, one flag per row. *)
Definition frame_mask (d : Frame) (mask : list bool) : outcome Frame :=
  if bool_decide (length mask = nrows d) then
    Ret (mkFrame (select_by mask (df_index d))
           (List.map (fun p => (p.1, select_by mask p.2)) (df_columns d)))
  else Raise (mkExn ValueError "Item wrong length").

(** [d.head()] *)
Definition head (d : Frame) : Frame :=
  mkFrame (take 5 (df_index d)) (List.map (fun p => (p.1, take 5 p.2)) (df_columns d)).

Definition isnull (c : Cell) : bool :=
  match c with
  | CNull => true
  | CFloat x => fisnan L x
  | _ => false
  end.

(** The rows of a table, each as the list of its cells. *)
Definition frame_rows (d : Frame) : list (list (option Cell)) :=
  List.map (fun i => List.map (fun p => p.2 !! i) (df_columns d)) (seq 0 (nrows d)).

Fixpoint duplicated_from (seen rows : list (list (option Cell))) : list bool :=
  match rows with
  | [] => []
  | r :: rows' => bool_decide (r ∈ seen) :: duplicated_from (r :: seen) rows'
  end.

(** [d.duplicated()]: a row is flagged when an earlier row equals it. *)
Definition duplicated (d : Frame) : list bool := duplicated_from [] (frame_rows d).

Definition count_true (l : list bool) : nat := length (List.filter id l).

(** [d.isnull().sum()] *)
Definition isnull_sum (d : Frame) : list (string * nat) :=
  List.map (fun p => (p.1, count_true (List.map isnull p.2))) (df_columns d).

Definition is_int (c : Cell) : bool := match c with CInt _ => true | _ => false end.
Definition is_float (c : Cell) : bool := match c with CFloat _ => true | _ => false end.
Definition is_date (c : Cell) : bool := match c with CDate _ => true | _ => false end.
Definition is_date_or_NaT (c : Cell) : bool :=
  match c with CDate _ | CNull => true | _ => false end.

(** The dtype pandas gives a column: int64 for integers throughout,
    float64 for floats throughout, datetime64 for dates (and NaT), object
    otherwise. *)
Definition dtype_of (s : list Cell) : dtype :=
  match s with
  | [] => Object
  | _ => if forallb is_int s then Int64
         else if forallb is_float s then Float64
         else if existsb is_date s && forallb is_date_or_NaT s then Datetime64
         else Object
  end.

(** [d.dtypes] *)
Definition dtypes (d : Frame) : list (string * dtype) :=
  List.map (fun p => (p.1, dtype_of p.2)) (df_columns d).

Fixpoint factorize_from (uniques s : list Cell) : list Cell :=
  match s with
  | [] => []
  | c :: s' =>
      if isnull c then CInt (-1) :: factorize_from uniques s'
      else match list_find (fun u => u = c) uniques with
           | Some (i, _) => CInt (Z.of_nat i) :: factorize_from uniques s'
           | None => CInt (Z.of_nat (length uniques)) :: factorize_from (uniques ++ [c]) s'
           end
  end.

(** The codes of [s.factorize()]: values numbered by first appearance,
    missing values coded -1. *)
Definition factorize (s : list Cell) : list Cell := factorize_from [] s.

(** [s.nunique()] *)
Definition nunique (s : list Cell) : nat :=
  length (remove_dups (List.filter (fun c => negb (isnull c)) s)).

Definition to_float (c : Cell) : outcome num :=
  match c with
  | CInt z => Ret (float_of_Z L z)
  | CFloat x => Ret x
  | _ => Raise (mkExn TypeError "unsupported operand type")
  end.

Definition float3 : num := float_of_Z L 3.

Definition frame_getitem (l : nat) (c : string) : Py (list Cell) :=
  d ← deref l; lift (getitem d c).

Definition frame_setitem (l : nat) (c : string) (s : list Cell) : Py unit :=
  d ← deref l; d' ← lift (setitem d c s); assign l d'.

(** [d.copy()]: a new object with the same contents. *)
Definition frame_copy (l : nat) : Py nat :=
  d ← deref l; new_frame d.

(** [d.info()] writes its summary of the table to standard output. *)
Definition frame_info (l : nat) : Py unit :=
  d ← deref l; print "DataFrame.info: {}" [VFrame d].

(** Attribute access on a value that is a table or [None]. *)
Definition getattr (o : option nat) (attr : string) : Py nat :=
  match o with
  | Some l => mret l
  | None => raise AttributeError ("'NoneType' object has no attribute '" ++ attr ++ "'")
  end.

(** ** [load_dataset] (lines 23-41) *)

Definition load_dataset (file_path : string) : Py (option nat) :=
  try_except
    (d ← lift (read_csv L file_path);
     data_set ← new_frame d;
     shown ← deref data_set;
     print "{}" [VFrame (head shown)];;
     mret (Some data_set))
    [ (FileNotFoundError, fun _ =>
         print "The file was not found. Please check the file path." [];; mret None);
      (EmptyDataError, fun _ =>
         print "The file is empty. Please provide a valid dataset." [];; mret None);
      (Exception, fun e =>
         print "An error occurred: {}" [VExn e];; mret None) ].

(** ** [check_data_quality] (lines 44-61) *)

Definition check_data_quality (data_set : option nat) : Py unit :=
  match data_set with
  | Some l =>
      d ← deref l;
      let duplicates := count_true (duplicated d) in
      print "Number of duplicate rows: {}" [VInt (Z.of_nat duplicates)];;
      let null_values := isnull_sum d in
      print "Null values in each column:" [];;
      print "{}" [VCounts null_values]
  | None => print "Data set is None, cannot perform data quality checks." []
  end.

(** ** [plot_categorical_distribution] (lines 64-77) *)

Definition isin (top : list Cell) (c : Cell) : bool := bool_decide (c ∈ top).

Definition plot_categorical_distribution (df : nat) (column : string) (top_n : nat) : Py unit :=
  s ← frame_getitem df column;
  let top_categories := (take top_n (value_counts L s)).*1 in
  df_top_categories ← frame_copy df;
  s1 ← frame_getitem df column;
  s2 ← frame_getitem df column;
  frame_setitem df_top_categories column
    (List.map (fun pc => if isin top_categories pc.2 then pc.1 else CStr "Other") (zip s1 s2));;
  shown ← frame_getitem df_top_categories column;
  plt_show "Frequency of top {} categories in {}"
    [VInt (Z.of_nat top_n); VStr column; VCells shown; VCells (value_counts L shown).*1].

(** ** The script, top to bottom *)

(** *** 1. Inspection of the dataset (lines 82-89) *)

Definition file_path : string := "../../data/raw/data.csv".

Definition inspect : Py nat :=
  data_set ← load_dataset file_path;
  check_data_quality data_set;;
  l ← getattr data_set "info";
  frame_info l;;
  d ← deref l;
  print "Dataset columns: {}" [VNames (columns d)];;
  _ ← lift (describe L d);
  mret l.

(** *** 2. Date preprocessing (lines 94-96) *)

Definition date_preprocessing (data_set : nat) : Py unit :=
  s ← frame_getitem data_set "date";
  s' ← lift (to_datetime L s);
  frame_setitem data_set "date" s';;
  d ← deref data_set;
  print "{}" [VDtypes (dtypes d)].

(** *** 3. Exploratory data analysis (lines 103-154) *)

Definition mutual_information (data_set : nat) : Py (list num) :=
  mi_data_set ← frame_copy data_set;
  for_each ["date"; "street"; "city"; "statezip"; "country"] (fun column =>
    s ← frame_getitem mi_data_set column;
    frame_setitem mi_data_set column (factorize s));;
  mi ← deref mi_data_set;
  features ← lift (index_drop (columns mi) "price");
  discrete_features_mi ←
    mapM (fun col => s ← frame_getitem mi_data_set col;
                     mret (bool_decide (dtype_of s = Int64))) features;
  X ← lift (frame_drop mi "price");
  y ← lift (getitem mi "price");
  rng ← check_random_state (Some 0);
  mi_scores ← lift (mutual_info_regression L X y discrete_features_mi rng);
  names ← lift (index_drop (columns mi) "price");
  (if bool_decide (length mi_scores = length names) then mret tt
   else raise ValueError "Length of values does not match length of index");;
  let mi_scores_series := sort_values L (zip names mi_scores) in
  print "{}" [VScores mi_scores_series];;
  plt_show "Mutual Information Scores" [VScores mi_scores_series];;
  mret mi_scores.

Definition continuous_vars : list string :=
  ["bedrooms"; "bathrooms"; "sqft_living"; "sqft_lot"; "floors"; "sqft_above";
   "sqft_basement"; "yr_built"].

Definition pearson_plots (data_set : nat) : Py unit :=
  for_each continuous_vars (fun var =>
    x ← frame_getitem data_set var;
    y ← frame_getitem data_set "price";
    '(correlation, p_value) ← lift (pearsonr L x y);
    print "Pearson correlation of {} with Price: correlation={}, p-value={}"
      [VStr var; VFloat correlation; VFloat p_value];;
    bootstrap ← np_random;
    plt_show "Regression plot of {} vs. Price" [VStr var; VCells x; VCells y; VRandom bootstrap]).

Definition anova_plots (data_set : nat) : Py unit :=
  for_each ["waterfront"; "view"; "condition"] (fun var =>
    x ← frame_getitem data_set var;
    y ← frame_getitem data_set "price";
    plt_show "Box plot of Price vs. {}" [VStr var; VCells x; VCells y];;
    keys ← frame_getitem data_set var;
    prices ← frame_getitem data_set "price";
    let groups := groupby_apply_list L keys prices in
    '(f_value, p_value) ← lift (f_oneway L groups);
    print "ANOVA statistic for {} with Price: F-value={}, p-value={}"
      [VStr var; VFloat f_value; VFloat p_value]).

Definition renovation_plot (data_set : nat) : Py unit :=
  let discrete_var := "yr_renovated" in
  x ← frame_getitem data_set discrete_var;
  y ← frame_getitem data_set "price";
  bootstrap ← np_random;
  plt_show "Bar plot of Price vs. {}" [VStr discrete_var; VCells x; VCells y; VRandom bootstrap];;
  '(correlation, p_value) ← lift (pearsonr L x y);
  print "Pearson correlation of {} with Price: correlation={}, p-value={}"
    [VStr discrete_var; VFloat correlation; VFloat p_value].

(** *** 4. Feature selection (lines 162-165) *)

Definition selected_features : list string :=
  ["bedrooms"; "bathrooms"; "sqft_living"; "sqft_lot"; "sqft_above"; "street"; "city";
   "statezip"; "yr_built"; "price"].

(** [data_set = data_set[selected_features]]: the name is rebound to a new
    table object. *)
Definition feature_selection (data_set : nat) : Py nat :=
  d ← deref data_set;
  d' ← lift (getitem_list d selected_features);
  data_set' ← new_frame d';
  frame_info data_set';;
  print "None" [];;
  mret data_set'.

(** *** 5. Multicollinearity (lines 169-185) *)

Definition select_dtypes_numeric (d : Frame) : list string :=
  (List.filter (fun p => match dtype_of p.2 with Int64 | Float64 => true | _ => false end)
     (df_columns d)).*1.

Fixpoint list_remove {A} `{EqDecision A} (x : A) (l : list A) : list A :=
  match l with
  | [] => []
  | a :: l' => if bool_decide (a = x) then l' else a :: list_remove x l'
  end.

(** [for var in numerical_vars: ... numerical_vars.remove(var)]: the loop
    walks the list by position while the body shortens it. [steps] bounds
    the number of iterations; the length of the list is enough. *)
Fixpoint prune_constant (steps i : nat) (data_set : nat) (numerical_vars : list string)
  : Py (list string) :=
  match steps with
  | O => mret numerical_vars
  | S steps' =>
      match numerical_vars !! i with
      | None => mret numerical_vars
      | Some var =>
          s ← frame_getitem data_set var;
          if (nunique s <=? 1)%nat then
            print "Column {} is constant or empty and will be excluded from VIF calculation."
              [VStr var];;
            prune_constant steps' (S i) data_set (list_remove var numerical_vars)
          else prune_constant steps' (S i) data_set numerical_vars
      end
  end.

Definition multicollinearity (data_set : nat) : Py unit :=
  d ← deref data_set;
  let numerical_vars := select_dtypes_numeric d in
  let numerical_vars :=
    List.filter (fun var => negb (bool_decide (var = "price"))) numerical_vars in
  numerical_vars ← prune_constant (length numerical_vars) 0 data_set numerical_vars;
  if (0 <? length numerical_vars)%nat then
    d ← deref data_set;
    sub ← lift (getitem_list d numerical_vars);
    let X := add_constant L sub in
    features ← lift (index_drop (columns X) "const");
    vifs ← lift (omapM (fun i => variance_inflation_factor L X i)
                   (seq 1 (length (df_columns X) - 1)));
    (if bool_decide (length features = length vifs) then mret tt
     else raise ValueError "All arrays must be of the same length");;
    print "{}" [VNames features; VFloats vifs]
  else
    print "Not enough variables for VIF calculation after excluding constant/empty columns." [].

(** *** 6. Outlier identification (lines 189-233) *)

Definition continuous_discrete_vars : list string :=
  ["bedrooms"; "bathrooms"; "sqft_living"; "sqft_lot"; "sqft_above"; "yr_built"].

(** The rows the IQR rule flags in one column (lines 197-202). *)
Definition iqr_mask (s : list Cell) : outcome (list bool) :=
  Q1 ← quantile L s 0.25;
  Q3 ← quantile L s 0.75;
  let IQR := fsub L Q3 Q1 in
  let lower_bound := fsub L Q1 (fmul L (float_of_Q L 1.5) IQR) in
  let upper_bound := fadd L Q3 (fmul L (float_of_Q L 1.5) IQR) in
  xs ← omapM to_float s;
  mret (List.map (fun x => flt L x lower_bound || flt L upper_bound x) xs).

(** The rows the Z-score rule flags in one column (lines 206-207). *)
Definition zscore_mask (s : list Cell) : outcome (list bool) :=
  z_scores ← zscore L s;
  mret (List.map (fun z => flt L float3 (fabs L z)) z_scores).

Definition outlier_identification (data_set : nat) : Py unit :=
  for_each continuous_discrete_vars (fun var =>
    s ← frame_getitem data_set var;
    plt_show "Box plot of {}" [VStr var; VCells s]);;
  for_each continuous_discrete_vars (fun var =>
    s ← frame_getitem data_set var;
    mask ← lift (iqr_mask s);
    d ← deref data_set;
    outliers ← lift (frame_mask d mask);
    print "Number of outliers in {} using IQR: {}" [VStr var; VInt (Z.of_nat (nrows outliers))]);;
  for_each continuous_discrete_vars (fun var =>
    s ← frame_getitem data_set var;
    mask ← lift (zscore_mask s);
    d ← deref data_set;
    outliers ← lift (frame_mask d mask);
    print "Number of outliers in {} using Z-score: {}"
      [VStr var; VInt (Z.of_nat (nrows outliers))]);;
  for_each continuous_discrete_vars (fun var =>
    s ← frame_getitem data_set var;
    skewness ← lift (skew L s);
    s' ← frame_getitem data_set var;
    titled ← lift (skew L s');
    plt_show "Distribution of {} (Skewness: {:.2f})" [VStr var; VFloat titled; VCells s];;
    print "Skewness of {}: {}" [VStr var; VFloat skewness]).

Definition TOP_N_CATEGORIES : nat := 20.

Definition categorical_outliers (data_set : nat) : Py unit :=
  for_each ["street"; "city"; "statezip"] (fun var =>
    plot_categorical_distribution data_set var 20;;
    s ← frame_getitem data_set var;
    let top_categories := (take TOP_N_CATEGORIES (value_counts L s)).*1 in
    s' ← frame_getitem data_set var;
    d ← deref data_set;
    data_top_n ← lift (frame_mask d (List.map (isin top_categories) s'));
    plt_show "Box plot of Price vs. {} (Top {} categories)"
      [VStr var; VInt (Z.of_nat TOP_N_CATEGORIES); VFrame data_top_n]).

(** *** 7. Outlier removal (lines 237-246) *)

Definition variables_to_check : list string :=
  ["bedrooms"; "bathrooms"; "sqft_living"; "sqft_lot"; "sqft_above"].

(** [stats.zscore] on a table works column by column (axis 0) and returns an
    array of the table's shape. *)
Definition zscore_frame (d : Frame) : outcome (list (list num)) :=
  omapM (fun p => z ← zscore L p.2;
                  if bool_decide (length z = nrows d) then mret z
                  else Raise (mkExn ValueError "zscore: shape mismatch"))
        (df_columns d).

(** [(a).all(axis=1)] on an array given by its columns, [n] rows long. *)
Definition all_axis1 (n : nat) (cols : list (list bool)) : list bool :=
  List.map (fun i => forallb (fun col => default false (col !! i)) cols) (seq 0 n).

(** The rows that stay (lines 240-243). *)
Definition filtered_entries (d : Frame) : outcome (list bool) :=
  checked ← getitem_list d variables_to_check;
  z_scores ← zscore_frame checked;
  let abs_z_scores := List.map (List.map (fabs L)) z_scores in
  mret (all_axis1 (nrows d) (List.map (List.map (fun a => flt L a float3)) abs_z_scores)).

Definition outlier_removal (data_set : nat) : Py nat :=
  d ← deref data_set;
  keep ← lift (filtered_entries d);
  cleaned ← lift (frame_mask d keep);
  dataset_cleaned ← new_frame cleaned;
  print "Original dataset shape: {}" [shape d];;
  print "Cleaned dataset shape: {}" [shape cleaned];;
  mret dataset_cleaned.

(** *** 8. Encoding and scaling (lines 251-269) *)

Definition encoding (dataset_cleaned : nat) : Py nat :=
  c ← deref dataset_cleaned;
  features ← lift (frame_drop c "price");
  target ← lift (getitem c "price");
  encoded ←
    lift (MEstimateEncoder_fit_transform L ["city"; "street"; "statezip"] 0.5 features target);
  dataset_encoded ← new_frame encoded;
  price ← frame_getitem dataset_cleaned "price";
  frame_setitem dataset_encoded "price" price;;
  del dataset_cleaned;;
  mret dataset_encoded.

(** [pd.DataFrame(a, columns=names)] for a 2-D array given by its columns,
    [n] rows long: a table with a fresh index 0 .. n-1. *)
Definition DataFrame_of_array (n : nat) (a : list (list num)) (names : list string)
  : outcome Frame :=
  if bool_decide (length a = length names) && forallb (fun col => bool_decide (length col = n)) a
  then Ret (mkFrame (List.map Z.of_nat (seq 0 n)) (zip names (List.map (List.map CFloat) a)))
  else Raise (mkExn ValueError "Shape of passed values does not match the columns").

Definition scaling (dataset_encoded : nat) : Py (Frame * list Cell) :=
  y ← frame_getitem dataset_encoded "price";
  e ← deref dataset_encoded;
  X ← lift (frame_drop e "price");
  print "Shape of the feature matrix (X): {}" [shape X];;
  print "Shape of the target variable (y): {}" [VInt (Z.of_nat (length y))];;
  scaled ← lift (StandardScaler_fit_transform L X);
  X_normalized ← lift (DataFrame_of_array (nrows X) scaled (columns X));
  print "Shape of the normalized feature matrix (X): {}" [shape X_normalized];;
  mret (X_normalized, y).

(** *** 9. Train/test split (lines 274-276) *)

Definition split (X_normalized : Frame) (y : list Cell)
  : Py (Frame * Frame * list Cell * list Cell) :=
  rng ← check_random_state (Some 2);
  '(X_train, X_test, y_train, y_test) ← lift (train_test_split L X_normalized y 0.2 rng);
  print "Number of training samples: {}" [VInt (Z.of_nat (nrows X_train))];;
  print "Number of test samples: {}" [VInt (Z.of_nat (nrows X_test))];;
  mret (X_train, X_test, y_train, y_test).

(** *** 10. Model development (lines 278-307) *)

Definition KNN : string := "K-nearest neighbors (KNN)".

Definition models : list (string * estimator) :=
  [ ("Multiple Linear Regression", LinearRegression);
    ("Random Forest", RandomForestRegressor (Some 2));
    ("Decision Tree Regression", DecisionTreeRegressor (Some 2));
    ("Boosted Decision Tree Regression", GradientBoostingRegressor (Some 2));
    (KNN, KNeighborsRegressor);
    ("XGBoost", XGBRegressor (Some 2)) ].

(** [d[k] = v] on a dict, which keeps insertion order. *)
Fixpoint dict_set {V} (k : string) (v : V) (d : list (string * V)) : list (string * V) :=
  match d with
  | [] => [(k, v)]
  | (k', v') :: d' => if bool_decide (k' = k) then (k, v) :: d' else (k', v') :: dict_set k v d'
  end.

(** [d[k]] *)
Definition dict_get {V} (k : string) (d : list (string * V)) : outcome V :=
  match find (fun p => bool_decide (p.1 = k)) d with
  | Some p => Ret p.2
  | None => Raise (mkExn KeyError k)
  end.

Definition timing_report : string := "{} training completed in {:.3f} seconds.".

(** One round of the loop (lines 290-307). *)
Definition train_and_predict (X_train X_test : Frame) (y_train : list Cell)
    (name : string) (model : estimator) (predictions : list (string * list num))
  : Py (list (string * list num)) :=
  print "Processing {}..." [VStr name];;
  start_time ← time_time;
  model ← (if bool_decide (name = "K-nearest neighbors (KNN)") then
             rng ← randomness_of KNeighborsRegressor;
             grid_search ←
               lift (GridSearchCV_fit L KNeighborsRegressor rng "n_neighbors" (seq 1 30) 10
                       "r2" X_train y_train);
             let best_knn := best_estimator_ grid_search in
             print "Best parameters for KNN: {}" [VInt (Z.of_nat (best_params_ grid_search))];;
             print "Best score for KNN: {:.3f}" [VFloat (best_score_ grid_search)];;
             mret best_knn
           else
             rng ← randomness_of model;
             lift (fit L model rng X_train y_train));
  stop_time ← time_time;
  let training_time := fsub L stop_time start_time in
  print timing_report [VStr name; VFloat training_time];;
  prediction ← lift (predict L model X_test);
  mret (dict_set name prediction predictions).

Fixpoint training_loop (X_train X_test : Frame) (y_train : list Cell)
    (items : list (string * estimator)) (predictions : list (string * list num))
  : Py (list (string * list num)) :=
  match items with
  | [] => mret predictions
  | (name, model) :: items' =>
      predictions' ← train_and_predict X_train X_test y_train name model predictions;
      training_loop X_train X_test y_train items' predictions'
  end.

(** *** 11. Evaluation, comparison and selection (lines 312-352) *)

(** A row of [metrics_df]; [R2_Score] is the column the script labels with
    a superscript two. *)
Record metrics_row : Type := mkRow {
  Model : string;
  MAE : num;
  MSE : num;
  RMSE : num;
  R2_Score : num
}.

Fixpoint evaluation_loop (y_test : list Cell) (items : list (string * list num))
    (metrics_df : list metrics_row) : Py (list metrics_row) :=
  match items with
  | [] => mret metrics_df
  | (name, pred) :: items' =>
      mae ← lift (mean_absolute_error L y_test pred);
      mse ← lift (mean_squared_error L y_test pred);
      let rmse := fsqrt L mse in
      r2 ← lift (r2_score L y_test pred);
      let new_row := mkRow name mae mse rmse r2 in
      evaluation_loop y_test items' (metrics_df ++ [new_row])
  end.

Definition comparison_plot (metrics_df : list metrics_row) : Py unit :=
  plt_show "Model Comparison - MAE, MSE, RMSE, R2 Score"
    [VNames (List.map Model metrics_df); VFloats (List.map MAE metrics_df);
     VFloats (List.map MSE metrics_df); VFloats (List.map RMSE metrics_df);
     VFloats (List.map R2_Score metrics_df)].

(** The position of the first best value, missing values skipped. *)
Fixpoint first_best (better : num -> num -> bool) (xs : list num) (i : nat)
    (best : option (nat * num)) : option (nat * num) :=
  match xs with
  | [] => best
  | x :: xs' =>
      first_best better xs' (S i)
        (if fisnan L x then best
         else match best with
              | None => Some (i, x)
              | Some (_, b) => if better x b then Some (i, x) else best
              end)
  end.

(** [s.idxmin()] and [s.idxmax()] on a column with the default index. *)
Definition idxmin (xs : list num) : outcome nat :=
  match first_best (fun x b => flt L x b) xs 0%nat None with
  | Some (i, _) => Ret i
  | None => Raise (mkExn ValueError "attempt to get argmin of an empty sequence")
  end.

Definition idxmax (xs : list num) : outcome nat :=
  match first_best (fun x b => flt L b x) xs 0%nat None with
  | Some (i, _) => Ret i
  | None => Raise (mkExn ValueError "attempt to get argmax of an empty sequence")
  end.

(** [metrics_df.loc[i]] *)
Definition loc (metrics_df : list metrics_row) (i : nat) : outcome metrics_row :=
  match metrics_df !! i with
  | Some r => Ret r
  | None => Raise (mkExn KeyError "loc")
  end.

Definition no_overall_best : string :=
  "Consideration is needed to choose the overall best model based on specific requirements.".

(** Lines 333-352. The result: the two winners and, when they agree, the
    overall best model. *)
Definition model_selection (y_test : list Cell) (predictions : list (string * list num))
    (metrics_df : list metrics_row) : Py (string * string * option string) :=
  i ← lift (idxmin (List.map MSE metrics_df));
  best_mse_model ← lift (loc metrics_df i);
  j ← lift (idxmax (List.map R2_Score metrics_df));
  best_r2_model ← lift (loc metrics_df j);
  print "The best model based on MSE is {} with an MSE of {:.3f}."
    [VStr (Model best_mse_model); VFloat (MSE best_mse_model)];;
  print "The best model based on R2 Score is {} with an R2 Score of {:.3f}."
    [VStr (Model best_r2_model); VFloat (R2_Score best_r2_model)];;
  if bool_decide (Model best_mse_model = Model best_r2_model) then
    let best_model_name := Model best_mse_model in
    let best_model_r2_score := R2_Score best_r2_model in
    print "Overall, the best model is {} based on common criteria, with an R2 Score of {:.3f}."
      [VStr best_model_name; VFloat best_model_r2_score];;
    predicted ← lift (dict_get best_model_name predictions);
    plt_show "Actual vs. Predicted Values for {}"
      [VStr best_model_name; VCells y_test; VFloats predicted];;
    mret (Model best_mse_model, Model best_r2_model, Some best_model_name)
  else
    print no_overall_best [];;
    mret (Model best_mse_model, Model best_r2_model, None).

(** *** The whole script *)

(** What a run leaves in its variables at the end. *)
Record results : Type := mkResults {
  r_mi_scores : list num;
  r_X_train : Frame;
  r_X_test : Frame;
  r_y_train : list Cell;
  r_y_test : list Cell;
  r_predictions : list (string * list num);
  r_metrics_df : list metrics_row;
  r_best_mse_model : string;
  r_best_r2_model : string;
  r_best_model_name : option string
}.

(** Everything after a successful [data_set.info()]. *)
Definition analysis (data_set : nat) : Py results :=
  date_preprocessing data_set;;
  mi_scores ← mutual_information data_set;
  pearson_plots data_set;;
  anova_plots data_set;;
  renovation_plot data_set;;
  data_set ← feature_selection data_set;
  multicollinearity data_set;;
  outlier_identification data_set;;
  categorical_outliers data_set;;
  dataset_cleaned ← outlier_removal data_set;
  dataset_encoded ← encoding dataset_cleaned;
  '(X_normalized, y) ← scaling dataset_encoded;
  '(X_train, X_test, y_train, y_test) ← split X_normalized y;
  predictions ← training_loop X_train X_test y_train models [];
  metrics_df ← evaluation_loop y_test predictions [];
  comparison_plot metrics_df;;
  '(best_mse, best_r2, best) ← model_selection y_test predictions metrics_df;
  mret (mkResults mi_scores X_train X_test y_train y_test predictions metrics_df
          best_mse best_r2 best).

Definition script : Py results :=
  data_set ← inspect;
  analysis data_set.

(** A run from an empty interpreter. *)
Definition initial_state : state num := mkState [] ∅ 0 0.

Definition run (e : env num) : outcome results * state num := script e initial_state.

End Program.

(** * An exact instance of the library over the rationals

    [QLib files] computes on exact rationals and serves the concrete
    examples: [files] is the file system seen by [read_csv]. The
    descriptive statistics (quantile by linear interpolation, population
    z-score, Pearson's r, the F statistic, the M-estimate encoding, the
    error metrics) are the textbook ones, with square roots rounded down to
    six decimals; there is no NaN, and p-values are not computed (reported
    as 0). Stand-ins, good enough to run the script on an example: every
    learner is the regressor that predicts the mean of the training target,
    the variance inflation factors are 1, the mutual-information scores are
    0, and the split takes the test rows from the front after rotating the
    rows by the seed. *)

#[global] Instance Q_eq_dec : EqDecision Q.
Proof. solve_decision. Defined.

Module QInstance.

Definition Qlt_bool (x y : Q) : bool := negb (Qle_bool y x).

Definition Qsqrt (x : Q) : Q :=
  Qred (Z.sqrt (Qnum x * 10 ^ 12 / Zpos (Qden x)) # 10 ^ 6).

Definition Qsum (xs : list Q) : Q := Qred (fold_right Qplus 0%Q xs).

Definition Qlen (xs : list Q) : Q := inject_Z (Z.of_nat (length xs)).

Definition Qmean (xs : list Q) : Q := Qred (Qsum xs / Qlen xs).

Definition sq (x : Q) : Q := (x * x)%Q.

(** Population variance (ddof = 0). *)
Definition Qvar (xs : list Q) : Q :=
  let m := Qmean xs in Qred (Qsum (List.map (fun x => sq (x - m)) xs) / Qlen xs).

Definition cell_to_Q (c : cell Q) : outcome Q :=
  match c with
  | CInt z => Ret (inject_Z z)
  | CFloat x => Ret x
  | _ => Raise (mkExn TypeError "could not convert to float")
  end.

Fixpoint insert_by {A} (le : A -> A -> bool) (x : A) (l : list A) : list A :=
  match l with
  | [] => [x]
  | y :: l' => if le x y then x :: l else y :: insert_by le x l'
  end.

Definition sort_by {A} (le : A -> A -> bool) (l : list A) : list A :=
  fold_right (insert_by le) [] l.

Definition Qsort (l : list Q) : list Q := sort_by Qle_bool l.

(** [Series.quantile(q)], linear interpolation between the two nearest ranks. *)
Definition Qquantile (s : list (cell Q)) (q : Q) : outcome Q :=
  xs ← omapM cell_to_Q s;
  let sorted := Qsort xs in
  match sorted with
  | [] => Raise (mkExn ValueError "quantile of an empty column")
  | x0 :: _ =>
      let pos := (q * inject_Z (Z.of_nat (length sorted - 1)))%Q in
      let lo := Z.to_nat (Qfloor pos) in
      let frac := (pos - inject_Z (Qfloor pos))%Q in
      let a := nth lo sorted x0 in
      let b := nth (S lo) sorted a in
      Ret (Qred (a + frac * (b - a)))
  end.

(** [scipy.stats.zscore]: (x - mean) / population standard deviation. *)
Definition Qzscore (s : list (cell Q)) : outcome (list Q) :=
  xs ← omapM cell_to_Q s;
  let m := Qmean xs in
  let sd := Qsqrt (Qvar xs) in
  Ret (List.map (fun x => Qred ((x - m) / sd)) xs).

Definition Qabs_errors (y p : list Q) : list Q :=
  List.map (fun yp => Qabs (yp.1 - yp.2)) (zip y p).

Definition Qsq_errors (y p : list Q) : list Q :=
  List.map (fun yp => sq (yp.1 - yp.2)) (zip y p).

Definition Qmetric (f : list Q -> list Q -> Q) (y_true : list (cell Q)) (y_pred : list Q)
  : outcome Q :=
  y ← omapM cell_to_Q y_true;
  if bool_decide (length y = length y_pred) then Ret (f y y_pred)
  else Raise (mkExn ValueError "Found input variables with inconsistent numbers of samples").

Definition Qmae (y p : list Q) : Q := Qmean (Qabs_errors y p).
Definition Qmse (y p : list Q) : Q := Qmean (Qsq_errors y p).
Definition Qr2 (y p : list Q) : Q :=
  Qred (1 - Qsum (Qsq_errors y p) / Qsum (List.map (fun x => sq (x - Qmean y)) y)).

(** The regressor that predicts the mean of the training target. *)
Definition Qfit (y_train : list (cell Q)) : outcome Q :=
  y ← omapM cell_to_Q y_train; Ret (Qmean y).

Definition Qpredict (m : Q) (X_test : DataFrame Q) : outcome (list Q) :=
  Ret (replicate (length (df_index X_test)) m).

(** A date as the number its digits spell: 2014-05-02 is 20140502. *)
Definition digits (s : string) : Z :=
  fold_left (fun acc c =>
               let n := Z.of_nat (nat_of_ascii c) in
               if ((48 <=? n) && (n <=? 57))%Z then (10 * acc + (n - 48))%Z else acc)
            (list_ascii_of_string s) 0.

Definition Qto_datetime (s : list (cell Q)) : outcome (list (cell Q)) :=
  omapM (fun c => match c with
                  | CStr t => Ret (CDate (digits t))
                  | CDate _ | CNull => Ret c
                  | _ => Raise (mkExn ValueError "not a date")
                  end) s.

(** The distinct values, in the order of their first appearance. *)
Definition distinct (s : list (cell Q)) : list (cell Q) := rev (remove_dups (rev s)).

Definition occurrences (s : list (cell Q)) (v : cell Q) : nat :=
  length (List.filter (fun c => bool_decide (c = v)) s).

Definition Qvalue_counts (s : list (cell Q)) : list (cell Q * nat) :=
  sort_by (fun a b => (b.2 <=? a.2)%nat)
    (List.map (fun v => (v, occurrences s v)) (distinct s)).

Definition Qgroupby (keys values : list (cell Q)) : list (list (cell Q)) :=
  List.map (fun k => (List.filter (fun kv => bool_decide (kv.1 = k)) (zip keys values)).*2)
    (distinct keys).

Definition Qpearsonr (x y : list (cell Q)) : outcome (Q * Q) :=
  xs ← omapM cell_to_Q x;
  ys ← omapM cell_to_Q y;
  let dx := List.map (fun a => a - Qmean xs)%Q xs in
  let dy := List.map (fun b => b - Qmean ys)%Q ys in
  let sxy := Qsum (List.map (fun ab => ab.1 * ab.2)%Q (zip dx dy)) in
  Ret (Qred (sxy / (Qsqrt (Qsum (List.map sq dx)) * Qsqrt (Qsum (List.map sq dy)))), 0%Q).

Definition Qf_oneway (groups : list (list (cell Q))) : outcome (Q * Q) :=
  gs ← omapM (omapM cell_to_Q) groups;
  let grand := Qmean (concat gs) in
  let between := Qsum (List.map (fun g => Qlen g * sq (Qmean g - grand))%Q gs) in
  let within := Qsum (List.map (fun g => Qsum (List.map (fun x => sq (x - Qmean g)) g)) gs) in
  let k := Qlen (List.map Qmean gs) in
  Ret (Qred ((between / (k - 1)) / (within / (Qlen (concat gs) - k))), 0%Q).

Definition Qskew (s : list (cell Q)) : outcome Q :=
  xs ← omapM cell_to_Q s;
  let m := Qmean xs in
  let m3 := Qmean (List.map (fun x => (x - m) * sq (x - m))%Q xs) in
  Ret (Qred (m3 / (Qvar xs * Qsqrt (Qvar xs)))).

Definition Qadd_constant (d : DataFrame Q) : DataFrame Q :=
  mkFrame (df_index d)
    (("const", replicate (length (df_index d)) (CFloat 1%Q)) :: df_columns d).

(** M-estimate encoding: a category becomes
    (sum of its targets + m * prior) / (its count + m). *)
Definition Qm_estimate (cols : list string) (m : Q) (X : DataFrame Q) (y : list (cell Q))
  : outcome (DataFrame Q) :=
  ys ← omapM cell_to_Q y;
  let prior := Qmean ys in
  let encode (s : list (cell Q)) (v : cell Q) : cell Q :=
    let mine := (List.filter (fun cy => bool_decide (cy.1 = v)) (zip s ys)).*2 in
    CFloat (Qred ((Qsum mine + m * prior) / (Qlen mine + m))) in
  Ret (mkFrame (df_index X)
         (List.map (fun p => if bool_decide (p.1 ∈ cols) then (p.1, List.map (encode p.2) p.2)
                             else p) (df_columns X))).

Definition Qstandard_scaler (X : DataFrame Q) : outcome (list (list Q)) :=
  omapM (fun p => Qzscore p.2) (df_columns X).

Definition rows_at {A} (positions : list nat) (l : list A) : list A :=
  omap (fun i => l !! i) positions.

Definition frame_at (positions : list nat) (d : DataFrame Q) : DataFrame Q :=
  mkFrame (rows_at positions (df_index d))
    (List.map (fun p => (p.1, rows_at positions p.2)) (df_columns d)).

Definition Qtrain_test_split (X : DataFrame Q) (y : list (cell Q)) (test_size : Q)
    (rng : randomness)
  : outcome (DataFrame Q * DataFrame Q * list (cell Q) * list (cell Q)) :=
  let n := length (df_index X) in
  let n_test := Z.to_nat (Qceiling (test_size * inject_Z (Z.of_nat n))) in
  let shift := match rng with Seeded z => Z.to_nat z | _ => 0%nat end in
  let shuffled := rotate shift (seq 0 n) in
  let test := take n_test shuffled in
  let train := drop n_test shuffled in
  Ret (frame_at train X, frame_at test X, rows_at train y, rows_at test y).

Definition QLib (files : string -> outcome (DataFrame Q)) : Lib Q := {|
  fadd x y := Qred (x + y);
  fsub x y := Qred (x - y);
  fmul x y := Qred (x * y);
  flt := Qlt_bool;
  fabs x := Qred (Qabs x);
  fsqrt := Qsqrt;
  fisnan _ := false;
  float_of_Q := Qred;
  float_of_Z := inject_Z;
  read_csv := files;
  to_datetime := Qto_datetime;
  describe d := Ret d;
  sort_values := sort_by (fun a b => Qle_bool a.2 b.2);
  groupby_apply_list := Qgroupby;
  quantile := Qquantile;
  skew := Qskew;
  value_counts := Qvalue_counts;
  pearsonr := Qpearsonr;
  f_oneway := Qf_oneway;
  zscore := Qzscore;
  add_constant := Qadd_constant;
  variance_inflation_factor _ _ := Ret 1%Q;
  mutual_info_regression X _ _ _ := Ret (List.map (fun _ => 0%Q) (df_columns X));
  MEstimateEncoder_fit_transform := Qm_estimate;
  StandardScaler_fit_transform := Qstandard_scaler;
  train_test_split := Qtrain_test_split;
  fitted := Q;
  fit _ _ _ y_train := Qfit y_train;
  GridSearchCV_fit _ _ _ grid _ _ _ y_train :=
    m ← Qfit y_train; Ret (mkGrid m (List.hd 1%nat grid) 0%Q);
  predict := Qpredict;
  mean_absolute_error := Qmetric Qmae;
  mean_squared_error := Qmetric Qmse;
  r2_score := Qmetric Qr2
|}.

(** A file system with one file, at the path the script reads. *)
Definition one_file (d : DataFrame Q) : string -> outcome (DataFrame Q) :=
  fun path =>
    if String.eqb path "../../data/raw/data.csv" then Ret d
    else Raise (mkExn FileNotFoundError "No such file or directory").

(** No file anywhere. *)
Definition no_files : string -> outcome (DataFrame Q) :=
  fun _ => Raise (mkExn FileNotFoundError "No such file or directory").

(** A reader interrupted from the keyboard while it loads. *)
Definition interrupted : string -> outcome (DataFrame Q) :=
  fun _ => Raise (mkExn KeyboardInterrupt "").

Definition a_clock : env Q := mkEnv (fun n => inject_Z (Z.of_nat n)) (fun _ => 0).

End QInstance.

(** * Vocabulary of the statements *)

(** The state after one more line of output. *)
Definition emit {num} (s : state num) (ev : event num) : state num :=
  mkState (stdout s ++ [ev]) (heap s) (ticks s) (draws s).

(** The state after a new table object. *)
Definition with_object {num} (s : state num) (l : nat) (d : DataFrame num) : state num :=
  mkState (stdout s) (<[l := d]> (heap s)) (ticks s) (draws s).

Definition not_found_message {num} : event num :=
  Printed "The file was not found. Please check the file path." [].

Definition empty_message {num} : event num :=
  Printed "The file is empty. Please provide a valid dataset." [].

Definition error_message {num} (x : exn) : event num :=
  Printed "An error occurred: {}" [VExn x].

Definition none_message {num} : event num :=
  Printed "Data set is None, cannot perform data quality checks." [].

(** What [check_data_quality] writes for a table. *)
Definition quality_report {num} `{EqDecision num} (L : Lib num) (d : DataFrame num)
  : list (event num) :=
  [ Printed "Number of duplicate rows: {}" [VInt (Z.of_nat (count_true (duplicated d)))];
    Printed "Null values in each column:" [];
    Printed "{}" [VCounts (isnull_sum L d)] ].

Definition no_info : exn :=
  mkExn AttributeError "'NoneType' object has no attribute 'info'".

(** [keeps l m]: whatever [m] does, the object behind [l] is afterwards
    what it was before. *)
Definition keeps {num A} (l : nat) (m : M num A) : Prop :=
  forall e s, heap (m e s).2 !! l = heap s !! l.

(** [z_within L d var i]: in column [var] of [d], the z-score of row [i]
    (by position) is less than 3 in absolute value. *)
Definition z_within {num} (L : Lib num) (d : DataFrame num) (var : string) (i : nat) : bool :=
  match getitem d var with
  | Ret s =>
      match zscore L s with
      | Ret z =>
          match z !! i with
          | Some x => flt L (fabs L x) (float3 L)
          | None => false
          end
      | Raise _ => false
      end
  | Raise _ => false
  end.

(** The lines [GridSearchCV] gives rise to: one per hyperparameter search. *)
Definition is_search_report {num} (ev : event num) : bool :=
  match ev with
  | Printed fmt _ => String.eqb fmt "Best parameters for KNN: {}"
  | Shown _ _ => false
  end.

Definition searches {num} (out : list (event num)) : nat :=
  length (List.filter is_search_report out).

(** [row] holds the four metrics of the predictions [item.2] of the model
    [item.1] against [y_test]. *)
Definition scores {num} (L : Lib num) (y_test : list (cell num))
    (item : string * list num) (row : metrics_row) : Prop :=
  Model row = item.1 /\
  mean_absolute_error L y_test item.2 = Ret (MAE row) /\
  mean_squared_error L y_test item.2 = Ret (MSE row) /\
  RMSE row = fsqrt L (MSE row) /\
  r2_score L y_test item.2 = Ret (R2_Score row).

(** What the selection writes last: the overall winner, with the plot of
    its predictions, or the remark that there is none. *)
Definition verdict {num} (y_test : list (cell num)) (predictions : list (string * list num))
    (best_mse best_r2 : string) (out : list (event num)) : Prop :=
  if bool_decide (best_mse = best_r2) then
    exists r2 predicted,
      dict_get best_mse predictions = Ret predicted /\
      out = [ Printed
                "Overall, the best model is {} based on common criteria, with an R2 Score of {:.3f}."
                [VStr best_mse; VFloat r2];
              Shown "Actual vs. Predicted Values for {}"
                [VStr best_mse; VCells y_test; VFloats predicted] ]
  else out = [Printed no_overall_best []].

(** What two runs are compared on: every printed line but the training
    times. Figures are left out (seaborn draws confidence bands from the
    unseeded global generator). *)
Definition observable {num} (ev : event num) : bool :=
  match ev with
  | Printed fmt _ => negb (String.eqb fmt timing_report)
  | Shown _ _ => false
  end.

Definition transcript {num} (s : state num) : list (event num) :=
  List.filter observable (stdout s).

(** Two states that hold the same tables and show the same transcript. *)
Definition agree {num} (s1 s2 : state num) : Prop :=
  heap s1 = heap s2 /\ transcript s1 = transcript s2.

(** [alike m1 m2]: from states that agree, whatever the clocks and the
    entropy, [m1] and [m2] end alike (same value or same exception) in
    states that agree. *)
Definition alike {num A} (m1 m2 : M num A) : Prop :=
  forall e1 e2 s1 s2, agree s1 s2 ->
    (m1 e1 s1).1 = (m2 e2 s2).1 /\ agree (m1 e1 s1).2 (m2 e2 s2).2.

(** The source of random numbers of a regressor that does not need the
    global generator: it is not randomised, or it was given a seed. *)
Definition seed_of (model : estimator) : option randomness :=
  match model with
  | LinearRegression | KNeighborsRegressor => Some Unused
  | RandomForestRegressor (Some seed)
  | DecisionTreeRegressor (Some seed)
  | GradientBoostingRegressor (Some seed)
  | XGBRegressor (Some seed) => Some (Seeded seed)
  | _ => None
  end.

(** The value of a statement that ended normally. *)
Definition returned {A} (o : outcome A) : option A :=
  match o with
  | Ret a => Some a
  | Raise _ => None
  end.

(** What [first_best] knows after the values [seen]: its candidate is one
    of them, is not missing, and none of them beats it. *)
Definition champion {num} (L : Lib num) (better : num -> num -> bool)
    (seen : list num) (best : option (nat * num)) : Prop :=
  match best with
  | None => forall x, x ∈ seen -> fisnan L x = true
  | Some (j, v) =>
      seen !! j = Some v /\ fisnan L v = false /\
      forall x, x ∈ seen -> fisnan L x = false -> better x v = false
  end.

(** [keeps_live l m]: if [l] refers to a table before [m], it refers to the
    same table after it ([m] may create tables of its own). *)
Definition keeps_live {num A} (l : nat) (m : M num A) : Prop :=
  forall e s, is_Some (heap s !! l) -> heap (m e s).2 !! l = heap s !! l.

(** What [plot_categorical_distribution] puts in place of a category. *)
Definition top_or_other {num} `{EqDecision num} (top : list (cell num)) (c : cell num)
  : cell num :=
  if isin top c then c else CStr "Other".

(** [earliest L better seen best]: every value of [seen] before the position
    of [best] that is not NaN is strictly worse than [best]. *)
Definition earliest {num} (L : Lib num) (better : num -> num -> bool)
    (seen : list num) (best : option (nat * num)) : Prop :=
  match best with
  | None => True
  | Some (j, v) =>
      forall k y, (k < j)%nat -> seen !! k = Some y -> fisnan L y = false -> better v y = true
  end.

(** The IQR rule: [x] lies below Q1 - 1.5 * IQR or above Q3 + 1.5 * IQR. *)
Definition iqr_outlier {num} (L : Lib num) (Q1 Q3 x : num) : bool :=
  let IQR := fsub L Q3 Q1 in
  flt L x (fsub L Q1 (fmul L (float_of_Q L 1.5) IQR))
  || flt L (fadd L Q3 (fmul L (float_of_Q L 1.5) IQR)) x.

(** [iqr_count L col n]: [n] values of [col] are outliers by the IQR rule,
    the quartiles being those of [col]. *)
Definition iqr_count {num} (L : Lib num) (col : list (cell num)) (n : nat) : Prop :=
  exists Q1 Q3 xs,
    quantile L col 0.25 = Ret Q1 /\ quantile L col 0.75 = Ret Q3 /\
    omapM (to_float L) col = Ret xs /\
    n = length (List.filter (iqr_outlier L Q1 Q3) xs).

(** [zscore_count L col n]: [n] values of [col] have a z-score above 3 in
    absolute value. *)
Definition zscore_count {num} (L : Lib num) (col : list (cell num)) (n : nat) : Prop :=
  exists zs,
    zscore L col = Ret zs /\
    n = length (List.filter (fun z => flt L (float3 L) (fabs L z)) zs).

(** What the four loops of the outlier identification write for the
    variable [var] of the table [d]. *)
Definition box_plot {num} (d : DataFrame num) (var : string) (out : list (event num)) : Prop :=
  exists col, getitem d var = Ret col /\ out = [Shown "Box plot of {}" [VStr var; VCells col]].

Definition iqr_line {num} (L : Lib num) (d : DataFrame num) (var : string)
    (out : list (event num)) : Prop :=
  exists col n,
    getitem d var = Ret col /\ iqr_count L col n /\
    out = [Printed "Number of outliers in {} using IQR: {}" [VStr var; VInt (Z.of_nat n)]].

Definition zscore_line {num} (L : Lib num) (d : DataFrame num) (var : string)
    (out : list (event num)) : Prop :=
  exists col n,
    getitem d var = Ret col /\ zscore_count L col n /\
    out = [Printed "Number of outliers in {} using Z-score: {}" [VStr var; VInt (Z.of_nat n)]].

Definition skewness_report {num} (L : Lib num) (d : DataFrame num) (var : string)
    (out : list (event num)) : Prop :=
  exists col skewness,
    getitem d var = Ret col /\ skew L col = Ret skewness /\
    out = [ Shown "Distribution of {} (Skewness: {:.2f})"
              [VStr var; VFloat skewness; VCells col];
            Printed "Skewness of {}: {}" [VStr var; VFloat skewness] ].

(** The position, among the rows a mask keeps, of the row at position [i]. *)
Definition position_among_kept (keep : list bool) (i : nat) : nat :=
  count_true (take i keep).

(** ** Example tables *)

Module Examples.
Import QInstance.

Definition ints (l : list Z) : list (cell Q) := List.map CInt l.
Definition floats (l : list Z) : list (cell Q) := List.map (fun z => CFloat (inject_Z z)) l.
Definition strs (l : list string) : list (cell Q) := List.map CStr l.

(** Three sales, the third a repeat of the first, one street missing. *)
Definition small : DataFrame Q :=
  mkFrame [0; 1; 2]
    [ ("price", floats [313000; 2384000; 313000]);
      ("bedrooms", floats [3; 5; 3]);
      ("street", [CNull; CStr "709 W Blaine St"; CNull]) ].

(** Five sales with the eighteen columns of the CSV. The last one stands on
    a much larger lot than the others. *)
Definition raw : DataFrame Q :=
  mkFrame [0; 1; 2; 3; 4]
    [ ("date", strs ["2014-05-02"; "2014-05-02"; "2014-05-03"; "2014-05-04"; "2014-05-04"]);
      ("price", floats [313000; 2384000; 342000; 420000; 550000]);
      ("bedrooms", floats [3; 5; 3; 3; 4]);
      ("bathrooms", floats [2; 3; 2; 2; 3]);
      ("sqft_living", ints [1340; 3650; 1930; 2000; 1940]);
      ("sqft_lot", ints [7000; 8000; 9000; 10000; 30000]);
      ("floors", floats [1; 2; 1; 1; 1]);
      ("waterfront", ints [0; 0; 0; 0; 0]);
      ("view", ints [0; 4; 0; 0; 0]);
      ("condition", ints [3; 5; 4; 4; 4]);
      ("sqft_above", ints [1340; 3370; 1930; 1000; 1140]);
      ("sqft_basement", ints [0; 280; 0; 1000; 800]);
      ("yr_built", ints [1955; 1921; 1966; 1963; 1976]);
      ("yr_renovated", ints [2005; 0; 0; 0; 1992]);
      ("street", strs ["18810 Densmore Ave N"; "709 W Blaine St"; "26206 143rd Ave SE";
                       "857 170th Pl NE"; "9105 170th Ave NE"]);
      ("city", strs ["Shoreline"; "Seattle"; "Kent"; "Bellevue"; "Redmond"]);
      ("statezip", strs ["WA 98133"; "WA 98119"; "WA 98042"; "WA 98008"; "WA 98052"]);
      ("country", strs ["USA"; "USA"; "USA"; "USA"; "USA"]) ].

Definition with_raw : state Q := mkState [] {[ 0%nat := raw ]} 0 0.

(** [raw] after the feature selection. *)
Definition chosen : DataFrame Q :=
  mkFrame [0; 1; 2; 3; 4]
    [ ("bedrooms", floats [3; 5; 3; 3; 4]);
      ("bathrooms", floats [2; 3; 2; 2; 3]);
      ("sqft_living", ints [1340; 3650; 1930; 2000; 1940]);
      ("sqft_lot", ints [7000; 8000; 9000; 10000; 30000]);
      ("sqft_above", ints [1340; 3370; 1930; 1000; 1140]);
      ("street", strs ["18810 Densmore Ave N"; "709 W Blaine St"; "26206 143rd Ave SE";
                       "857 170th Pl NE"; "9105 170th Ave NE"]);
      ("city", strs ["Shoreline"; "Seattle"; "Kent"; "Bellevue"; "Redmond"]);
      ("statezip", strs ["WA 98133"; "WA 98119"; "WA 98042"; "WA 98008"; "WA 98052"]);
      ("yr_built", ints [1955; 1921; 1966; 1963; 1976]);
      ("price", floats [313000; 2384000; 342000; 420000; 550000]) ].

Definition with_chosen : state Q := mkState [] {[ 0%nat := chosen ]} 0 0.

(** Seventeen sales; sixteen houses have three bedrooms, the last has twenty. *)
Definition spiky : DataFrame Q :=
  mkFrame (List.map Z.of_nat (seq 0 17))
    [ ("bedrooms", floats (replicate 16 3 ++ [20]));
      ("bathrooms", floats [1; 2; 1; 2; 1; 2; 1; 2; 1; 2; 1; 2; 1; 2; 1; 2; 1]);
      ("sqft_living", ints (List.map (fun i => 1000 + 100 * Z.of_nat i) (seq 0 17)));
      ("sqft_lot", ints (List.map (fun i => 5000 + 500 * Z.of_nat i) (seq 0 17)));
      ("sqft_above", ints (List.map (fun i => 900 + 100 * Z.of_nat i) (seq 0 17)));
      ("price", floats (List.map (fun i => 300000 + 10000 * Z.of_nat i) (seq 0 17))) ].

Definition with_spiky : state Q := mkState [] {[ 0%nat := spiky ]} 0 0.

(** A split of four scaled rows for training and two for testing. *)
Definition train_X : DataFrame Q :=
  mkFrame [0; 1; 2; 3] [ ("bedrooms", floats [-1; 1; -1; 1]); ("sqft_lot", floats [0; 1; 0; -1]) ].

Definition test_X : DataFrame Q :=
  mkFrame [4; 5] [ ("bedrooms", floats [1; -1]); ("sqft_lot", floats [2; 0]) ].

Definition train_y : list (cell Q) := floats [300000; 500000; 340000; 460000].

Definition test_y : list (cell Q) := floats [420000; 380000].

(** A metrics table in which one model wins on both counts, and one in
    which the winners differ. *)
Definition agreed : list (@metrics_row Q) :=
  [ mkRow "Multiple Linear Regression" 3%Q 16%Q 4%Q 0.5%Q;
    mkRow "Random Forest" 2%Q 9%Q 3%Q 0.7%Q;
    mkRow "XGBoost" 2%Q 9%Q 3%Q 0.6%Q ].

Definition split_vote : list (@metrics_row Q) :=
  [ mkRow "Multiple Linear Regression" 3%Q 16%Q 4%Q 0.8%Q;
    mkRow "Random Forest" 2%Q 9%Q 3%Q 0.7%Q ].

Definition some_predictions : list (string * list Q) :=
  [ ("Multiple Linear Regression", [400000%Q; 400000%Q]);
    ("Random Forest", [410000%Q; 390000%Q]);
    ("XGBoost", [415000%Q; 380000%Q]) ].

Definition cycle (l : list string) (n : nat) : list string :=
  List.map (fun i => nth (i mod length l) l "") (seq 0 n).

Definition by_row (f : Z -> Z) (n : nat) : list Z :=
  List.map (fun i => f (Z.of_nat i)) (seq 0 n).

(** Twenty sales with the eighteen columns of the CSV. *)
Definition sales : DataFrame Q :=
  mkFrame (by_row id 20)
    [ ("date", strs (cycle ["2014-05-02"; "2014-05-03"; "2014-05-04"; "2014-05-05"] 20));
      ("price", floats (by_row (fun i => 300000 + 10000 * i + 5000 * (i mod 3)) 20));
      ("bedrooms", floats (by_row (fun i => 2 + i mod 4) 20));
      ("bathrooms", floats (by_row (fun i => 1 + i mod 3) 20));
      ("sqft_living", ints (by_row (fun i => 1000 + 100 * i) 20));
      ("sqft_lot", ints (by_row (fun i => 5000 + 300 * ((7 * i) mod 20)) 20));
      ("floors", floats (by_row (fun i => 1 + i mod 2) 20));
      ("waterfront", ints (by_row (fun i => i mod 2) 20));
      ("view", ints (by_row (fun i => i mod 5) 20));
      ("condition", ints (by_row (fun i => 3 + i mod 3) 20));
      ("sqft_above", ints (by_row (fun i => 900 + 90 * i) 20));
      ("sqft_basement", ints (by_row (fun i => 100 * (i mod 4)) 20));
      ("yr_built", ints (by_row (fun i => 1950 + 3 * i) 20));
      ("yr_renovated", ints (by_row (fun i => if (i mod 4 =? 0)%Z then 2000 + i else 0) 20));
      ("street", strs (cycle ["709 W Blaine St"; "857 170th Pl NE"; "9105 170th Ave NE"] 20));
      ("city", strs (cycle ["Seattle"; "Kent"; "Bellevue"; "Redmond"] 20));
      ("statezip", strs (cycle ["WA 98119"; "WA 98042"; "WA 98008"; "WA 98052"] 20));
      ("country", strs (cycle ["USA"] 20)) ].

(** Two constant columns side by side, then one that varies. *)
Definition flat : DataFrame Q :=
  mkFrame [0; 1; 2]
    [ ("waterfront", ints [0; 0; 0]); ("view", ints [0; 0; 0]); ("condition", ints [3; 4; 5]) ].

Definition with_flat : state Q := mkState [] {[ 0%nat := flat ]} 0 0.

(** An encoded table whose rows kept the labels 0, 2 and 5 of the sales
    that survived the removal of outliers. *)
Definition kept : DataFrame Q :=
  mkFrame [0; 2; 5]
    [ ("bedrooms", floats [3; 4; 5]);
      ("city", floats [400000; 500000; 450000]);
      ("price", floats [300000; 500000; 400000]) ].

Definition with_kept : state Q := mkState [] {[ 0%nat := kept ]} 0 0.

(** Ten sales; nine have no bedroom and the last has ten, which puts its
    z-score at 3 exactly. *)
Definition edge : DataFrame Q :=
  mkFrame (by_row id 10)
    [ ("bedrooms", floats (replicate 9 0 ++ [10]));
      ("bathrooms", floats (by_row (fun i => 1 + i mod 2) 10));
      ("sqft_living", ints (by_row (fun i => 1000 + 100 * i) 10));
      ("sqft_lot", ints (by_row (fun i => 5000 + 500 * i) 10));
      ("sqft_above", ints (by_row (fun i => 900 + 100 * i) 10));
      ("price", floats (by_row (fun i => 300000 + 10000 * i) 10)) ].

Definition with_edge : state Q := mkState [] {[ 0%nat := edge ]} 0 0.

(** [spiky] with the years of construction, the sixth variable that the
    identification examines. *)
Definition surveyed : DataFrame Q :=
  mkFrame (df_index spiky)
    (df_columns spiky ++ [ ("yr_built", ints (by_row (fun i => 1950 + 3 * i) 17)) ]).

Definition with_surveyed : state Q := mkState [] {[ 0%nat := surveyed ]} 0 0.

Definition with_small : state Q := mkState [] {[ 0%nat := small ]} 0 0.

End Examples.

(** * Properties *)

(** ** Running the monad *)

Section Running.
Context {num : Type} {num_eq_dec : EqDecision num} (L : Lib num).

Lemma run_bind {A B} (m : M num A) (k : A -> M num B) e s :
  (m ≫= k) e s =
  match m e s with
  | (Ret a, s') => k a e s'
  | (Raise x, s') => (Raise x, s')
  end.
Proof. reflexivity. Qed.

Lemma run_ret {A} (a : A) (e : env num) s : (mret a : M num A) e s = (Ret a, s).
Proof. reflexivity. Qed.

Lemma deref_live l (d : DataFrame num) e s :
  heap s !! l = Some d -> deref l e s = (Ret d, s).
Proof. intros H. unfold deref. now rewrite H. Qed.

Lemma deref_new l (d : DataFrame num) e s :
  deref l e (with_object s l d) = (Ret d, with_object s l d).
Proof. apply deref_live. cbn. apply lookup_insert_eq. Qed.

Lemma frame_getitem_run l c (d : DataFrame num) e s :
  heap s !! l = Some d -> frame_getitem l c e s = (getitem d c, s).
Proof.
  intros H. unfold frame_getitem. rewrite run_bind, (deref_live l d) by exact H. reflexivity.
Qed.

Lemma frame_setitem_run l c (col : list (cell num)) (d : DataFrame num) e s :
  heap s !! l = Some d ->
  frame_setitem l c col e s =
  match setitem d c col with
  | Ret d' => (Ret tt, with_object s l d')
  | Raise x => (Raise x, s)
  end.
Proof.
  intros H. unfold frame_setitem. rewrite run_bind, (deref_live l d) by exact H.
  rewrite run_bind. unfold lift at 1. now destruct (setitem d c col).
Qed.

Lemma heap_with_object (s : state num) l (d : DataFrame num) :
  heap (with_object s l d) !! l = Some d.
Proof. cbn. apply lookup_insert_eq. Qed.

End Running.

(** ** C1: [load_dataset] *)

(** C1 (as amended). For every file path, [load_dataset] returns the table
    read from the CSV (a new object holding it, after printing its head) when
    [read_csv] succeeds; it prints a diagnostic and returns [None] in three
    classes of failure, tried in this order: [FileNotFoundError],
    [EmptyDataError], any other exception deriving from [Exception]; and an
    exception that does not derive from [Exception] escapes [load_dataset]
    with nothing printed. *)
Theorem load_dataset_outcomes {num} (L : Lib num) (path : string) (e : env num) (s : state num) :
  load_dataset L path e s =
  match read_csv L path with
  | Ret d =>
      let l := fresh (dom (heap s)) in
      (Ret (Some l), emit (with_object s l d) (Printed "{}" [VFrame (head d)]))
  | Raise x =>
      if isinstance x FileNotFoundError then (Ret None, emit s not_found_message)
      else if isinstance x EmptyDataError then (Ret None, emit s empty_message)
      else if isinstance x Exception then (Ret None, emit s (error_message x))
      else (Raise x, s)
  end.
Proof.
  unfold load_dataset, try_except.
  rewrite run_bind. unfold lift at 1.
  destruct (read_csv L path) as [d|x].
  - rewrite run_bind. unfold new_frame at 1. cbv zeta.
    rewrite run_bind.
    change (mkState (stdout s) (<[fresh (dom (heap s)):=d]> (heap s)) (ticks s) (draws s))
      with (with_object s (fresh (dom (heap s))) d).
    rewrite deref_new. reflexivity.
  - cbn [find fst snd].
    destruct (isinstance x FileNotFoundError); [reflexivity|].
    destruct (isinstance x EmptyDataError); [reflexivity|].
    destruct (isinstance x Exception); reflexivity.
Qed.

(** C1 (as stated) fails: a [KeyboardInterrupt] raised while the file is
    read is not caught by [except Exception] and escapes [load_dataset]. *)
Lemma load_dataset_lets_interrupt_escape :
  load_dataset (QInstance.QLib QInstance.interrupted) file_path QInstance.a_clock initial_state
  = (Raise (mkExn KeyboardInterrupt ""), initial_state).
Proof. reflexivity. Qed.

(** ** C8: [check_data_quality] *)

(** What the duplicate count counts: the rows equal to an earlier row. *)
Lemma duplicated_from_flags {num} `{EqDecision num}
    (seen rows : list (list (option (cell num)))) (i : nat) :
  duplicated_from seen rows !! i = Some true <->
  exists r, rows !! i = Some r /\
    (r ∈ seen \/ exists j, (j < i)%nat /\ rows !! j = Some r).
Proof.
  revert seen i. induction rows as [|r0 rows IH]; intros seen i.
  - split; [discriminate | now intros (r & Hr & _)].
  - destruct i as [|i]; cbn.
    + split.
      * intros [= Hin]. apply bool_decide_eq_true in Hin. exists r0. split; [reflexivity | now left].
      * intros (r & [= <-] & [Hin | (j & Hj & _)]); [|lia].
        f_equal. now apply bool_decide_eq_true.
    + rewrite IH. split.
      * intros (r & Hr & [Hin | (j & Hj & Hjr)]); exists r; (split; [exact Hr|]).
        -- apply elem_of_cons in Hin as [-> | Hin]; [right; exists 0%nat; split; [lia | reflexivity] | now left].
        -- right. exists (S j). split; [lia | exact Hjr].
      * intros (r & Hr & [Hin | (j & Hj & Hjr)]); exists r; (split; [exact Hr|]).
        -- left. now right.
        -- destruct j as [|j]; cbn in Hjr.
           ++ injection Hjr as ->. left. now left.
           ++ right. exists j. split; [lia | exact Hjr].
Qed.

Lemma duplicated_flags {num} `{EqDecision num} (d : DataFrame num) (i : nat) :
  duplicated d !! i = Some true <->
  exists r, frame_rows d !! i = Some r /\
    exists j, (j < i)%nat /\ frame_rows d !! j = Some r.
Proof.
  unfold duplicated. rewrite duplicated_from_flags. split.
  - intros (r & Hr & [Hin | Hj]); [now apply elem_of_nil in Hin | now exists r].
  - intros (r & Hr & Hj). exists r. split; [exact Hr | now right].
Qed.

(** C8. For every input, a table or [None], [check_data_quality] returns
    [None]: for a table it prints the number of duplicate rows and the null
    count of each column, for [None] it prints a message and raises
    nothing; it leaves every table, its argument included, as it was. *)
Theorem check_data_quality_prints {num} `{EqDecision num} (L : Lib num)
    (data_set : option nat) (e : env num) (s : state num) :
  (forall l, data_set = Some l -> is_Some (heap s !! l)) ->
  exists out,
    check_data_quality L data_set e s
      = (Ret tt, mkState (stdout s ++ out) (heap s) (ticks s) (draws s)) /\
    out = match data_set with
          | None => [none_message]
          | Some l => from_option (quality_report L) [] (heap s !! l)
          end.
Proof.
  intros Hlive. destruct data_set as [l|]; cbn.
  - destruct (Hlive l eq_refl) as [d Hd]. rewrite Hd. cbn.
    exists (quality_report L d). split; [|reflexivity].
    rewrite run_bind, (deref_live l d) by assumption.
    unfold quality_report, print, mbind, M_bind, emit. cbn.
    now rewrite <- !app_assoc.
  - exists [none_message]. split; reflexivity.
Qed.

Lemma check_data_quality_prints_witness :
  exists out,
    check_data_quality (QInstance.QLib QInstance.no_files) (Some 0%nat) QInstance.a_clock
      Examples.with_small
      = (Ret tt, mkState (stdout Examples.with_small ++ out) (heap Examples.with_small) 0 0) /\
    out = [ Printed "Number of duplicate rows: {}" [VInt 1];
            Printed "Null values in each column:" [];
            Printed "{}" [VCounts [("price", 0%nat); ("bedrooms", 0%nat); ("street", 2%nat)]] ].
Proof.
  destruct (check_data_quality_prints (QInstance.QLib QInstance.no_files) (Some 0%nat)
              QInstance.a_clock Examples.with_small) as [out [Hrun Hout]].
  - intros l Hl. injection Hl as <-. exists Examples.small. reflexivity.
  - exists out. split; [exact Hrun|]. rewrite Hout. reflexivity.
Defined.

(** ** C2: the caller never checks for [None] *)

(** C2. When [load_dataset] returns [None], the script goes on:
    [check_data_quality] prints its message, and the first method call on
    the result, [data_set.info()], raises an [AttributeError] that nothing
    handles; the run ends there. *)
Theorem script_fails_on_none {num} `{EqDecision num} (L : Lib num)
    (e : env num) (s s1 : state num) :
  load_dataset L file_path e s = (Ret None, s1) ->
  script L e s = (Raise no_info, emit s1 none_message).
Proof.
  intros Hload. unfold script, inspect.
  rewrite !run_bind, Hload. reflexivity.
Qed.

Lemma script_fails_on_none_witness :
  script (QInstance.QLib QInstance.no_files) QInstance.a_clock initial_state
  = (Raise no_info, emit (emit initial_state not_found_message) none_message).
Proof.
  apply (script_fails_on_none (QInstance.QLib QInstance.no_files) QInstance.a_clock
           initial_state (emit initial_state not_found_message)).
  reflexivity.
Defined.

(** ** C9: the mutual-information step works on a copy *)

Section Frame.
Context {num : Type} {num_eq_dec : EqDecision num} (L : Lib num).

Lemma keeps_ret {A} l (a : A) : keeps l (mret a : M num A).
Proof. intros e s. reflexivity. Qed.

Lemma keeps_bind {A B} l (m : M num A) (k : A -> M num B) :
  keeps l m -> (forall a, keeps l (k a)) -> keeps l (m ≫= k).
Proof.
  intros Hm Hk e s. rewrite run_bind.
  specialize (Hm e s). destruct (m e s) as [[a|x] s']; cbn in *.
  - now rewrite Hk.
  - exact Hm.
Qed.

Lemma keeps_lift {A} l (o : outcome A) : keeps l (lift (num := num) o).
Proof. intros e s. reflexivity. Qed.

Lemma keeps_raise {A} l c msg : keeps l (raise (num := num) (A := A) c msg).
Proof. intros e s. reflexivity. Qed.

Lemma keeps_print l fmt (args : list (pyval num)) : keeps l (print fmt args).
Proof. intros e s. reflexivity. Qed.

Lemma keeps_plt_show l title (args : list (pyval num)) : keeps l (plt_show title args).
Proof. intros e s. reflexivity. Qed.

Lemma keeps_deref l l' : keeps l (deref (num := num) l').
Proof. intros e s. unfold deref. now destruct (heap s !! l'). Qed.

Lemma keeps_assign l l' (d : DataFrame num) : l <> l' -> keeps l (assign l' d).
Proof. intros Hne e s. cbn. now apply lookup_insert_ne. Qed.

Lemma keeps_for_each {A} l (items : list A) (body : A -> M num unit) :
  (forall a, keeps l (body a)) -> keeps l (for_each items body).
Proof.
  intros Hbody. induction items as [|a items IH]; cbn [for_each].
  - apply keeps_ret.
  - apply keeps_bind; [apply Hbody | intros _; exact IH].
Qed.

Lemma keeps_mapM {A B} l (f : A -> M num B) (items : list A) :
  (forall a, keeps l (f a)) -> keeps l (mapM f items).
Proof.
  intros Hf. induction items as [|a items IH]; cbn [mapM].
  - apply keeps_ret.
  - apply keeps_bind; [apply Hf | intros b].
    apply keeps_bind; [exact IH | intros bs; apply keeps_ret].
Qed.

Lemma keeps_frame_getitem l l' c : keeps l (frame_getitem (num := num) l' c).
Proof.
  unfold frame_getitem. apply keeps_bind; [apply keeps_deref | intros d; apply keeps_lift].
Qed.

Lemma keeps_frame_setitem l l' c (s : list (cell num)) :
  l <> l' -> keeps l (frame_setitem l' c s).
Proof.
  intros Hne. unfold frame_setitem.
  apply keeps_bind; [apply keeps_deref | intros d].
  apply keeps_bind; [apply keeps_lift | intros d']. now apply keeps_assign.
Qed.

(** A copy is a new object: what follows may write to the copy and still
    keep the original. *)
Lemma keeps_after_copy {B} l (k : nat -> M num B) :
  (forall copy, l <> copy -> keeps l (k copy)) -> keeps l (frame_copy l ≫= k).
Proof.
  intros Hk e s. rewrite run_bind. unfold frame_copy. rewrite run_bind.
  unfold deref at 1. destruct (heap s !! l) as [d|] eqn:Hl; [|exact Hl].
  unfold new_frame. cbv zeta.
  assert (Hfresh : l <> fresh (dom (heap s))).
  { intros Heq. apply (is_fresh (dom (heap s))). rewrite <- Heq.
    apply elem_of_dom. now exists d. }
  rewrite (Hk _ Hfresh). cbn. rewrite lookup_insert_ne by (intros Heq; now apply Hfresh).
  exact Hl.
Qed.

(** C9. The mutual-information step factorizes the columns of a copy:
    when it is over, however it ends, the table behind [data_set] is the
    one that was there before, all columns included. *)
Theorem mutual_information_keeps_data_set (data_set : nat) (e : env num) (s : state num) :
  heap (mutual_information L data_set e s).2 !! data_set = heap s !! data_set.
Proof.
  revert e s. change (keeps data_set (mutual_information L data_set)).
  unfold mutual_information. apply keeps_after_copy. intros mi Hmi.
  apply keeps_bind.
  { apply keeps_for_each. intros column.
    apply keeps_bind; [apply keeps_frame_getitem | intros col].
    now apply keeps_frame_setitem. }
  intros _. apply keeps_bind; [apply keeps_deref | intros d].
  apply keeps_bind; [apply keeps_lift | intros features].
  apply keeps_bind.
  { apply keeps_mapM. intros col.
    apply keeps_bind; [apply keeps_frame_getitem | intros; apply keeps_ret]. }
  intros discrete.
  apply keeps_bind; [apply keeps_lift | intros X].
  apply keeps_bind; [apply keeps_lift | intros y].
  apply keeps_bind; [apply (keeps_ret _ (Seeded 0)) | intros rng].
  apply keeps_bind; [apply keeps_lift | intros mi_scores].
  apply keeps_bind; [apply keeps_lift | intros names].
  apply keeps_bind.
  { case_bool_decide; [apply keeps_ret | apply keeps_raise]. }
  intros _. cbv zeta.
  apply keeps_bind; [apply keeps_print | intros _].
  apply keeps_bind; [apply keeps_plt_show | intros _]. apply keeps_ret.
Qed.

End Frame.

(** Takes a goal [keeps l m] apart along the structure of [m], for an [m]
    that only reads, prints and plots. *)
Ltac keeps_step :=
  first
    [ apply keeps_ret | apply keeps_lift | apply keeps_raise | apply keeps_print
    | apply keeps_plt_show | apply keeps_deref | apply keeps_frame_getitem
    | apply keeps_for_each; intros ?
    | apply keeps_mapM; intros ?
    | apply keeps_bind; [|intros ?] ].

(** On [Examples.raw] the step turns the cities of the copy (object 1)
    into codes and leaves the table it was given (object 0) alone. *)
Example mutual_information_writes_to_the_copy :
  (fun s : state Q => (heap s !! 0%nat, d ← heap s !! 1%nat; returned (getitem d "city")))
    (mutual_information (QInstance.QLib QInstance.no_files) 0 QInstance.a_clock
       Examples.with_raw).2
  = (Some Examples.raw, Some (Examples.ints [0; 1; 2; 3; 4])).
Proof. vm_compute. reflexivity. Qed.

(** ** The loop that prunes constant columns always ends *)

Section Pruning.
Context {num : Type} {num_eq_dec : EqDecision num} (L : Lib num).

Lemma length_list_remove (x : string) (l : list string) :
  (length (list_remove x l) <= length l)%nat.
Proof.
  induction l as [|a l IH]; cbn; [lia|]. case_bool_decide; cbn; lia.
Qed.

(** [prune_constant] is given the length of the list as its bound; any
    bound that covers the positions still to visit gives the same run, so
    the bound never cuts the loop short. *)
Lemma prune_constant_bound (steps steps' i : nat) (data_set : nat) (vars : list string)
    (e : env num) (s : state num) :
  (length vars - i <= steps)%nat -> (length vars - i <= steps')%nat ->
  prune_constant L steps i data_set vars e s = prune_constant L steps' i data_set vars e s.
Proof.
  revert steps' i vars s. induction steps as [|steps IH]; intros steps' i vars s Hs Hs'.
  - assert (Hnone : vars !! i = None) by (apply lookup_ge_None; lia).
    destruct steps'; cbn [prune_constant]; [reflexivity | now rewrite Hnone].
  - cbn [prune_constant]. destruct (vars !! i) as [var|] eqn:Hi.
    + assert (Hlt : (i < length vars)%nat) by (apply lookup_lt_is_Some; eauto).
      destruct steps' as [|steps']; [lia|]. cbn [prune_constant]. rewrite Hi.
      rewrite !run_bind. destruct (frame_getitem data_set var e s) as [[col|x] s1]; [|reflexivity].
      pose proof (length_list_remove var vars).
      destruct (nunique L col <=? 1)%nat.
      * rewrite !run_bind. destruct (print _ _ e s1) as [[[]|x] s2]; [|reflexivity].
        apply IH; lia.
      * apply IH; lia.
    + destruct steps'; cbn [prune_constant]; [reflexivity | now rewrite Hi].
Qed.

End Pruning.

(** ** C7: feature selection *)

Section Selection.
Context {num : Type} {num_eq_dec : EqDecision num} (L : Lib num).

Lemma omapM_Forall2 {A B} (f : A -> outcome B) (l : list A) (bs : list B) :
  omapM f l = Ret bs -> Forall2 (fun a b => f a = Ret b) l bs.
Proof.
  revert bs. induction l as [|a l IH]; intros bs H; cbn in H.
  - injection H as <-. constructor.
  - destruct (f a) as [b|x] eqn:Hfa; cbn in H; [|discriminate].
    destruct (omapM f l) as [bs'|x] eqn:Hl; cbn in H; [|discriminate].
    injection H as <-. constructor; [exact Hfa | now apply IH].
Qed.

(** With distinct labels, at most one column carries a given label. *)
Lemma filter_named_unique (c : string) (cols : list (string * list (cell num))) :
  NoDup cols.*1 ->
  List.filter (named c) cols = match find (named c) cols with Some p => [p] | None => [] end.
Proof.
  induction cols as [|p cols IH]; intros Hnd; [reflexivity|].
  rewrite fmap_cons in Hnd. apply NoDup_cons in Hnd as [Hp Hnd].
  cbn [List.filter find]. destruct (named c p) eqn:Hc.
  - f_equal. rewrite (IH Hnd).
    destruct (find (named c) cols) as [q|] eqn:Hq; [|reflexivity].
    exfalso. apply find_some in Hq as [Hin Hq]. unfold named in Hc, Hq.
    apply bool_decide_eq_true in Hc, Hq. apply Hp. rewrite Hc, <- Hq.
    apply list_elem_of_fmap. exists q. split; [reflexivity|]. now apply list_elem_of_In.
  - now apply IH.
Qed.

Lemma getitem_list_columns (d d' : DataFrame num) (cols : list string) :
  NoDup (columns d) ->
  getitem_list d cols = Ret d' ->
  df_index d' = df_index d /\
  Forall2 (fun c p => p.1 = c /\ getitem d c = Ret p.2) cols (df_columns d').
Proof.
  intros Hnd H. unfold getitem_list in H.
  destruct (omapM _ cols) as [pss|x] eqn:Hpss; cbn in H; [|discriminate].
  injection H as <-. cbn. split; [reflexivity|].
  apply omapM_Forall2 in Hpss. induction Hpss as [|c ps cols pss Hc _ IH]; cbn.
  - constructor.
  - rewrite (filter_named_unique c _ Hnd) in Hc.
    destruct (find (named c) (df_columns d)) as [p|] eqn:Hp; [|discriminate].
    injection Hc as <-. cbn. constructor; [|exact IH].
    split; [|unfold getitem; now rewrite Hp]. apply find_some in Hp as [_ Hp].
    unfold named in Hp. now apply bool_decide_eq_true in Hp.
Qed.

Lemma getitem_selected (d : DataFrame num) (cols : list string)
    (ps : list (string * list (cell num))) (c : string) :
  Forall2 (fun c p => p.1 = c /\ getitem d c = Ret p.2) cols ps ->
  c ∈ cols ->
  match find (named c) ps with
  | Some p => Ret p.2
  | None => Raise (mkExn KeyError c)
  end = getitem d c.
Proof.
  induction 1 as [|c0 p cols ps [Hname Hget] _ IH]; intros Hin.
  - now apply elem_of_nil in Hin.
  - cbn [find]. unfold named at 1. case_bool_decide as Hc.
    + rewrite <- Hget. congruence.
    + apply IH. apply elem_of_cons in Hin as [->|Hin]; [congruence | exact Hin].
Qed.

(** C7. After the selection the name [data_set] refers to a table whose
    columns are exactly the fixed list, in its order; the rows are those of
    the table before (same labels, same order), and each selected column
    holds the values it held. *)
Theorem feature_selection_columns (data_set : nat) (d : DataFrame num)
    (e : env num) (s s' : state num) (selected : nat) :
  heap s !! data_set = Some d ->
  NoDup (columns d) ->
  feature_selection data_set e s = (Ret selected, s') ->
  exists d',
    heap s' !! selected = Some d' /\
    columns d' =
      ["bedrooms"; "bathrooms"; "sqft_living"; "sqft_lot"; "sqft_above"; "street"; "city";
       "statezip"; "yr_built"; "price"] /\
    df_index d' = df_index d /\
    forall c, c ∈ selected_features -> getitem d' c = getitem d c.
Proof.
  intros Hlive Hnd Hrun. unfold feature_selection in Hrun.
  rewrite run_bind, (deref_live _ _ _ _ Hlive) in Hrun.
  rewrite run_bind in Hrun. unfold lift at 1 in Hrun.
  destruct (getitem_list d selected_features) as [d'|x] eqn:Hsel; [|discriminate].
  rewrite run_bind in Hrun. unfold new_frame at 1 in Hrun. cbv zeta in Hrun.
  unfold frame_info in Hrun. rewrite !run_bind in Hrun.
  change (mkState (stdout s) (<[fresh (dom (heap s)):=d']> (heap s)) (ticks s) (draws s))
    with (with_object s (fresh (dom (heap s))) d') in Hrun.
  rewrite deref_new in Hrun. cbn in Hrun. injection Hrun as <- <-.
  destruct (getitem_list_columns d d' selected_features Hnd Hsel) as [Hidx Hcols].
  exists d'. cbn. rewrite lookup_insert_eq. repeat split.
  - assert (Hnames : columns d' = selected_features).
    { unfold columns. clear -Hcols.
      induction Hcols as [|c p cols ps [Hname _] _ IH]; cbn; [reflexivity|].
      now rewrite Hname, IH. }
    exact Hnames.
  - exact Hidx.
  - intros c Hc. now apply (getitem_selected d selected_features).
Qed.

End Selection.

Lemma feature_selection_columns_witness :
  exists d',
    heap (feature_selection 0 QInstance.a_clock Examples.with_raw).2 !! 1%nat = Some d' /\
    d' = Examples.chosen.
Proof.
  destruct (feature_selection_columns 0 Examples.raw QInstance.a_clock Examples.with_raw
              (feature_selection 0 QInstance.a_clock Examples.with_raw).2 1)
    as [d' [Hd' _]].
  - vm_compute. reflexivity.
  - refine (bool_decide_unpack _ _). vm_compute. exact I.
  - vm_compute. reflexivity.
  - exists d'. split; [exact Hd'|].
    assert (Hsome : Some d' = Some Examples.chosen)
      by (rewrite <- Hd'; vm_compute; reflexivity).
    now injection Hsome.
Defined.

(** ** C3: outlier identification and removal *)

Section Outliers.
Context {num : Type} {num_eq_dec : EqDecision num} (L : Lib num).

Lemma lookup_map {A B} (f : A -> B) (l : list A) (i : nat) :
  List.map f l !! i = f <$> l !! i.
Proof.
  revert i. induction l as [|a l IH]; intros [|i]; cbn; try reflexivity. apply IH.
Qed.

Lemma select_by_subset {A} (mask : list bool) (l : list A) (x : A) :
  x ∈ select_by mask l -> x ∈ l.
Proof.
  revert l. induction mask as [|b mask IH]; intros [|a l] Hx; cbn in Hx;
    try now apply elem_of_nil in Hx.
  destruct b.
  - apply elem_of_cons in Hx as [->|Hx]; [left | right; now apply IH].
  - right. now apply IH.
Qed.

(** With distinct labels, a label survives the mask exactly when the flag
    at its position is set. *)
Lemma select_by_label {A} (mask : list bool) (l : list A) (i : nat) (x : A) :
  NoDup l -> length mask = length l -> l !! i = Some x ->
  x ∈ select_by mask l <-> mask !! i = Some true.
Proof.
  revert l i. induction mask as [|b mask IH]; intros [|a l] i Hnd Hlen Hi;
    try discriminate.
  apply NoDup_cons in Hnd as [Ha Hnd]. injection Hlen as Hlen.
  destruct i as [|i]; cbn in Hi.
  - injection Hi as ->. destruct b; cbn.
    + split; [reflexivity | intros _; left].
    + split; [|discriminate]. intros Hx. apply select_by_subset in Hx. contradiction.
  - assert (Hne : x <> a).
    { intros ->. apply Ha. apply list_elem_of_lookup. now exists i. }
    specialize (IH l i Hnd Hlen Hi). destruct b; cbn.
    + rewrite elem_of_cons. rewrite <- IH. tauto.
    + exact IH.
Qed.

Lemma all_axis1_lookup (n i : nat) (cols : list (list bool)) :
  (i < n)%nat ->
  all_axis1 n cols !! i = Some (forallb (fun col => default false (col !! i)) cols).
Proof.
  intros Hi. unfold all_axis1. rewrite lookup_map, lookup_seq_lt by exact Hi. reflexivity.
Qed.

Lemma length_all_axis1 (n : nat) (cols : list (list bool)) : length (all_axis1 n cols) = n.
Proof. unfold all_axis1. now rewrite length_map, length_seq. Qed.

(** The flags of one row, read off the arrays the script builds, are the
    z-score tests of that row on the checked variables. *)
Lemma row_flags (d : DataFrame num) (vars : list string)
    (ps : list (string * list (cell num))) (zs : list (list num)) (i : nat) :
  Forall2 (fun c p => p.1 = c /\ getitem d c = Ret p.2) vars ps ->
  Forall2 (fun p z => zscore L p.2 = Ret z) ps zs ->
  forallb (fun col => default false (col !! i))
    (List.map (List.map (fun a => flt L a (float3 L))) (List.map (List.map (fabs L)) zs))
  = forallb (fun var => z_within L d var i) vars.
Proof.
  intros Hvars. revert zs.
  induction Hvars as [|c p vars ps [_ Hget] _ IH]; intros zs Hzs.
  - inversion Hzs. reflexivity.
  - inversion Hzs as [|? z ? zs' Hz Hzs']; subst. cbn [List.map forallb].
    rewrite (IH zs' Hzs'). f_equal.
    unfold z_within. rewrite Hget, Hz, !lookup_map. now destruct (z !! i).
Qed.

Lemma zscore_frame_columns (d : DataFrame num) (zs : list (list num)) :
  zscore_frame L d = Ret zs ->
  Forall2 (fun p z => zscore L p.2 = Ret z) (df_columns d) zs.
Proof.
  intros H. apply omapM_Forall2 in H.
  induction H as [|p z ps zs Hp _ IH]; constructor; [|exact IH].
  unfold mbind, outcome_bind, obind in Hp.
  destruct (zscore L p.2) as [z'|x]; [|discriminate].
  case_bool_decide; [|discriminate]. now injection Hp as ->.
Qed.

(** The pure core of the removal: which labels stay. *)
Lemma filtered_entries_keep (d cleaned : DataFrame num) (keep : list bool) :
  NoDup (df_index d) -> NoDup (columns d) ->
  filtered_entries L d = Ret keep ->
  frame_mask d keep = Ret cleaned ->
  columns cleaned = columns d /\
  forall i label, df_index d !! i = Some label ->
    label ∈ df_index cleaned <->
    forallb (fun var => z_within L d var i) variables_to_check = true.
Proof.
  intros Hidx Hcols Hkeep Hmask.
  unfold filtered_entries, mbind, outcome_bind, obind in Hkeep.
  destruct (getitem_list d variables_to_check) as [checked|x] eqn:Hchecked; [|discriminate].
  destruct (zscore_frame L checked) as [zs|x] eqn:Hzs; [|discriminate].
  injection Hkeep as <-.
  apply (getitem_list_columns d checked _ Hcols) in Hchecked as [_ Hvars].
  apply zscore_frame_columns in Hzs.
  unfold frame_mask in Hmask. case_bool_decide as Hlen; [|discriminate].
  injection Hmask as <-. cbn. split.
  - unfold columns. cbn. induction (df_columns d) as [|p ps IH]; cbn; [reflexivity|].
    now rewrite IH.
  - intros i label Hi.
    rewrite (select_by_label _ _ i label Hidx Hlen Hi).
    assert (Hlt : (i < nrows d)%nat) by (apply lookup_lt_is_Some; now exists label).
    rewrite (all_axis1_lookup _ _ _ Hlt).
    pose proof (row_flags d _ _ _ i Hvars Hzs) as Hflags.
    split.
    + intros [= Hall]. rewrite Hflags in Hall. exact Hall.
    + intros Hall. f_equal. etransitivity; [exact Hflags | exact Hall].
Qed.

(** The identification (IQR and Z-score counts, box plots, skewness) only
    reports: it changes no table. *)
Lemma outlier_identification_only_reports (data_set l : nat) (e : env num) (s : state num) :
  heap (outlier_identification L data_set e s).2 !! l = heap s !! l.
Proof.
  revert e s. change (keeps l (outlier_identification L data_set)).
  unfold outlier_identification. repeat keeps_step.
Qed.

(** *** What the identification writes *)

Lemma length_select_by {A} (mask : list bool) (l : list A) :
  length mask = length l -> length (select_by mask l) = count_true mask.
Proof.
  unfold count_true. revert l. induction mask as [|b mask IH]; intros [|a l] Hlen;
    try discriminate; [reflexivity|].
  injection Hlen as Hlen. destruct b; cbn; now rewrite IH.
Qed.

Lemma count_true_map {A} (P : A -> bool) (xs : list A) :
  count_true (List.map P xs) = length (List.filter P xs).
Proof.
  unfold count_true. induction xs as [|x xs IH]; [reflexivity|]. cbn.
  destruct (P x); cbn; now rewrite IH.
Qed.

Lemma nrows_frame_mask (d outliers : DataFrame num) (mask : list bool) :
  frame_mask d mask = Ret outliers -> nrows outliers = count_true mask.
Proof.
  unfold frame_mask. case_bool_decide as Hlen; [|discriminate]. intros [= <-].
  unfold nrows. cbn. now apply length_select_by.
Qed.

Lemma iqr_mask_count (col : list (cell num)) (mask : list bool) :
  iqr_mask L col = Ret mask -> iqr_count L col (count_true mask).
Proof.
  unfold iqr_mask, mbind, outcome_bind, obind. intros H.
  destruct (quantile L col 0.25) as [Q1|x] eqn:HQ1; [|discriminate].
  destruct (quantile L col 0.75) as [Q3|x] eqn:HQ3; [|discriminate].
  destruct (omapM (to_float L) col) as [xs|x] eqn:Hxs; [|discriminate].
  injection H as <-. exists Q1, Q3, xs.
  split; [exact HQ1|]. split; [exact HQ3|]. split; [exact Hxs|].
  exact (count_true_map (iqr_outlier L Q1 Q3) xs).
Qed.

Lemma zscore_mask_count (col : list (cell num)) (mask : list bool) :
  zscore_mask L col = Ret mask -> zscore_count L col (count_true mask).
Proof.
  unfold zscore_mask, mbind, outcome_bind, obind. intros H.
  destruct (zscore L col) as [zs|x] eqn:Hzs; [|discriminate].
  injection H as <-. exists zs. split; [exact Hzs|]. apply count_true_map.
Qed.

(** A loop whose rounds only write: what it writes is what its rounds
    write, one after the other. *)
Lemma for_each_report {A} (l : nat) (d : DataFrame num)
    (P : A -> list (event num) -> Prop) (body : A -> M num unit) (items : list A) :
  (forall a e s s', heap s !! l = Some d -> body a e s = (Ret tt, s') ->
     heap s' = heap s /\ exists out, stdout s' = (stdout s ++ out)%list /\ P a out) ->
  forall e s s', heap s !! l = Some d -> for_each items body e s = (Ret tt, s') ->
    heap s' = heap s /\
    exists outs, stdout s' = (stdout s ++ concat outs)%list /\ Forall2 P items outs.
Proof.
  intros Hbody e. induction items as [|a items IH]; intros s s' Hlive H; cbn [for_each] in H.
  - injection H as <-. split; [reflexivity|]. exists []. cbn.
    split; [now rewrite app_nil_r | constructor].
  - rewrite run_bind in H. destruct (body a e s) as [[[]|x] s1] eqn:Ha; [|discriminate].
    destruct (Hbody a e s s1 Hlive Ha) as (Hheap & out & Hout & HP).
    assert (Hlive1 : heap s1 !! l = Some d) by now rewrite Hheap.
    destruct (IH s1 s' Hlive1 H) as (Hheap' & outs & Houts & HPs).
    split; [congruence|]. exists (out :: outs). cbn [concat].
    split; [|now constructor]. now rewrite Houts, Hout, <- app_assoc.
Qed.

Lemma outlier_identification_report (data_set : nat) (d : DataFrame num)
    (e : env num) (s s' : state num) :
  heap s !! data_set = Some d ->
  outlier_identification L data_set e s = (Ret tt, s') ->
  exists boxes iqr_lines zscore_lines skews,
    stdout s' = (stdout s ++ concat boxes ++ concat iqr_lines ++ concat zscore_lines
                 ++ concat skews)%list /\
    Forall2 (box_plot d) continuous_discrete_vars boxes /\
    Forall2 (iqr_line L d) continuous_discrete_vars iqr_lines /\
    Forall2 (zscore_line L d) continuous_discrete_vars zscore_lines /\
    Forall2 (skewness_report L d) continuous_discrete_vars skews.
Proof.
  intros Hlive H. unfold outlier_identification in H.
  rewrite run_bind in H.
  destruct (for_each continuous_discrete_vars _ e s) as [[[]|x] s1] eqn:H1; [|discriminate].
  apply (for_each_report data_set d (box_plot d)) in H1
    as (Hheap1 & boxes & Hout1 & Hboxes); [| |exact Hlive].
  2:{ intros var e1 t t' Ht Hb.
      rewrite run_bind, (frame_getitem_run _ _ d) in Hb by exact Ht.
      destruct (getitem d var) as [col|x] eqn:Hcol; [|discriminate].
      unfold plt_show in Hb. injection Hb as <-. cbn. split; [reflexivity|].
      eexists. split; [reflexivity|]. exists col. split; [exact Hcol | reflexivity]. }
  assert (Hlive1 : heap s1 !! data_set = Some d) by now rewrite Hheap1.
  rewrite run_bind in H.
  destruct (for_each continuous_discrete_vars _ e s1) as [[[]|x] s2] eqn:H2; [|discriminate].
  apply (for_each_report data_set d (iqr_line L d)) in H2
    as (Hheap2 & iqr_lines & Hout2 & Hiqr); [| |exact Hlive1].
  2:{ intros var e1 t t' Ht Hb.
      rewrite run_bind, (frame_getitem_run _ _ d) in Hb by exact Ht.
      destruct (getitem d var) as [col|x] eqn:Hcol; [|discriminate].
      rewrite run_bind in Hb. unfold lift at 1 in Hb.
      destruct (iqr_mask L col) as [mask|x] eqn:Hmask; [|discriminate].
      rewrite run_bind, (deref_live _ d) in Hb by exact Ht.
      rewrite run_bind in Hb. unfold lift at 1 in Hb.
      destruct (frame_mask d mask) as [outliers|x] eqn:Houtliers; [|discriminate].
      unfold print in Hb. injection Hb as <-. cbn. split; [reflexivity|].
      eexists. split; [reflexivity|]. exists col, (count_true mask).
      split; [exact Hcol|]. split; [now apply iqr_mask_count|].
      now rewrite (nrows_frame_mask d outliers mask Houtliers). }
  assert (Hlive2 : heap s2 !! data_set = Some d) by now rewrite Hheap2.
  rewrite run_bind in H.
  destruct (for_each continuous_discrete_vars _ e s2) as [[[]|x] s3] eqn:H3; [|discriminate].
  apply (for_each_report data_set d (zscore_line L d)) in H3
    as (Hheap3 & zscore_lines & Hout3 & Hzscore); [| |exact Hlive2].
  2:{ intros var e1 t t' Ht Hb.
      rewrite run_bind, (frame_getitem_run _ _ d) in Hb by exact Ht.
      destruct (getitem d var) as [col|x] eqn:Hcol; [|discriminate].
      rewrite run_bind in Hb. unfold lift at 1 in Hb.
      destruct (zscore_mask L col) as [mask|x] eqn:Hmask; [|discriminate].
      rewrite run_bind, (deref_live _ d) in Hb by exact Ht.
      rewrite run_bind in Hb. unfold lift at 1 in Hb.
      destruct (frame_mask d mask) as [outliers|x] eqn:Houtliers; [|discriminate].
      unfold print in Hb. injection Hb as <-. cbn. split; [reflexivity|].
      eexists. split; [reflexivity|]. exists col, (count_true mask).
      split; [exact Hcol|]. split; [now apply zscore_mask_count|].
      now rewrite (nrows_frame_mask d outliers mask Houtliers). }
  assert (Hlive3 : heap s3 !! data_set = Some d) by now rewrite Hheap3.
  apply (for_each_report data_set d (skewness_report L d)) in H
    as (_ & skews & Hout4 & Hskews); [| |exact Hlive3].
  2:{ intros var e1 t t' Ht Hb.
      rewrite run_bind, (frame_getitem_run _ _ d) in Hb by exact Ht.
      destruct (getitem d var) as [col|x] eqn:Hcol; [|discriminate].
      rewrite run_bind in Hb. unfold lift at 1 in Hb.
      destruct (skew L col) as [skewness|x] eqn:Hskew; [|discriminate].
      rewrite run_bind, (frame_getitem_run _ _ d), Hcol in Hb by exact Ht.
      rewrite run_bind in Hb. unfold lift at 1 in Hb. rewrite Hskew in Hb.
      unfold mbind, M_bind, plt_show, print in Hb. cbn in Hb. injection Hb as <-. cbn.
      split; [reflexivity|]. eexists. split; [now rewrite <- app_assoc|].
      exists col, skewness. split; [exact Hcol|]. split; [exact Hskew | reflexivity]. }
  exists boxes, iqr_lines, zscore_lines, skews.
  split; [|now repeat split].
  rewrite Hout4, Hout3, Hout2, Hout1. now rewrite <- !app_assoc.
Qed.

(** *** What the removal keeps *)

Lemma filtered_entries_flags (d : DataFrame num) (keep : list bool) :
  NoDup (columns d) ->
  filtered_entries L d = Ret keep ->
  length keep = nrows d /\
  forall i, (i < nrows d)%nat ->
    keep !! i = Some (forallb (fun var => z_within L d var i) variables_to_check).
Proof.
  intros Hcols Hkeep.
  unfold filtered_entries, mbind, outcome_bind, obind in Hkeep.
  destruct (getitem_list d variables_to_check) as [checked|x] eqn:Hchecked; [|discriminate].
  destruct (zscore_frame L checked) as [zs|x] eqn:Hzs; [|discriminate].
  injection Hkeep as <-.
  apply (getitem_list_columns d checked _ Hcols) in Hchecked as [_ Hvars].
  apply zscore_frame_columns in Hzs.
  split; [apply length_all_axis1|]. intros i Hi.
  rewrite (all_axis1_lookup _ _ _ Hi). f_equal.
  exact (row_flags d _ _ _ i Hvars Hzs).
Qed.

Lemma getitem_frame_mask (d cleaned : DataFrame num) (mask : list bool) (c : string)
    (col : list (cell num)) :
  frame_mask d mask = Ret cleaned -> getitem d c = Ret col ->
  getitem cleaned c = Ret (select_by mask col).
Proof.
  unfold frame_mask. case_bool_decide as Hlen; [|discriminate]. intros [= <-].
  unfold getitem. cbn. induction (df_columns d) as [|p ps IH]; [discriminate|]. cbn.
  unfold named at 1 3. cbn. destruct (bool_decide (p.1 = c)); [now intros [= <-] | exact IH].
Qed.

(** A kept row is found in the selection, after the kept rows before it. *)
Lemma select_by_row {A} (mask : list bool) (l : list A) (i : nat) (x : A) :
  l !! i = Some x -> mask !! i = Some true ->
  select_by mask l !! position_among_kept mask i = Some x.
Proof.
  unfold position_among_kept, count_true.
  revert l i. induction mask as [|b mask IH]; intros [|a l] [|i] Hx Hi; try discriminate.
  - cbn in *. injection Hi as ->. exact Hx.
  - cbn in Hx, Hi. specialize (IH l i Hx Hi). destruct b; cbn; exact IH.
Qed.

(** C3 (as amended). The outlier stage detects outliers with the IQR rule
    (below Q1 - 1.5 * IQR or above Q3 + 1.5 * IQR) and with the Z-score rule
    (|z| > 3): for each of the six examined variables it prints the number
    of rows either rule flags, between the box plots and the skewness
    reports, and changes no table. It removes rows with the Z-score rule
    alone: the cleaned table, a new object which the following stages use,
    has the columns of the working table, and a row of the working table is
    in it exactly when its z-score is below 3 in absolute value on each of
    the five checked variables; the kept rows come in their order, each with
    the cells it had. So every row with |z| >= 3 on one of them is absent,
    and what the IQR rule flagged plays no part. *)
Theorem outlier_removal_by_zscore (data_set : nat) (d : DataFrame num)
    (e0 : env num) (s0 s1 : state num)
    (e : env num) (s s' : state num) (dataset_cleaned : nat) :
  heap s0 !! data_set = Some d ->
  outlier_identification L data_set e0 s0 = (Ret tt, s1) ->
  heap s !! data_set = Some d ->
  NoDup (df_index d) ->
  NoDup (columns d) ->
  outlier_removal L data_set e s = (Ret dataset_cleaned, s') ->
  (forall l e0 s0, heap (outlier_identification L data_set e0 s0).2 !! l = heap s0 !! l) /\
  (exists boxes iqr_lines zscore_lines skews,
     stdout s1 = (stdout s0 ++ concat boxes ++ concat iqr_lines ++ concat zscore_lines
                  ++ concat skews)%list /\
     Forall2 (box_plot d) continuous_discrete_vars boxes /\
     Forall2 (iqr_line L d) continuous_discrete_vars iqr_lines /\
     Forall2 (zscore_line L d) continuous_discrete_vars zscore_lines /\
     Forall2 (skewness_report L d) continuous_discrete_vars skews) /\
  exists cleaned keep,
    heap s !! dataset_cleaned = None /\
    heap s' = <[dataset_cleaned := cleaned]> (heap s) /\
    heap s' !! dataset_cleaned = Some cleaned /\
    columns cleaned = columns d /\
    (forall i label, df_index d !! i = Some label ->
       label ∈ df_index cleaned <->
       forallb (fun var => z_within L d var i)
         ["bedrooms"; "bathrooms"; "sqft_living"; "sqft_lot"; "sqft_above"] = true) /\
    length keep = nrows d /\
    (forall i, (i < nrows d)%nat ->
       keep !! i = Some (forallb (fun var => z_within L d var i)
                           ["bedrooms"; "bathrooms"; "sqft_living"; "sqft_lot"; "sqft_above"])) /\
    df_index cleaned = select_by keep (df_index d) /\
    (forall c col, getitem d c = Ret col -> getitem cleaned c = Ret (select_by keep col)) /\
    (forall i label, df_index d !! i = Some label -> keep !! i = Some true ->
       df_index cleaned !! position_among_kept keep i = Some label /\
       forall c col x, getitem d c = Ret col -> col !! i = Some x ->
         exists col', getitem cleaned c = Ret col' /\
                      col' !! position_among_kept keep i = Some x) /\
    stdout s' = (stdout s ++ [ Printed "Original dataset shape: {}" [shape d];
                               Printed "Cleaned dataset shape: {}" [shape cleaned] ])%list.
Proof.
  intros Hlive0 Hreport Hlive Hidx Hcols Hrun.
  split; [intros l e1 t; apply outlier_identification_only_reports|].
  split; [exact (outlier_identification_report data_set d e0 s0 s1 Hlive0 Hreport)|].
  unfold outlier_removal in Hrun.
  rewrite run_bind, (deref_live _ _ _ _ Hlive) in Hrun.
  rewrite run_bind in Hrun. unfold lift at 1 in Hrun.
  destruct (filtered_entries L d) as [keep|x] eqn:Hkeep; [|discriminate].
  rewrite run_bind in Hrun. unfold lift at 1 in Hrun.
  destruct (frame_mask d keep) as [cleaned|x] eqn:Hmask; [|discriminate].
  cbn in Hrun. injection Hrun as <- <-.
  exists cleaned, keep. cbn.
  destruct (filtered_entries_keep d cleaned keep Hidx Hcols Hkeep Hmask) as [Hnames Hrows].
  destruct (filtered_entries_flags d keep Hcols Hkeep) as [Hlen Hflags].
  assert (Hindex : df_index cleaned = select_by keep (df_index d)).
  { unfold frame_mask in Hmask. case_bool_decide; [|discriminate]. now injection Hmask as <-. }
  split; [apply (not_elem_of_dom (D := gset nat)), is_fresh|].
  split; [reflexivity|]. split; [apply lookup_insert_eq|].
  split; [exact Hnames|]. split; [exact Hrows|]. split; [exact Hlen|].
  split; [exact Hflags|]. split; [exact Hindex|].
  split; [intros c col; apply (getitem_frame_mask d cleaned keep c col Hmask)|].
  split; [|now rewrite <- app_assoc].
  intros i label Hlabel Hkept. split.
  - rewrite Hindex. now apply select_by_row.
  - intros c col x Hcol Hx. exists (select_by keep col).
    split; [exact (getitem_frame_mask d cleaned keep c col Hmask Hcol)|].
    now apply select_by_row.
Qed.

End Outliers.

(** C3 (as stated) fails: in [Examples.chosen] the IQR rule flags the row
    labelled 4 on [sqft_lot] (30000 lies above Q3 + 1.5 * IQR = 13000), its
    z-scores are all below 3 (1.99 on [sqft_lot]), and the cleaned table is
    the whole table, that row included. *)
Lemma iqr_flagged_row_stays :
  obind (getitem Examples.chosen "sqft_lot") (iqr_mask (QInstance.QLib QInstance.no_files))
    = Ret [false; false; false; false; true] /\
  (outlier_removal (QInstance.QLib QInstance.no_files) 0 QInstance.a_clock
     Examples.with_chosen).1 = Ret 1%nat /\
  heap (outlier_removal (QInstance.QLib QInstance.no_files) 0 QInstance.a_clock
          Examples.with_chosen).2 !! 1%nat = Some Examples.chosen.
Proof. repeat split; vm_compute; reflexivity. Qed.

Lemma outlier_removal_by_zscore_witness :
  (outlier_identification (QInstance.QLib QInstance.no_files) 0 QInstance.a_clock
     Examples.with_surveyed).1 = Ret tt /\
  exists cleaned,
    heap (outlier_removal (QInstance.QLib QInstance.no_files) 0 QInstance.a_clock
            Examples.with_surveyed).2 !! 1%nat = Some cleaned /\
    df_index cleaned = [0; 1; 2; 3; 4; 5; 6; 7; 8; 9; 10; 11; 12; 13; 14; 15].
Proof.
  destruct (outlier_identification (QInstance.QLib QInstance.no_files) 0 QInstance.a_clock
              Examples.with_surveyed) as [[[]|x] s1] eqn:Hreport;
    [|vm_compute in Hreport; discriminate].
  destruct (outlier_removal_by_zscore (QInstance.QLib QInstance.no_files) 0 Examples.surveyed
              QInstance.a_clock Examples.with_surveyed s1
              QInstance.a_clock Examples.with_surveyed
              (outlier_removal (QInstance.QLib QInstance.no_files) 0 QInstance.a_clock
                 Examples.with_surveyed).2 1)
    as (_ & _ & cleaned & keep & _ & _ & Hcleaned & _).
  - reflexivity.
  - exact Hreport.
  - reflexivity.
  - refine (bool_decide_unpack _ _). vm_compute. exact I.
  - refine (bool_decide_unpack _ _). vm_compute. exact I.
  - vm_compute. reflexivity.
  - split; [reflexivity|]. exists cleaned. split; [exact Hcleaned|].
    assert (Hsome : df_index <$> Some cleaned = Some (List.map Z.of_nat (seq 0 16))).
    { rewrite <- Hcleaned. vm_compute. reflexivity. }
    now injection Hsome.
Defined.

(** ** C6: the training loop *)

Section Training.
Context {num : Type} {num_eq_dec : EqDecision num} (L : Lib num).
Variables (X_train X_test : DataFrame num) (y_train : list (cell num)).

Lemma searches_app (out out' : list (event num)) :
  searches (out ++ out') = (searches out + searches out')%nat.
Proof. unfold searches. now rewrite List.filter_app, List.length_app. Qed.

Lemma randomness_of_seeded (model : estimator) (rng : randomness) :
  seed_of model = Some rng -> randomness_of (num := num) model = mret rng.
Proof.
  destruct model as [|[z|]|[z|]|[z|]| |[z|]]; cbn; intros H;
    try discriminate; now injection H as <-.
Qed.

(** One round with a model other than KNN: a plain [fit], then [predict]. *)
Lemma train_and_predict_plain name model rng preds e s preds' s' :
  name <> KNN ->
  seed_of model = Some rng ->
  train_and_predict L X_train X_test y_train name model preds e s = (Ret preds', s') ->
  exists m pred,
    fit L model rng X_train y_train = Ret m /\
    predict L m X_test = Ret pred /\
    preds' = dict_set name pred preds /\
    searches (stdout s') = searches (stdout s).
Proof.
  intros Hname Hrng H. unfold train_and_predict in H.
  rewrite bool_decide_eq_false_2 in H by exact Hname.
  rewrite (randomness_of_seeded model rng Hrng) in H.
  unfold mbind, M_bind, mret, M_ret, print, time_time, lift in H. cbn in H.
  destruct (fit L model rng X_train y_train) as [m|x] eqn:Hfit; [|discriminate].
  destruct (predict L m X_test) as [pred|x] eqn:Hpred; [|discriminate].
  injection H as <- <-. exists m, pred.
  split; [reflexivity|]. split; [exact Hpred|]. split; [reflexivity|]. cbn [stdout].
  rewrite !searches_app. cbn. lia.
Qed.

(** The round of KNN: a grid search over [n_neighbors] from 1 to 30 with
    10-fold cross-validation scored by R2, then [predict] with the best
    estimator it found. *)
Lemma train_and_predict_knn model preds e s preds' s' :
  train_and_predict L X_train X_test y_train KNN model preds e s = (Ret preds', s') ->
  exists g pred,
    GridSearchCV_fit L KNeighborsRegressor Unused "n_neighbors"
      [1; 2; 3; 4; 5; 6; 7; 8; 9; 10; 11; 12; 13; 14; 15; 16; 17; 18; 19; 20; 21; 22; 23;
       24; 25; 26; 27; 28; 29; 30]%nat 10 "r2" X_train y_train = Ret g /\
    predict L (best_estimator_ g) X_test = Ret pred /\
    preds' = dict_set KNN pred preds /\
    searches (stdout s') = S (searches (stdout s)).
Proof.
  intros H. unfold train_and_predict in H.
  rewrite bool_decide_eq_true_2 in H by reflexivity.
  unfold mbind, M_bind, print, time_time, lift in H. cbn in H.
  destruct (GridSearchCV_fit L _ _ _ _ _ _ X_train y_train) as [g|x] eqn:Hg; [|discriminate].
  cbn in H.
  destruct (predict L (best_estimator_ g) X_test) as [pred|x] eqn:Hpred; [|discriminate].
  injection H as <- <-. exists g, pred.
  split; [reflexivity|]. split; [exact Hpred|]. split; [reflexivity|]. cbn [stdout].
  rewrite !searches_app. cbn. lia.
Qed.

(** What a complete run of the loop has done. *)
Lemma training_loop_result e s predictions s' :
  training_loop L X_train X_test y_train models [] e s = (Ret predictions, s') ->
  exists linear forest tree boosted search xgb p1 p2 p3 p4 p5 p6,
    fit L LinearRegression Unused X_train y_train = Ret linear /\
    fit L (RandomForestRegressor (Some 2)) (Seeded 2) X_train y_train = Ret forest /\
    fit L (DecisionTreeRegressor (Some 2)) (Seeded 2) X_train y_train = Ret tree /\
    fit L (GradientBoostingRegressor (Some 2)) (Seeded 2) X_train y_train = Ret boosted /\
    GridSearchCV_fit L KNeighborsRegressor Unused "n_neighbors"
      [1; 2; 3; 4; 5; 6; 7; 8; 9; 10; 11; 12; 13; 14; 15; 16; 17; 18; 19; 20; 21; 22; 23;
       24; 25; 26; 27; 28; 29; 30]%nat 10 "r2" X_train y_train = Ret search /\
    fit L (XGBRegressor (Some 2)) (Seeded 2) X_train y_train = Ret xgb /\
    predict L linear X_test = Ret p1 /\
    predict L forest X_test = Ret p2 /\
    predict L tree X_test = Ret p3 /\
    predict L boosted X_test = Ret p4 /\
    predict L (best_estimator_ search) X_test = Ret p5 /\
    predict L xgb X_test = Ret p6 /\
    predictions =
      [ ("Multiple Linear Regression", p1); ("Random Forest", p2);
        ("Decision Tree Regression", p3); ("Boosted Decision Tree Regression", p4);
        ("K-nearest neighbors (KNN)", p5); ("XGBoost", p6) ] /\
    searches (stdout s') = S (searches (stdout s)).
Proof.
  unfold models. cbn [training_loop]. intros H.
  repeat match type of H with
  | (train_and_predict L X_train X_test y_train ?name ?model ?preds ≫= ?k) ?e ?s = _ =>
      rewrite run_bind in H;
      let preds' := fresh "preds" in
      let s1 := fresh "s" in
      let Hround := fresh "Hround" in
      destruct (train_and_predict L X_train X_test y_train name model preds e s)
        as [[preds'|?] s1] eqn:Hround; [|discriminate]
  end.
  injection H as <- <-.
  apply (train_and_predict_plain _ _ Unused) in Hround
    as (linear & p1 & ? & ? & -> & Hs1); [|discriminate|reflexivity].
  apply (train_and_predict_plain _ _ (Seeded 2)) in Hround0
    as (forest & p2 & ? & ? & -> & Hs2); [|discriminate|reflexivity].
  apply (train_and_predict_plain _ _ (Seeded 2)) in Hround1
    as (tree & p3 & ? & ? & -> & Hs3); [|discriminate|reflexivity].
  apply (train_and_predict_plain _ _ (Seeded 2)) in Hround2
    as (boosted & p4 & ? & ? & -> & Hs4); [|discriminate|reflexivity].
  apply train_and_predict_knn in Hround3 as (search & p5 & ? & ? & -> & Hs5).
  apply (train_and_predict_plain _ _ (Seeded 2)) in Hround4
    as (xgb & p6 & ? & ? & -> & Hs6); [|discriminate|reflexivity].
  exists linear, forest, tree, boosted, search, xgb, p1, p2, p3, p4, p5, p6.
  repeat (split; [assumption|]). split; [reflexivity|]. congruence.
Qed.

(** C6. A complete run of the training loop has fitted exactly six
    regressors (Linear Regression, Random Forest, Decision Tree, Gradient
    Boosting, KNN, XGBoost; the randomised ones seeded with 2). KNN,
    and only KNN, went through a hyperparameter search ([GridSearchCV] over
    [n_neighbors] 1 to 30, 10 folds, scored by R2: one search in the whole
    loop) and predicts with the best estimator found. Each of the six
    stored, under its name, its predictions on the test set. *)
Theorem training_loop_trains_six e s predictions s' :
  training_loop L X_train X_test y_train models [] e s = (Ret predictions, s') ->
  exists linear forest tree boosted search xgb,
    fit L LinearRegression Unused X_train y_train = Ret linear /\
    fit L (RandomForestRegressor (Some 2)) (Seeded 2) X_train y_train = Ret forest /\
    fit L (DecisionTreeRegressor (Some 2)) (Seeded 2) X_train y_train = Ret tree /\
    fit L (GradientBoostingRegressor (Some 2)) (Seeded 2) X_train y_train = Ret boosted /\
    GridSearchCV_fit L KNeighborsRegressor Unused "n_neighbors" (seq 1 30) 10 "r2"
      X_train y_train = Ret search /\
    fit L (XGBRegressor (Some 2)) (Seeded 2) X_train y_train = Ret xgb /\
    omapM (fun m => predict L m X_test)
      [linear; forest; tree; boosted; best_estimator_ search; xgb]
      = Ret predictions.*2 /\
    predictions.*1 =
      [ "Multiple Linear Regression"; "Random Forest"; "Decision Tree Regression";
        "Boosted Decision Tree Regression"; "K-nearest neighbors (KNN)"; "XGBoost" ] /\
    searches (stdout s') = S (searches (stdout s)).
Proof.
  intros H. apply training_loop_result in H
    as (linear & forest & tree & boosted & search & xgb & p1 & p2 & p3 & p4 & p5 & p6
        & H1 & H2 & H3 & H4 & H5 & H6 & Hp1 & Hp2 & Hp3 & Hp4 & Hp5 & Hp6 & -> & Hs).
  exists linear, forest, tree, boosted, search, xgb.
  repeat (split; [assumption|]). split; [|split; [reflexivity | exact Hs]].
  cbn. rewrite Hp1, Hp2, Hp3, Hp4, Hp5, Hp6. reflexivity.
Qed.

End Training.

Lemma training_loop_trains_six_witness :
  exists predictions,
    (training_loop (QInstance.QLib QInstance.no_files) Examples.train_X Examples.test_X
       Examples.train_y models [] QInstance.a_clock initial_state).1 = Ret predictions /\
    predictions.*1 =
      [ "Multiple Linear Regression"; "Random Forest"; "Decision Tree Regression";
        "Boosted Decision Tree Regression"; "K-nearest neighbors (KNN)"; "XGBoost" ] /\
    predictions.*2 = replicate 6 [400000%Q; 400000%Q].
Proof.
  destruct (training_loop (QInstance.QLib QInstance.no_files) Examples.train_X Examples.test_X
              Examples.train_y models [] QInstance.a_clock initial_state)
    as [[predictions|x] s'] eqn:Hrun; [|vm_compute in Hrun; discriminate].
  destruct (training_loop_trains_six (QInstance.QLib QInstance.no_files) Examples.train_X
              Examples.test_X Examples.train_y QInstance.a_clock initial_state predictions s'
              Hrun)
    as (linear & forest & tree & boosted & search & xgb & _ & _ & _ & _ & _ & _ & _ & Hnames & _).
  exists predictions. split; [reflexivity|]. split; [exact Hnames|].
  vm_compute in Hrun. now injection Hrun as <- _.
Defined.

(** ** C5: the metrics table *)

Section Evaluation.
Context {num : Type} {num_eq_dec : EqDecision num} (L : Lib num).

Lemma evaluation_loop_rows (y_test : list (cell num)) (items : list (string * list num))
    (acc rows : list metrics_row) (e : env num) (s s' : state num) :
  evaluation_loop L y_test items acc e s = (Ret rows, s') ->
  exists new, rows = (acc ++ new)%list /\ Forall2 (scores L y_test) items new.
Proof.
  revert acc. induction items as [|[name pred] items IH]; intros acc H; cbn [evaluation_loop] in H.
  - injection H as <- _. exists []. split; [now rewrite app_nil_r | constructor].
  - unfold mbind at 1, M_bind at 1, lift at 1 in H.
    destruct (mean_absolute_error L y_test pred) as [mae|x] eqn:Hmae; [|discriminate].
    unfold mbind at 1, M_bind at 1, lift at 1 in H.
    destruct (mean_squared_error L y_test pred) as [mse|x] eqn:Hmse; [|discriminate].
    cbv zeta in H. unfold mbind at 1, M_bind at 1, lift at 1 in H.
    destruct (r2_score L y_test pred) as [r2|x] eqn:Hr2; [|discriminate].
    apply IH in H as (new & -> & Hnew).
    exists (mkRow name mae mse (fsqrt L mse) r2 :: new).
    split; [now rewrite <- app_assoc|].
    constructor; [|exact Hnew]. repeat split; assumption.
Qed.

(** C5. After the evaluation loop the metrics table has one row for each
    trained model, in the order of training: the six names once each. The
    row of a model holds the MAE, MSE and R2 score of that model's
    predictions against [y_test], and its RMSE is the square root of the
    MSE of the same row. *)
Theorem metrics_one_row_per_model (X_train X_test : DataFrame num)
    (y_train y_test : list (cell num)) (e e' : env num) (s s1 s2 : state num)
    (predictions : list (string * list num)) (metrics_df : list metrics_row) :
  training_loop L X_train X_test y_train models [] e s = (Ret predictions, s1) ->
  evaluation_loop L y_test predictions [] e' s1 = (Ret metrics_df, s2) ->
  List.map Model metrics_df =
    [ "Multiple Linear Regression"; "Random Forest"; "Decision Tree Regression";
      "Boosted Decision Tree Regression"; "K-nearest neighbors (KNN)"; "XGBoost" ] /\
  Forall2 (scores L y_test) predictions metrics_df.
Proof.
  intros Htrain Heval.
  apply evaluation_loop_rows in Heval as (rows & -> & Hrows). cbn [app].
  split; [|exact Hrows].
  apply training_loop_result in Htrain
    as (? & ? & ? & ? & ? & ? & p1 & p2 & p3 & p4 & p5 & p6
        & _ & _ & _ & _ & _ & _ & _ & _ & _ & _ & _ & _ & -> & _).
  repeat match goal with
  | H : Forall2 _ (_ :: _) _ |- _ => inversion H as [|? ? ? ? [? _] ?]; subst; clear H
  | H : Forall2 _ [] _ |- _ => inversion H; subst; clear H
  end.
  cbn in *. congruence.
Qed.

End Evaluation.

Lemma metrics_one_row_per_model_witness :
  exists metrics_df,
    (evaluation_loop (QInstance.QLib QInstance.no_files) Examples.test_y
       (List.map (fun nm => (nm.1, [400000%Q; 400000%Q])) models) []
       QInstance.a_clock initial_state).1 = Ret metrics_df /\
    List.map Model metrics_df =
      [ "Multiple Linear Regression"; "Random Forest"; "Decision Tree Regression";
        "Boosted Decision Tree Regression"; "K-nearest neighbors (KNN)"; "XGBoost" ] /\
    List.map RMSE metrics_df = replicate 6 20000%Q.
Proof.
  destruct (training_loop (QInstance.QLib QInstance.no_files) Examples.train_X Examples.test_X
              Examples.train_y models [] QInstance.a_clock initial_state)
    as [[predictions|x] s1] eqn:Htrain; [|vm_compute in Htrain; discriminate].
  destruct (evaluation_loop (QInstance.QLib QInstance.no_files) Examples.test_y predictions []
              QInstance.a_clock s1)
    as [[metrics_df|x] s2] eqn:Heval.
  - destruct (metrics_one_row_per_model (QInstance.QLib QInstance.no_files) Examples.train_X
                Examples.test_X Examples.train_y Examples.test_y QInstance.a_clock
                QInstance.a_clock initial_state s1 s2 predictions metrics_df Htrain Heval)
      as [Hnames _].
    exists metrics_df. split; [|split; [exact Hnames|]].
    + vm_compute in Htrain. injection Htrain as <- <-.
      vm_compute in Heval. injection Heval as <- _. vm_compute. reflexivity.
    + vm_compute in Htrain. injection Htrain as <- <-.
      vm_compute in Heval. injection Heval as <- _. vm_compute. reflexivity.
  - vm_compute in Htrain. injection Htrain as <- <-. vm_compute in Heval. discriminate.
Defined.

(** ** C4: the choice of the best model *)

Section Choice.
Context {num : Type} {num_eq_dec : EqDecision num} (L : Lib num).
Variable better : num -> num -> bool.
Hypothesis better_irrefl : forall x, better x x = false.
Hypothesis better_trans :
  forall x y z, better x y = true -> better y z = true -> better x z = true.

Lemma first_best_champion (xs seen : list num) (best : option (nat * num)) :
  champion L better seen best ->
  champion L better (seen ++ xs) (first_best L better xs (length seen) best).
Proof.
  revert seen best. induction xs as [|x xs IH]; intros seen best Hbest; cbn [first_best].
  - now rewrite app_nil_r.
  - replace (seen ++ x :: xs)%list with ((seen ++ [x]) ++ xs)%list by now rewrite <- app_assoc.
    replace (S (length seen)) with (length (seen ++ [x])) by (rewrite length_app; cbn; lia).
    apply IH. destruct (fisnan L x) eqn:Hnan.
    + destruct best as [[j v]|]; cbn in *.
      * destruct Hbest as (Hj & Hv & Hmin). split; [|split; [exact Hv|]].
        -- apply lookup_app_l_Some. exact Hj.
        -- intros y Hy Hy'. apply elem_of_app in Hy as [Hy|Hy]; [now apply Hmin|].
           apply list_elem_of_singleton in Hy as ->. congruence.
      * intros y Hy. apply elem_of_app in Hy as [Hy|Hy]; [now apply Hbest|].
        now apply list_elem_of_singleton in Hy as ->.
    + destruct best as [[j v]|]; cbn in *.
      * destruct Hbest as (Hj & Hv & Hmin). destruct (better x v) eqn:Hxv; cbn.
        -- split; [|split; [exact Hnan|]].
           ++ rewrite lookup_app_r by lia. now rewrite Nat.sub_diag.
           ++ intros y Hy Hy'. apply elem_of_app in Hy as [Hy|Hy].
              ** destruct (better y x) eqn:Hyx; [|reflexivity].
                 rewrite <- (Hmin y Hy Hy'). symmetry. now apply (better_trans y x v).
              ** apply list_elem_of_singleton in Hy as ->. apply better_irrefl.
        -- split; [|split; [exact Hv|]].
           ++ apply lookup_app_l_Some. exact Hj.
           ++ intros y Hy Hy'. apply elem_of_app in Hy as [Hy|Hy]; [now apply Hmin|].
              now apply list_elem_of_singleton in Hy as ->.
      * split; [|split; [exact Hnan|]].
        -- rewrite lookup_app_r by lia. now rewrite Nat.sub_diag.
        -- intros y Hy Hy'. apply elem_of_app in Hy as [Hy|Hy].
           ++ rewrite (Hbest y Hy) in Hy'. discriminate.
           ++ apply list_elem_of_singleton in Hy as ->. apply better_irrefl.
Qed.

Lemma first_best_optimal (xs : list num) (j : nat) (v : num) :
  first_best L better xs 0 None = Some (j, v) ->
  xs !! j = Some v /\ fisnan L v = false /\
  forall x, x ∈ xs -> fisnan L x = false -> better x v = false.
Proof.
  intros H. pose proof (first_best_champion xs [] None) as Hc.
  cbn in Hc. rewrite H in Hc. apply Hc. intros x Hx. now apply elem_of_nil in Hx.
Qed.

End Choice.

Section Selecting.
Context {num : Type} {num_eq_dec : EqDecision num} (L : Lib num).
Hypothesis flt_irrefl : forall x, flt L x x = false.
Hypothesis flt_trans :
  forall x y z, flt L x y = true -> flt L y z = true -> flt L x z = true.

Lemma idxmin_least (xs : list num) (i : nat) :
  idxmin L xs = Ret i ->
  exists v, xs !! i = Some v /\ fisnan L v = false /\
    forall x, x ∈ xs -> fisnan L x = false -> flt L x v = false.
Proof.
  unfold idxmin. intros H.
  destruct (first_best L _ xs 0 None) as [[j v]|] eqn:Hbest; [|discriminate].
  injection H as ->. exists v.
  apply (first_best_optimal L (fun x b => flt L x b)); [exact flt_irrefl | | exact Hbest].
  intros x y z. apply flt_trans.
Qed.

Lemma idxmax_greatest (xs : list num) (i : nat) :
  idxmax L xs = Ret i ->
  exists v, xs !! i = Some v /\ fisnan L v = false /\
    forall x, x ∈ xs -> fisnan L x = false -> flt L v x = false.
Proof.
  unfold idxmax. intros H.
  destruct (first_best L _ xs 0 None) as [[j v]|] eqn:Hbest; [|discriminate].
  injection H as ->. exists v.
  apply (first_best_optimal L (fun x b => flt L b x)); [exact flt_irrefl | | exact Hbest].
  intros x y z Hxy Hyz. now apply (flt_trans z y x).
Qed.

Lemma loc_row (metrics_df : list (@metrics_row num)) (i : nat) (row : metrics_row) :
  loc metrics_df i = Ret row -> metrics_df !! i = Some row.
Proof. unfold loc. destruct (metrics_df !! i); [now intros [= ->] | discriminate]. Qed.

(** C4. The model named best by MSE is the model of a row of the metrics
    table whose MSE no other row undercuts; the model named best by R2 is
    the model of a row whose R2 score no other row exceeds. The script
    declares an overall best model exactly when the two names coincide (and
    then plots its predictions); otherwise its last line says that further
    consideration is needed. *)
Theorem model_selection_picks_best (y_test : list (cell num))
    (predictions : list (string * list num)) (metrics_df : list metrics_row)
    (e : env num) (s s' : state num) (best_mse best_r2 : string) (best : option string) :
  model_selection L y_test predictions metrics_df e s = (Ret (best_mse, best_r2, best), s') ->
  (exists row, row ∈ metrics_df /\ Model row = best_mse /\ fisnan L (MSE row) = false /\
     forall r, r ∈ metrics_df -> fisnan L (MSE r) = false -> flt L (MSE r) (MSE row) = false) /\
  (exists row, row ∈ metrics_df /\ Model row = best_r2 /\ fisnan L (R2_Score row) = false /\
     forall r, r ∈ metrics_df -> fisnan L (R2_Score r) = false ->
       flt L (R2_Score row) (R2_Score r) = false) /\
  best = (if bool_decide (best_mse = best_r2) then Some best_mse else None) /\
  exists line_mse line_r2 out,
    stdout s' = (stdout s ++ [line_mse; line_r2] ++ out)%list /\
    verdict y_test predictions best_mse best_r2 out.
Proof.
  intros H. unfold model_selection in H.
  rewrite run_bind in H. unfold lift at 1 in H.
  destruct (idxmin L (List.map MSE metrics_df)) as [i|x] eqn:Hi; [|discriminate].
  rewrite run_bind in H. unfold lift at 1 in H.
  destruct (loc metrics_df i) as [row_mse|x] eqn:Hrow_mse; [|discriminate].
  rewrite run_bind in H. unfold lift at 1 in H.
  destruct (idxmax L (List.map R2_Score metrics_df)) as [j|x] eqn:Hj; [|discriminate].
  rewrite run_bind in H. unfold lift at 1 in H.
  destruct (loc metrics_df j) as [row_r2|x] eqn:Hrow_r2; [|discriminate].
  apply loc_row in Hrow_mse, Hrow_r2.
  apply idxmin_least in Hi as (v & Hv & Hv_nan & Hv_least).
  apply idxmax_greatest in Hj as (w & Hw & Hw_nan & Hw_greatest).
  rewrite lookup_map, Hrow_mse in Hv. injection Hv as <-.
  rewrite lookup_map, Hrow_r2 in Hw. injection Hw as <-.
  assert (Hmse : exists row, row ∈ metrics_df /\ Model row = Model row_mse /\
            fisnan L (MSE row) = false /\
            forall r, r ∈ metrics_df -> fisnan L (MSE r) = false ->
              flt L (MSE r) (MSE row) = false).
  { exists row_mse. split; [apply list_elem_of_lookup; now exists i|].
    split; [reflexivity|]. split; [exact Hv_nan|].
    intros r Hr. apply Hv_least. apply list_elem_of_In, in_map, list_elem_of_In, Hr. }
  assert (Hr2 : exists row, row ∈ metrics_df /\ Model row = Model row_r2 /\
            fisnan L (R2_Score row) = false /\
            forall r, r ∈ metrics_df -> fisnan L (R2_Score r) = false ->
              flt L (R2_Score row) (R2_Score r) = false).
  { exists row_r2. split; [apply list_elem_of_lookup; now exists j|].
    split; [reflexivity|]. split; [exact Hw_nan|].
    intros r Hr. apply Hw_greatest. apply list_elem_of_In, in_map, list_elem_of_In, Hr. }
  unfold mbind, M_bind, print, plt_show, lift in H. cbn in H.
  unfold verdict. destruct (bool_decide (Model row_mse = Model row_r2)) eqn:Hsame.
  - destruct (dict_get (Model row_mse) predictions) as [predicted|x] eqn:Hget; [|discriminate].
    injection H as <- <- <- <-. rewrite Hsame, Hget.
    split; [exact Hmse|]. split; [exact Hr2|]. split; [reflexivity|].
    eexists _, _, _. cbn. split; [|eexists _, _; split; reflexivity].
    now rewrite <- !app_assoc.
  - injection H as <- <- <- <-. rewrite Hsame.
    split; [exact Hmse|]. split; [exact Hr2|]. split; [reflexivity|].
    eexists _, _, _. cbn. split; [|reflexivity].
    now rewrite <- !app_assoc.
Qed.

End Selecting.

Lemma Qlt_bool_lt (x y : Q) : QInstance.Qlt_bool x y = true <-> (x < y)%Q.
Proof.
  unfold QInstance.Qlt_bool. rewrite negb_true_iff, <- not_true_iff_false, Qle_bool_iff.
  split; [apply Qnot_le_lt | apply Qlt_not_le].
Qed.

Lemma Qlt_bool_irrefl (x : Q) : QInstance.Qlt_bool x x = false.
Proof.
  apply not_true_iff_false. rewrite Qlt_bool_lt. apply Qlt_irrefl.
Qed.

Lemma Qlt_bool_trans (x y z : Q) :
  QInstance.Qlt_bool x y = true -> QInstance.Qlt_bool y z = true ->
  QInstance.Qlt_bool x z = true.
Proof. rewrite !Qlt_bool_lt. apply Qlt_trans. Qed.

Lemma model_selection_picks_best_witness :
  (model_selection (QInstance.QLib QInstance.no_files) Examples.test_y
     Examples.some_predictions Examples.agreed QInstance.a_clock initial_state).1
  = Ret ("Random Forest", "Random Forest", Some "Random Forest") /\
  exists row, row ∈ Examples.agreed /\ Model row = "Random Forest" /\ MSE row = 9%Q.
Proof.
  destruct (model_selection (QInstance.QLib QInstance.no_files) Examples.test_y
              Examples.some_predictions Examples.agreed QInstance.a_clock initial_state)
    as [[[[best_mse best_r2] best]|x] s'] eqn:Hrun; [|vm_compute in Hrun; discriminate].
  destruct (model_selection_picks_best (QInstance.QLib QInstance.no_files)
              Qlt_bool_irrefl Qlt_bool_trans Examples.test_y Examples.some_predictions
              Examples.agreed QInstance.a_clock initial_state s' best_mse best_r2 best Hrun)
    as [(row & Hin & Hname & _ & _) _].
  vm_compute in Hrun. injection Hrun as <- <- <- _.
  split; [reflexivity|]. exists row. split; [exact Hin|]. split; [exact Hname|].
  apply list_elem_of_In in Hin. cbn in Hin.
  destruct Hin as [<-|[<-|[<-|[]]]]; (reflexivity || discriminate).
Defined.

(** When the winners differ the script names no overall best model. *)
Example split_vote_needs_consideration :
  (model_selection (QInstance.QLib QInstance.no_files) Examples.test_y
     Examples.some_predictions Examples.split_vote QInstance.a_clock initial_state)
  = (Ret ("Random Forest", "Multiple Linear Regression", None),
     mkState
       [ Printed "The best model based on MSE is {} with an MSE of {:.3f}."
           [VStr "Random Forest"; VFloat 9%Q];
         Printed "The best model based on R2 Score is {} with an R2 Score of {:.3f}."
           [VStr "Multiple Linear Regression"; VFloat 0.8%Q];
         Printed no_overall_best [] ] ∅ 0 0).
Proof. vm_compute. reflexivity. Qed.

(** ** C10: two runs on the same input agree *)

Section Determinism.
Context {num : Type} {num_eq_dec : EqDecision num} (L : Lib num).

Lemma alike_ret {A} (a : A) : alike (mret a : M num A) (mret a).
Proof. intros e1 e2 s1 s2 H. now split. Qed.

Lemma alike_bind {A B} (m1 m2 : M num A) (k1 k2 : A -> M num B) :
  alike m1 m2 -> (forall a, alike (k1 a) (k2 a)) -> alike (m1 ≫= k1) (m2 ≫= k2).
Proof.
  intros Hm Hk e1 e2 s1 s2 H. rewrite !run_bind.
  destruct (Hm e1 e2 s1 s2 H) as [Hres Hagree].
  destruct (m1 e1 s1) as [[a1|x1] t1], (m2 e2 s2) as [[a2|x2] t2]; cbn in *; try discriminate.
  - injection Hres as ->. now apply Hk.
  - injection Hres as ->. now split.
Qed.

(** The clock and the entropy may differ between the runs: what follows
    must be alike whatever was read. *)
Lemma alike_after_time {B} (k1 k2 : num -> M num B) :
  (forall t1 t2, alike (k1 t1) (k2 t2)) -> alike (time_time ≫= k1) (time_time ≫= k2).
Proof. intros Hk e1 e2 s1 s2 H. rewrite !run_bind. cbn. apply Hk. exact H. Qed.

Lemma alike_after_random {B} (k1 k2 : Z -> M num B) :
  (forall z1 z2, alike (k1 z1) (k2 z2)) -> alike (np_random ≫= k1) (np_random ≫= k2).
Proof. intros Hk e1 e2 s1 s2 H. rewrite !run_bind. cbn. apply Hk. exact H. Qed.

Lemma alike_lift {A} (o : outcome A) : alike (lift (num := num) o) (lift o).
Proof. intros e1 e2 s1 s2 H. now split. Qed.

Lemma alike_raise {A} c msg : alike (raise (num := num) (A := A) c msg) (raise c msg).
Proof. intros e1 e2 s1 s2 H. now split. Qed.

Lemma transcript_emit (s : state num) (ev : event num) :
  transcript (emit s ev) = (transcript s ++ if observable ev then [ev] else [])%list.
Proof. unfold transcript. cbn. now rewrite List.filter_app. Qed.

Lemma alike_print fmt (args : list (pyval num)) : alike (print fmt args) (print fmt args).
Proof.
  intros e1 e2 s1 s2 [Hheap Hout]. split; [reflexivity|]. split; [exact Hheap|].
  change ((print fmt args e1 s1).2) with (emit s1 (Printed fmt args)).
  change ((print fmt args e2 s2).2) with (emit s2 (Printed fmt args)).
  now rewrite !transcript_emit, Hout.
Qed.

(** The line that reports a training time is not in the transcript. *)
Lemma alike_print_time (args1 args2 : list (pyval num)) :
  alike (print timing_report args1) (print timing_report args2).
Proof.
  intros e1 e2 s1 s2 [Hheap Hout]. split; [reflexivity|]. split; [exact Hheap|].
  change ((print timing_report args1 e1 s1).2) with (emit s1 (Printed timing_report args1)).
  change ((print timing_report args2 e2 s2).2) with (emit s2 (Printed timing_report args2)).
  rewrite !transcript_emit. cbn [observable]. rewrite String.eqb_refl. cbn.
  now rewrite !app_nil_r.
Qed.

Lemma alike_plt_show title1 title2 (args1 args2 : list (pyval num)) :
  alike (plt_show title1 args1) (plt_show title2 args2).
Proof.
  intros e1 e2 s1 s2 [Hheap Hout]. split; [reflexivity|]. split; [exact Hheap|].
  change ((plt_show title1 args1 e1 s1).2) with (emit s1 (Shown title1 args1)).
  change ((plt_show title2 args2 e2 s2).2) with (emit s2 (Shown title2 args2)).
  rewrite !transcript_emit. cbn. now rewrite !app_nil_r.
Qed.

Lemma alike_deref l : alike (deref (num := num) l) (deref l).
Proof.
  intros e1 e2 s1 s2 [Hheap Hout]. unfold deref. rewrite Hheap.
  destruct (heap s2 !! l); now repeat split.
Qed.

Lemma alike_new_frame (d : DataFrame num) : alike (new_frame d) (new_frame d).
Proof.
  intros e1 e2 s1 s2 [Hheap Hout]. unfold new_frame. cbn. rewrite Hheap. now repeat split.
Qed.

Lemma alike_assign l (d : DataFrame num) : alike (assign l d) (assign l d).
Proof.
  intros e1 e2 s1 s2 [Hheap Hout]. unfold assign. cbn. rewrite Hheap. now repeat split.
Qed.

Lemma alike_del l : alike (del (num := num) l) (del l).
Proof.
  intros e1 e2 s1 s2 [Hheap Hout]. unfold del. cbn. rewrite Hheap. now repeat split.
Qed.

Lemma alike_try_except {A} (body : M num A) (handlers : list (pyclass * (exn -> M num A))) :
  alike body body ->
  (forall h x, In h handlers -> alike (snd h x) (snd h x)) ->
  alike (try_except body handlers) (try_except body handlers).
Proof.
  intros Hbody Hhandlers e1 e2 s1 s2 H. unfold try_except.
  destruct (Hbody e1 e2 s1 s2 H) as [Hres Hagree].
  destruct (body e1 s1) as [[a1|x1] t1], (body e2 s2) as [[a2|x2] t2]; cbn in *;
    try discriminate.
  - now split.
  - injection Hres as ->.
    destruct (find (fun h => isinstance x2 (fst h)) handlers) as [h|] eqn:Hfind.
    + apply Hhandlers; [|exact Hagree]. now apply find_some in Hfind.
    + now split.
Qed.

Lemma alike_for_each {A} (items : list A) (body : A -> M num unit) :
  (forall a, alike (body a) (body a)) -> alike (for_each items body) (for_each items body).
Proof.
  intros Hbody. induction items as [|a items IH]; cbn [for_each].
  - apply alike_ret.
  - apply alike_bind; [apply Hbody | intros _; exact IH].
Qed.

Lemma alike_mapM {A B} (f : A -> M num B) (items : list A) :
  (forall a, alike (f a) (f a)) -> alike (mapM f items) (mapM f items).
Proof.
  intros Hf. induction items as [|a items IH]; cbn [mapM].
  - apply alike_ret.
  - apply alike_bind; [apply Hf | intros b].
    apply alike_bind; [exact IH | intros bs; apply alike_ret].
Qed.

End Determinism.

Create HintDb alike.

(** Takes a goal [alike m m] apart along the structure of [m]; the stages
    already dealt with are hints of the database [alike]. *)
Ltac alike_step :=
  first
    [ solve [auto with alike nocore]
    | apply alike_ret | apply alike_lift | apply alike_raise
    | apply alike_print | apply alike_print_time | apply alike_plt_show
    | apply alike_deref | apply alike_new_frame | apply alike_assign | apply alike_del
    | apply alike_after_time; intros ? ?
    | apply alike_after_random; intros ? ?
    | apply alike_for_each; intros ?
    | apply alike_mapM; intros ?
    | apply alike_bind; [|intros ?]
    | match goal with
      | |- alike (if ?b then _ else _) _ => destruct b
      | |- alike (match ?x with _ => _ end) _ => destruct x; cbv beta match
      end ].

Ltac alike_auto := repeat alike_step.

Section Stages.
Context {num : Type} {num_eq_dec : EqDecision num} (L : Lib num).

Lemma alike_frame_getitem l c : alike (frame_getitem (num := num) l c) (frame_getitem l c).
Proof. unfold frame_getitem. alike_auto. Qed.

Lemma alike_frame_setitem l c (s : list (cell num)) :
  alike (frame_setitem l c s) (frame_setitem l c s).
Proof. unfold frame_setitem. alike_auto. Qed.

Lemma alike_frame_copy l : alike (frame_copy (num := num) l) (frame_copy l).
Proof. unfold frame_copy. alike_auto. Qed.

Lemma alike_frame_info l : alike (frame_info (num := num) l) (frame_info l).
Proof. unfold frame_info. alike_auto. Qed.

Lemma alike_getattr o attr : alike (getattr (num := num) o attr) (getattr o attr).
Proof. unfold getattr. alike_auto. Qed.

(** A routine given a seed does not look at the global generator. *)
Lemma alike_check_random_state seed :
  alike (check_random_state (num := num) (Some seed)) (check_random_state (Some seed)).
Proof. apply alike_ret. Qed.

Lemma alike_randomness_of model rng :
  seed_of model = Some rng ->
  alike (randomness_of (num := num) model) (randomness_of model).
Proof. intros H. rewrite (randomness_of_seeded model rng H). apply alike_ret. Qed.

Hint Resolve alike_frame_getitem alike_frame_setitem alike_frame_copy alike_frame_info
  alike_getattr alike_check_random_state : alike.

Lemma alike_load_dataset path : alike (load_dataset L path) (load_dataset L path).
Proof.
  unfold load_dataset. apply alike_try_except; [alike_auto|].
  intros h x [<-|[<-|[<-|[]]]]; cbn; alike_auto.
Qed.

Lemma alike_check_data_quality o :
  alike (check_data_quality L o) (check_data_quality L o).
Proof. unfold check_data_quality. alike_auto. Qed.

Lemma alike_plot_categorical_distribution df column top_n :
  alike (plot_categorical_distribution L df column top_n)
    (plot_categorical_distribution L df column top_n).
Proof. unfold plot_categorical_distribution. alike_auto. Qed.

Hint Resolve alike_load_dataset alike_check_data_quality
  alike_plot_categorical_distribution : alike.

Lemma alike_inspect : alike (inspect L) (inspect L).
Proof. unfold inspect. alike_auto. Qed.

Lemma alike_date_preprocessing l : alike (date_preprocessing L l) (date_preprocessing L l).
Proof. unfold date_preprocessing. alike_auto. Qed.

Lemma alike_mutual_information l : alike (mutual_information L l) (mutual_information L l).
Proof. unfold mutual_information. alike_auto. Qed.

Lemma alike_pearson_plots l : alike (pearson_plots L l) (pearson_plots L l).
Proof. unfold pearson_plots. alike_auto. Qed.

Lemma alike_anova_plots l : alike (anova_plots L l) (anova_plots L l).
Proof. unfold anova_plots. alike_auto. Qed.

Lemma alike_renovation_plot l : alike (renovation_plot L l) (renovation_plot L l).
Proof. unfold renovation_plot. alike_auto. Qed.

Lemma alike_feature_selection l :
  alike (feature_selection (num := num) l) (feature_selection l).
Proof. unfold feature_selection. alike_auto. Qed.

Lemma alike_prune_constant steps i l vars :
  alike (prune_constant L steps i l vars) (prune_constant L steps i l vars).
Proof.
  revert i vars. induction steps as [|steps IH]; intros i vars; cbn [prune_constant].
  - alike_auto.
  - destruct (vars !! i); alike_auto.
Qed.

Hint Resolve alike_prune_constant : alike.

Lemma alike_multicollinearity l : alike (multicollinearity L l) (multicollinearity L l).
Proof. unfold multicollinearity. alike_auto. Qed.

Lemma alike_outlier_identification l :
  alike (outlier_identification L l) (outlier_identification L l).
Proof. unfold outlier_identification. alike_auto. Qed.

Lemma alike_categorical_outliers l :
  alike (categorical_outliers L l) (categorical_outliers L l).
Proof. unfold categorical_outliers. alike_auto. Qed.

Lemma alike_outlier_removal l : alike (outlier_removal L l) (outlier_removal L l).
Proof. unfold outlier_removal. alike_auto. Qed.

Lemma alike_encoding l : alike (encoding L l) (encoding L l).
Proof. unfold encoding. alike_auto. Qed.

Lemma alike_scaling l : alike (scaling L l) (scaling L l).
Proof. unfold scaling. alike_auto. Qed.

Lemma alike_split X y : alike (split L X y) (split L X y).
Proof. unfold split. alike_auto. Qed.

(** The two readings of the clock differ between the runs; they only feed
    the line that reports the training time. *)
Lemma alike_train_and_predict X_train X_test y_train name model preds :
  is_Some (seed_of model) ->
  alike (train_and_predict L X_train X_test y_train name model preds)
    (train_and_predict L X_train X_test y_train name model preds).
Proof.
  intros [rng Hrng]. pose proof (alike_randomness_of model rng Hrng).
  pose proof (alike_randomness_of KNeighborsRegressor Unused eq_refl).
  unfold train_and_predict. alike_auto.
Qed.

(** Every regressor of the loop is seeded or not randomised. *)
Lemma alike_training_loop X_train X_test y_train items preds :
  Forall (fun item => is_Some (seed_of item.2)) items ->
  alike (training_loop L X_train X_test y_train items preds)
    (training_loop L X_train X_test y_train items preds).
Proof.
  intros Hitems. revert preds.
  induction Hitems as [|[name model] items Hmodel _ IH]; intros preds; cbn [training_loop].
  - apply alike_ret.
  - apply alike_bind; [now apply alike_train_and_predict | intros preds'; apply IH].
Qed.

Lemma models_seeded : Forall (fun item => is_Some (seed_of item.2)) models.
Proof. repeat constructor; now eexists. Qed.

Lemma alike_evaluation_loop y_test items rows :
  alike (evaluation_loop L y_test items rows) (evaluation_loop L y_test items rows).
Proof.
  revert rows. induction items as [|[name pred] items IH]; intros rows;
    cbn [evaluation_loop]; alike_auto.
Qed.

Lemma alike_comparison_plot (rows : list (@metrics_row num)) :
  alike (comparison_plot rows) (comparison_plot rows).
Proof. unfold comparison_plot. alike_auto. Qed.

Lemma alike_model_selection y_test preds rows :
  alike (model_selection L y_test preds rows) (model_selection L y_test preds rows).
Proof. unfold model_selection. alike_auto. Qed.

Hint Resolve alike_inspect alike_date_preprocessing alike_mutual_information
  alike_pearson_plots alike_anova_plots alike_renovation_plot alike_feature_selection
  alike_multicollinearity alike_outlier_identification alike_categorical_outliers
  alike_outlier_removal alike_encoding alike_scaling alike_split
  alike_evaluation_loop alike_comparison_plot alike_model_selection : alike.

Lemma alike_analysis l : alike (analysis L l) (analysis L l).
Proof.
  pose proof (fun X_train X_test y_train =>
                alike_training_loop X_train X_test y_train models [] models_seeded).
  unfold analysis. alike_auto.
Qed.

Lemma alike_script : alike (script L) (script L).
Proof. unfold script. apply alike_bind; [apply alike_inspect | intros l; apply alike_analysis]. Qed.

(** C10. Two runs of the script on the same input (the same files and the
    same libraries, each randomised routine called with the seed the script
    fixes: 0 for the mutual information, 2 for the split and for the four
    randomised regressors) end alike whatever the clock and the unseeded
    global generator give: with the same exception, or with the same
    mutual-information scores, train/test split, predictions, metrics table
    and best models; and they print the same lines, the training times
    apart. *)
Theorem runs_agree (e1 e2 : env num) :
  fst (run L e1) = fst (run L e2) /\
  transcript (snd (run L e1)) = transcript (snd (run L e2)).
Proof.
  destruct (alike_script e1 e2 initial_state initial_state) as [Hres [_ Hout]].
  - now split.
  - split; [exact Hres | exact Hout].
Qed.

End Stages.

(** The script runs to its end on [Examples.sales]: twenty rows stay after
    the removal, sixteen train the six models and four test them. *)
Example whole_run :
  (fun r => (List.map Model (r_metrics_df r), r_best_model_name r,
             df_index (r_X_test r), (r_predictions r).*1))
    <$> returned (run (QInstance.QLib (QInstance.one_file Examples.sales)) QInstance.a_clock).1
  = Some ([ "Multiple Linear Regression"; "Random Forest"; "Decision Tree Regression";
            "Boosted Decision Tree Regression"; "K-nearest neighbors (KNN)"; "XGBoost" ],
          Some "Multiple Linear Regression",
          [2; 3; 4; 5],
          [ "Multiple Linear Regression"; "Random Forest"; "Decision Tree Regression";
            "Boosted Decision Tree Regression"; "K-nearest neighbors (KNN)"; "XGBoost" ]).
Proof. vm_compute. reflexivity. Qed.

(** * Further properties of the script *)

(** ** Reading and writing columns *)

Section Columns.
Context {num : Type} {num_eq_dec : EqDecision num}.

Lemma named_true (c : string) (p : string * list (cell num)) : named c p = true <-> p.1 = c.
Proof. unfold named. apply bool_decide_eq_true. Qed.

Lemma find_named_None (c : string) (cols : list (string * list (cell num))) :
  find (named c) cols = None <-> c ∉ cols.*1.
Proof.
  induction cols as [|p cols IH]; cbn.
  - split; [intros _ H; now apply elem_of_nil in H | reflexivity].
  - destruct (named c p) eqn:Hp.
    + apply named_true in Hp. split; [discriminate|]. intros H. exfalso. apply H.
      apply elem_of_cons. left. now symmetry.
    + rewrite IH, not_elem_of_cons. split; [|tauto]. intros H. split; [|exact H].
      intros ->. rewrite <- not_true_iff_false, named_true in Hp. now apply Hp.
Qed.

(** A column just written is the column read back. *)
Lemma getitem_setitem (d d' : DataFrame num) (c : string) (s : list (cell num)) :
  setitem d c s = Ret d' -> getitem d' c = Ret s.
Proof.
  unfold setitem. case_bool_decide as Hlen; [|discriminate].
  case_bool_decide as Hc; intros [= <-]; unfold getitem; cbn.
  - unfold columns in Hc. induction (df_columns d) as [|p cols IH]; [now apply elem_of_nil in Hc|].
    cbn. destruct (named c p) eqn:Hp; cbn.
    + now rewrite (proj2 (named_true c (c, s)) eq_refl).
    + rewrite Hp. apply IH. rewrite fmap_cons in Hc. apply elem_of_cons in Hc as [->|Hc]; [|exact Hc].
      rewrite <- not_true_iff_false, named_true in Hp. now contradict Hp.
  - apply find_named_None in Hc. induction (df_columns d) as [|p cols IH]; cbn.
    + now rewrite (proj2 (named_true c (c, s)) eq_refl).
    + cbn in Hc. destruct (named c p); [discriminate | now apply IH].
Qed.

(** Writing a column leaves the others as they were. *)
Lemma getitem_setitem_other (d d' : DataFrame num) (c c' : string) (s : list (cell num)) :
  c' <> c -> setitem d c s = Ret d' -> getitem d' c' = getitem d c'.
Proof.
  intros Hne. unfold setitem. case_bool_decide as Hlen; [|discriminate].
  case_bool_decide as Hc; intros [= <-]; unfold getitem; cbn.
  - induction (df_columns d) as [|p cols IH]; [reflexivity|]. cbn.
    destruct (named c p) eqn:Hp.
    + apply named_true in Hp.
      assert (H1 : named c' (c, s) = false).
      { apply not_true_iff_false. rewrite named_true. cbn. congruence. }
      assert (H2 : named c' p = false).
      { apply not_true_iff_false. rewrite named_true. congruence. }
      rewrite H1, H2. exact IH.
    + destruct (named c' p); [reflexivity | exact IH].
  - induction (df_columns d) as [|p cols IH]; cbn.
    + assert (H1 : named c' (c, s) = false).
      { apply not_true_iff_false. rewrite named_true. cbn. congruence. }
      now rewrite H1.
    + destruct (named c' p); [reflexivity | exact IH].
Qed.

(** Writing an existing column keeps the labels, their order and the rows. *)
Lemma setitem_shape (d d' : DataFrame num) (c : string) (s : list (cell num)) :
  c ∈ columns d -> setitem d c s = Ret d' ->
  columns d' = columns d /\ df_index d' = df_index d.
Proof.
  intros Hc. unfold setitem. case_bool_decide as Hlen; [|discriminate].
  rewrite bool_decide_eq_true_2 by exact Hc. intros [= <-]. cbn. split; [|reflexivity].
  unfold columns. cbn. clear Hc. induction (df_columns d) as [|p cols IH]; [reflexivity|].
  cbn. destruct (named c p) eqn:Hp; cbn; rewrite IH; [|reflexivity].
  apply named_true in Hp. now rewrite Hp.
Qed.

Lemma getitem_Ret_columns (d : DataFrame num) (c : string) (s : list (cell num)) :
  getitem d c = Ret s -> c ∈ columns d.
Proof.
  unfold getitem. destruct (find (named c) (df_columns d)) as [p|] eqn:Hp; [|discriminate].
  intros _. apply find_some in Hp as [Hin Hp]. apply named_true in Hp. subst c.
  unfold columns. apply list_elem_of_fmap. exists p. split; [reflexivity | now apply list_elem_of_In].
Qed.

End Columns.

(** ** Steps on a table object *)

Section Objects.
Context {num : Type} {num_eq_dec : EqDecision num} (L : Lib num).

(** X1. The date preprocessing rewrites the [date] column of the loaded
    table in place, with what [pd.to_datetime] makes of it, and changes
    nothing else: the same columns in the same order, the same rows, every
    other column as it was, every other table untouched. *)
Theorem date_preprocessing_only_date (data_set : nat) (d : DataFrame num)
    (e : env num) (s s' : state num) :
  heap s !! data_set = Some d ->
  date_preprocessing L data_set e s = (Ret tt, s') ->
  exists old dates d',
    getitem d "date" = Ret old /\
    to_datetime L old = Ret dates /\
    heap s' = <[data_set := d']> (heap s) /\
    columns d' = columns d /\
    df_index d' = df_index d /\
    getitem d' "date" = Ret dates /\
    forall c, c <> "date" -> getitem d' c = getitem d c.
Proof.
  intros Hlive H. unfold date_preprocessing in H.
  rewrite run_bind, (frame_getitem_run _ _ d) in H by exact Hlive.
  destruct (getitem d "date") as [old|x] eqn:Hold; [|discriminate].
  rewrite run_bind in H. unfold lift at 1 in H.
  destruct (to_datetime L old) as [dates|x] eqn:Hdates; [|discriminate].
  rewrite run_bind, (frame_setitem_run _ _ _ d) in H by exact Hlive.
  destruct (setitem d "date" dates) as [d'|x] eqn:Hset; [|discriminate].
  rewrite run_bind, (deref_live _ d') in H by apply heap_with_object.
  cbn in H. injection H as <-.
  exists old, dates, d'. split; [reflexivity|]. split; [exact Hdates|]. split; [reflexivity|].
  destruct (setitem_shape d d' "date" dates) as [Hcols Hidx];
    [now apply (getitem_Ret_columns d "date" old) | exact Hset |].
  split; [exact Hcols|]. split; [exact Hidx|].
  split; [exact (getitem_setitem d d' "date" dates Hset)|].
  intros c Hc. exact (getitem_setitem_other d d' "date" c dates Hc Hset).
Qed.

End Objects.

Lemma date_preprocessing_only_date_witness :
  exists d',
    heap (date_preprocessing (QInstance.QLib QInstance.no_files) 0 QInstance.a_clock
            Examples.with_raw).2 !! 0%nat = Some d' /\
    getitem d' "date" =
      Ret [CDate 20140502; CDate 20140502; CDate 20140503; CDate 20140504; CDate 20140504] /\
    getitem d' "city" = getitem Examples.raw "city".
Proof.
  destruct (date_preprocessing (QInstance.QLib QInstance.no_files) 0 QInstance.a_clock
              Examples.with_raw) as [[[]|x] s'] eqn:Hrun; [|vm_compute in Hrun; discriminate].
  destruct (date_preprocessing_only_date (QInstance.QLib QInstance.no_files) 0 Examples.raw
              QInstance.a_clock Examples.with_raw s' eq_refl Hrun)
    as (old & dates & d' & Hold & Hdates & Hheap & _ & _ & Hdate & Hother).
  exists d'. cbn [snd]. rewrite Hheap, lookup_insert_eq. split; [reflexivity|].
  split; [|apply Hother; discriminate].
  rewrite Hdate. vm_compute in Hold. injection Hold as <-.
  vm_compute in Hdates. now injection Hdates as <-.
Defined.

(** ** Stages that only report *)

Section Reporting.
Context {num : Type} {num_eq_dec : EqDecision num} (L : Lib num).

Lemma keeps_live_of_keeps {A} l (m : M num A) : keeps l m -> keeps_live l m.
Proof. intros H e s _. apply H. Qed.

Lemma keeps_live_bind {A B} l (m : M num A) (k : A -> M num B) :
  keeps_live l m -> (forall a, keeps_live l (k a)) -> keeps_live l (m ≫= k).
Proof.
  intros Hm Hk e s Hl. rewrite run_bind.
  specialize (Hm e s Hl). destruct (m e s) as [[a|x] s1]; cbn in *; [|exact Hm].
  rewrite Hk by (now rewrite Hm). exact Hm.
Qed.

Lemma keeps_live_for_each {A} l (items : list A) (body : A -> M num unit) :
  (forall a, keeps_live l (body a)) -> keeps_live l (for_each items body).
Proof.
  intros Hbody. induction items as [|a items IH]; cbn [for_each].
  - apply keeps_live_of_keeps, keeps_ret.
  - apply keeps_live_bind; [apply Hbody | intros _; exact IH].
Qed.

(** A copy of any table is a new object, distinct from every live one. *)
Lemma keeps_live_after_copy {B} l df (k : nat -> M num B) :
  (forall copy, l <> copy -> keeps l (k copy)) -> keeps_live l (frame_copy df ≫= k).
Proof.
  intros Hk e s [d Hl]. rewrite run_bind. unfold frame_copy. rewrite run_bind.
  unfold deref at 1. destruct (heap s !! df) as [d0|]; [|reflexivity].
  unfold new_frame. cbv zeta.
  assert (Hfresh : l <> fresh (dom (heap s))).
  { intros Heq. apply (is_fresh (dom (heap s))). rewrite <- Heq.
    apply elem_of_dom. now exists d. }
  rewrite (Hk _ Hfresh). cbn. now rewrite lookup_insert_ne by (intros Heq; now apply Hfresh).
Qed.

Lemma keeps_live_plot_categorical_distribution l df column top_n :
  keeps_live l (plot_categorical_distribution L df column top_n).
Proof.
  unfold plot_categorical_distribution.
  apply keeps_live_bind; [apply keeps_live_of_keeps, keeps_frame_getitem | intros col].
  cbv zeta. apply keeps_live_after_copy. intros copy Hcopy.
  apply keeps_bind; [apply keeps_frame_getitem | intros s1].
  apply keeps_bind; [apply keeps_frame_getitem | intros s2].
  apply keeps_bind; [now apply keeps_frame_setitem | intros _].
  repeat keeps_step.
Qed.

Lemma keeps_prune_constant l steps i data_set vars :
  keeps l (prune_constant L steps i data_set vars).
Proof.
  revert i vars. induction steps as [|steps IH]; intros i vars; cbn [prune_constant].
  - apply keeps_ret.
  - destruct (vars !! i); [|apply keeps_ret].
    apply keeps_bind; [apply keeps_frame_getitem | intros col].
    destruct (nunique L col <=? 1)%nat; [|apply IH].
    apply keeps_bind; [apply keeps_print | intros _; apply IH].
Qed.

Lemma keeps_multicollinearity l data_set : keeps l (multicollinearity L data_set).
Proof.
  unfold multicollinearity.
  apply keeps_bind; [apply keeps_deref | intros d]. cbv zeta.
  apply keeps_bind; [apply keeps_prune_constant | intros vars].
  destruct (0 <? length vars)%nat; [|apply keeps_print].
  apply keeps_bind; [apply keeps_deref | intros d'].
  apply keeps_bind; [apply keeps_lift | intros sub]. cbv zeta.
  apply keeps_bind; [apply keeps_lift | intros features].
  apply keeps_bind; [apply keeps_lift | intros vifs].
  apply keeps_bind; [case_bool_decide; [apply keeps_ret | apply keeps_raise] | intros _].
  apply keeps_print.
Qed.

Lemma zip_self_map {A B} (f : A -> A -> B) (l : list A) :
  List.map (fun p => f p.1 p.2) (zip l l) = List.map (fun a => f a a) l.
Proof. induction l as [|a l IH]; cbn; [reflexivity | now rewrite IH]. Qed.

(** X2. [plot_categorical_distribution] works on a copy: it leaves the
    table it is given, and every other table, as they were. What it plots is
    the column with every category outside the [top_n] most frequent ones
    replaced by ['Other']. *)
Theorem plot_categorical_distribution_plots_a_copy (df : nat) (d : DataFrame num)
    (column : string) (top_n : nat) (e : env num) (s s' : state num) :
  heap s !! df = Some d ->
  plot_categorical_distribution L df column top_n e s = (Ret tt, s') ->
  (forall l, is_Some (heap s !! l) -> heap s' !! l = heap s !! l) /\
  exists col,
    getitem d column = Ret col /\
    stdout s' =
      (stdout s ++
       [ Shown "Frequency of top {} categories in {}"
           [ VInt (Z.of_nat top_n); VStr column;
             VCells (List.map (top_or_other (take top_n (value_counts L col)).*1) col);
             VCells (value_counts L
                       (List.map (top_or_other (take top_n (value_counts L col)).*1) col)).*1
           ] ])%list.
Proof.
  intros Hlive H. split.
  { intros l Hl.
    pose proof (keeps_live_plot_categorical_distribution l df column top_n e s Hl) as Hkeep.
    now rewrite H in Hkeep. }
  unfold plot_categorical_distribution in H.
  rewrite run_bind, (frame_getitem_run _ _ d) in H by exact Hlive.
  destruct (getitem d column) as [col|x] eqn:Hcol; [|discriminate].
  cbv zeta in H. rewrite run_bind in H. unfold frame_copy in H.
  rewrite run_bind, (deref_live _ d) in H by exact Hlive.
  unfold new_frame at 1 in H. cbv zeta in H.
  change (mkState (stdout s) (<[fresh (dom (heap s)):=d]> (heap s)) (ticks s) (draws s))
    with (with_object s (fresh (dom (heap s))) d) in H.
  set (copy := fresh (dom (heap s))) in H.
  assert (Hdf : heap (with_object s copy d) !! df = Some d).
  { cbn. rewrite lookup_insert_ne; [exact Hlive|]. intros Heq.
    apply (is_fresh (dom (heap s))). fold copy. rewrite Heq. apply elem_of_dom. now exists d. }
  rewrite run_bind, (frame_getitem_run _ _ d), Hcol in H by exact Hdf.
  rewrite run_bind, (frame_getitem_run _ _ d), Hcol in H by exact Hdf.
  rewrite run_bind, (frame_setitem_run _ _ _ d) in H by apply heap_with_object.
  rewrite (zip_self_map (fun a b => if isin _ b then a else CStr "Other")) in H.
  destruct (setitem d column _) as [d'|x] eqn:Hset; [|discriminate].
  rewrite run_bind, (frame_getitem_run _ _ d') in H by apply heap_with_object.
  rewrite (getitem_setitem d d' column _ Hset) in H.
  cbn in H. injection H as <-. exists col. split; reflexivity.
Qed.

(** X3. The exploratory and diagnostic stages between the date
    preprocessing and the outlier removal (Pearson correlations, ANOVA, the
    bar plot, the VIF table, the categorical plots) change no table that
    exists when they start: only the date preprocessing and the feature
    selection decide what the later stages see. *)
Theorem reporting_stages_keep_tables (data_set l : nat) (e : env num) (s : state num) :
  is_Some (heap s !! l) ->
  heap (pearson_plots L data_set e s).2 !! l = heap s !! l /\
  heap (anova_plots L data_set e s).2 !! l = heap s !! l /\
  heap (renovation_plot L data_set e s).2 !! l = heap s !! l /\
  heap (multicollinearity L data_set e s).2 !! l = heap s !! l /\
  heap (categorical_outliers L data_set e s).2 !! l = heap s !! l.
Proof.
  intros Hl. repeat split.
  - revert e s Hl. change (keeps_live l (pearson_plots L data_set)).
    apply keeps_live_of_keeps. unfold pearson_plots. apply keeps_for_each. intros var.
    apply keeps_bind; [apply keeps_frame_getitem | intros x].
    apply keeps_bind; [apply keeps_frame_getitem | intros y].
    apply keeps_bind; [apply keeps_lift | intros [r p]].
    apply keeps_bind; [apply keeps_print | intros _].
    apply keeps_bind; [intros e s | intros g; apply keeps_plt_show]. reflexivity.
  - revert e s Hl. change (keeps_live l (anova_plots L data_set)).
    apply keeps_live_of_keeps. unfold anova_plots. apply keeps_for_each. intros var.
    apply keeps_bind; [apply keeps_frame_getitem | intros x].
    apply keeps_bind; [apply keeps_frame_getitem | intros y].
    apply keeps_bind; [apply keeps_plt_show | intros _].
    apply keeps_bind; [apply keeps_frame_getitem | intros keys].
    apply keeps_bind; [apply keeps_frame_getitem | intros prices]. cbv zeta.
    apply keeps_bind; [apply keeps_lift | intros [f p]; apply keeps_print].
  - revert e s Hl. change (keeps_live l (renovation_plot L data_set)).
    apply keeps_live_of_keeps. unfold renovation_plot. cbv zeta.
    apply keeps_bind; [apply keeps_frame_getitem | intros x].
    apply keeps_bind; [apply keeps_frame_getitem | intros y].
    apply keeps_bind; [intros e s; reflexivity | intros g].
    apply keeps_bind; [apply keeps_plt_show | intros _].
    apply keeps_bind; [apply keeps_lift | intros [r p]; apply keeps_print].
  - apply keeps_multicollinearity.
  - revert e s Hl. change (keeps_live l (categorical_outliers L data_set)).
    unfold categorical_outliers. apply keeps_live_for_each. intros var.
    apply keeps_live_bind; [apply keeps_live_plot_categorical_distribution | intros _].
    apply keeps_live_of_keeps.
    apply keeps_bind; [apply keeps_frame_getitem | intros col]. cbv zeta.
    apply keeps_bind; [apply keeps_frame_getitem | intros col'].
    apply keeps_bind; [apply keeps_deref | intros d].
    apply keeps_bind; [apply keeps_lift | intros top; apply keeps_plt_show].
Qed.

End Reporting.

Lemma plot_categorical_distribution_plots_a_copy_witness :
  heap (plot_categorical_distribution (QInstance.QLib QInstance.no_files) 0 "city" 2
          QInstance.a_clock Examples.with_chosen).2 !! 0%nat = Some Examples.chosen /\
  stdout (plot_categorical_distribution (QInstance.QLib QInstance.no_files) 0 "city" 2
            QInstance.a_clock Examples.with_chosen).2 =
    [ Shown "Frequency of top {} categories in {}"
        [ VInt 2; VStr "city";
          VCells (Examples.strs ["Shoreline"; "Seattle"; "Other"; "Other"; "Other"]);
          VCells (Examples.strs ["Other"; "Shoreline"; "Seattle"]) ] ].
Proof.
  destruct (plot_categorical_distribution (QInstance.QLib QInstance.no_files) 0 "city" 2
              QInstance.a_clock Examples.with_chosen)
    as [[[]|x] s'] eqn:Hrun; [|vm_compute in Hrun; discriminate].
  destruct (plot_categorical_distribution_plots_a_copy (QInstance.QLib QInstance.no_files) 0
              Examples.chosen "city" 2 QInstance.a_clock Examples.with_chosen s' eq_refl Hrun)
    as [Hkeep (col & Hcol & Hout)].
  split.
  - cbn [snd]. rewrite Hkeep; [reflexivity | now exists Examples.chosen].
  - cbn [snd]. rewrite Hout. vm_compute in Hcol. injection Hcol as <-.
    vm_compute. reflexivity.
Defined.

Lemma reporting_stages_keep_tables_witness :
  heap (multicollinearity (QInstance.QLib QInstance.no_files) 0 QInstance.a_clock
          Examples.with_chosen).2 !! 0%nat = Some Examples.chosen /\
  heap (categorical_outliers (QInstance.QLib QInstance.no_files) 0 QInstance.a_clock
          Examples.with_chosen).2 !! 0%nat = Some Examples.chosen.
Proof.
  destruct (reporting_stages_keep_tables (QInstance.QLib QInstance.no_files) 0 0
              QInstance.a_clock Examples.with_chosen)
    as (_ & _ & _ & Hvif & Hcat); [now exists Examples.chosen|].
  split; [rewrite Hvif | rewrite Hcat]; reflexivity.
Defined.

(** ** The loop that drops constant columns (lines 172-175) *)

Section Constants.
Context {num : Type} {num_eq_dec : EqDecision num} (L : Lib num).

Lemma list_remove_sublist (x : string) (l : list string) : list_remove x l `sublist_of` l.
Proof.
  induction l as [|a l IH]; cbn; [constructor|].
  case_bool_decide; [now apply sublist_cons | now apply sublist_skip].
Qed.

Lemma list_remove_other (x y : string) (l : list string) :
  y ∈ l -> y <> x -> y ∈ list_remove x l.
Proof.
  induction l as [|a l IH]; intros Hin Hne; cbn; [exact Hin|].
  apply elem_of_cons in Hin as [->|Hin].
  - rewrite bool_decide_eq_false_2 by exact Hne. left.
  - case_bool_decide; [exact Hin | right; now apply IH].
Qed.

(** With distinct names, [remove] takes out the entry at the position the
    loop stands on. *)
Lemma list_remove_delete (x : string) (l : list string) (i : nat) :
  NoDup l -> l !! i = Some x -> list_remove x l = delete i l.
Proof.
  revert i. induction l as [|a l IH]; intros i Hnd Hi; [discriminate|].
  apply NoDup_cons in Hnd as [Ha Hnd]. destruct i as [|i]; cbn in *.
  - injection Hi as ->. now rewrite bool_decide_eq_true_2.
  - rewrite bool_decide_eq_false_2.
    + f_equal. now apply IH.
    + intros ->. apply Ha. apply list_elem_of_lookup. now exists i.
Qed.

Lemma take_delete_same {A} (l : list A) (i : nat) : take i (delete i l) = take i l.
Proof.
  revert i. induction l as [|a l IH]; intros [|i]; cbn; try reflexivity. now rewrite IH.
Qed.

Lemma take_S_take {A} (l l' : list A) (i : nat) :
  take (S i) l = take (S i) l' -> take i l = take i l'.
Proof.
  intros H.
  replace (take i l) with (take i (take (S i) l)) by (rewrite take_take; f_equal; lia).
  replace (take i l') with (take i (take (S i) l')) by (rewrite take_take; f_equal; lia).
  now rewrite H.
Qed.

Lemma print_heap fmt (args : list (pyval num)) e (s : state num) :
  heap (print fmt args e s).2 = heap s.
Proof. reflexivity. Qed.

(** The loop only ever removes columns, and only constant (or empty) ones. *)
Lemma prune_constant_run (data_set : nat) (d : DataFrame num) (steps i : nat)
    (vars vars' : list string) (e : env num) (s s' : state num) :
  heap s !! data_set = Some d ->
  prune_constant L steps i data_set vars e s = (Ret vars', s') ->
  vars' `sublist_of` vars /\
  forall v, v ∈ vars -> v ∉ vars' ->
    exists col, getitem d v = Ret col /\ (nunique L col <= 1)%nat.
Proof.
  revert i vars s. induction steps as [|steps IH]; intros i vars s Hlive H;
    cbn [prune_constant] in H.
  - injection H as <- _. split; [reflexivity | contradiction].
  - destruct (vars !! i) as [var|] eqn:Hi.
    2: { injection H as <- _. split; [reflexivity | contradiction]. }
    rewrite run_bind, (frame_getitem_run _ _ d) in H by exact Hlive.
    destruct (getitem d var) as [col|x] eqn:Hcol; [|discriminate].
    destruct (nunique L col <=? 1)%nat eqn:Hconst.
    + rewrite run_bind in H.
      destruct (print _ _ e s) as [[[]|x] s1] eqn:Hprint; [|discriminate].
      assert (Hlive1 : heap s1 !! data_set = Some d).
      { replace s1 with (print "Column {} is constant or empty and will be excluded from VIF calculation." [VStr var] e s).2
          by now rewrite Hprint.
        exact Hlive. }
      apply IH in H as [Hsub Hremoved]; [|exact Hlive1]. split.
      * etransitivity; [exact Hsub | apply list_remove_sublist].
      * intros v Hv Hv'. destruct (decide (v = var)) as [->|Hne].
        -- exists col. split; [exact Hcol | now apply Nat.leb_le].
        -- apply Hremoved; [now apply list_remove_other | exact Hv'].
    + now apply IH in H.
Qed.

(** With distinct names, the loop never touches what lies before the
    position it stands on. *)
Lemma prune_constant_prefix (data_set : nat) (d : DataFrame num) (steps i : nat)
    (vars vars' : list string) (e : env num) (s s' : state num) :
  heap s !! data_set = Some d ->
  NoDup vars ->
  prune_constant L steps i data_set vars e s = (Ret vars', s') ->
  take i vars' = take i vars.
Proof.
  revert i vars s. induction steps as [|steps IH]; intros i vars s Hlive Hnd H;
    cbn [prune_constant] in H.
  - now injection H as <- _.
  - destruct (vars !! i) as [var|] eqn:Hi; [|now injection H as <- _].
    rewrite run_bind, (frame_getitem_run _ _ d) in H by exact Hlive.
    destruct (getitem d var) as [col|x] eqn:Hcol; [|discriminate].
    destruct (nunique L col <=? 1)%nat eqn:Hconst.
    + rewrite run_bind in H.
      destruct (print _ _ e s) as [[[]|x] s1] eqn:Hprint; [|discriminate].
      assert (Hlive1 : heap s1 !! data_set = Some d).
      { replace s1 with (print "Column {} is constant or empty and will be excluded from VIF calculation." [VStr var] e s).2
          by now rewrite Hprint.
        exact Hlive. }
      rewrite (list_remove_delete var vars i Hnd Hi) in H.
      apply IH in H; [|exact Hlive1|].
      * apply take_S_take in H. now rewrite H, take_delete_same.
      * eapply sublist_NoDup; [exact Hnd | apply sublist_delete].
    + apply IH in H; [|exact Hlive|exact Hnd]. now apply take_S_take.
Qed.

(** X4. The loop that excludes constant columns from the VIF calculation
    only removes names from the list, keeps the others in their order, and
    every name it removes is that of a column with at most one distinct
    value. *)
Theorem prune_constant_removes_only_constants (data_set : nat) (d : DataFrame num)
    (vars vars' : list string) (e : env num) (s s' : state num) :
  heap s !! data_set = Some d ->
  prune_constant L (length vars) 0 data_set vars e s = (Ret vars', s') ->
  vars' `sublist_of` vars /\
  forall v, v ∈ vars -> v ∉ vars' ->
    exists col, getitem d v = Ret col /\ (nunique L col <= 1)%nat.
Proof. apply prune_constant_run. Qed.

(** X5. The loop removes from the list it is iterating over, so it steps
    over the name that follows a removed one: when the column at one
    position is constant, the column listed right after it is never examined
    and stays in the list, constant or not. *)
Theorem prune_constant_skips_next (data_set : nat) (d : DataFrame num) (i : nat)
    (vars vars' : list string) (a b : string) (col : list (cell num))
    (e : env num) (s s' : state num) :
  heap s !! data_set = Some d ->
  NoDup vars ->
  vars !! i = Some a ->
  vars !! S i = Some b ->
  getitem d a = Ret col ->
  (nunique L col <= 1)%nat ->
  prune_constant L (length vars - i) i data_set vars e s = (Ret vars', s') ->
  b ∈ vars' /\ a ∉ vars'.
Proof.
  intros Hlive Hnd Ha Hb Hcol Hconst H.
  assert (Hlen : (S i < length vars)%nat) by (apply lookup_lt_is_Some; eauto).
  destruct (length vars - i)%nat as [|steps] eqn:Hsteps; [lia|].
  cbn [prune_constant] in H. rewrite Ha in H.
  rewrite run_bind, (frame_getitem_run _ _ d), Hcol in H by exact Hlive.
  rewrite (proj2 (Nat.leb_le _ _) Hconst) in H.
  rewrite run_bind in H.
  destruct (print _ _ e s) as [[[]|x] s1] eqn:Hprint; [|discriminate].
  assert (Hlive1 : heap s1 !! data_set = Some d).
  { replace s1 with (print "Column {} is constant or empty and will be excluded from VIF calculation." [VStr a] e s).2
      by now rewrite Hprint.
    exact Hlive. }
  rewrite (list_remove_delete a vars i Hnd Ha) in H.
  assert (Hnd1 : NoDup (delete i vars)).
  { eapply sublist_NoDup; [exact Hnd | apply sublist_delete]. }
  pose proof (prune_constant_prefix _ _ _ _ _ _ _ _ _ Hlive1 Hnd1 H) as Hprefix.
  apply prune_constant_run with (d := d) in H as [Hsub _]; [|exact Hlive1].
  assert (Hb' : vars' !! i = Some b).
  { rewrite <- (lookup_take_lt vars' (S i) i), Hprefix, lookup_take_lt by lia.
    rewrite list_lookup_delete_ge by lia. exact Hb. }
  split.
  - apply list_elem_of_lookup. now exists i.
  - intros Hin. apply (fun H => elem_of_sublist _ _ _ H Hsub) in Hin.
    apply list_elem_of_lookup in Hin as [j Hj].
    destruct (decide (j < i)%nat).
    + rewrite list_lookup_delete_lt in Hj by lia.
      pose proof (NoDup_lookup _ _ _ _ Hnd Ha Hj). lia.
    + rewrite list_lookup_delete_ge in Hj by lia.
      pose proof (NoDup_lookup _ _ _ _ Hnd Ha Hj). lia.
Qed.

End Constants.

Lemma prune_constant_removes_only_constants_witness :
  exists vars',
    (prune_constant (QInstance.QLib QInstance.no_files) 3 0 0
       ["waterfront"; "view"; "condition"] QInstance.a_clock Examples.with_flat).1 = Ret vars' /\
    vars' `sublist_of` ["waterfront"; "view"; "condition"] /\
    vars' = ["view"; "condition"].
Proof.
  destruct (prune_constant (QInstance.QLib QInstance.no_files) 3 0 0
              ["waterfront"; "view"; "condition"] QInstance.a_clock Examples.with_flat)
    as [[vars'|x] s'] eqn:Hrun; [|vm_compute in Hrun; discriminate].
  destruct (prune_constant_removes_only_constants (QInstance.QLib QInstance.no_files) 0
              Examples.flat ["waterfront"; "view"; "condition"] vars' QInstance.a_clock
              Examples.with_flat s' eq_refl Hrun) as [Hsub _].
  exists vars'. split; [reflexivity|]. split; [exact Hsub|].
  vm_compute in Hrun. now injection Hrun as <- _.
Defined.

Lemma prune_constant_skips_next_witness :
  exists vars',
    (prune_constant (QInstance.QLib QInstance.no_files) 3 0 0
       ["waterfront"; "view"; "condition"] QInstance.a_clock Examples.with_flat).1 = Ret vars' /\
    "view" ∈ vars' /\
    obind (getitem Examples.flat "view") (fun col => Ret (nunique (QInstance.QLib QInstance.no_files) col))
      = Ret 1%nat.
Proof.
  destruct (prune_constant (QInstance.QLib QInstance.no_files) 3 0 0
              ["waterfront"; "view"; "condition"] QInstance.a_clock Examples.with_flat)
    as [[vars'|x] s'] eqn:Hrun; [|vm_compute in Hrun; discriminate].
  destruct (prune_constant_skips_next (QInstance.QLib QInstance.no_files) 0 Examples.flat 0
              ["waterfront"; "view"; "condition"] vars' "waterfront" "view"
              (Examples.ints [0; 0; 0]) QInstance.a_clock Examples.with_flat s')
    as [Hview _].
  - reflexivity.
  - refine (bool_decide_unpack _ _). vm_compute. exact I.
  - reflexivity.
  - reflexivity.
  - reflexivity.
  - vm_compute. lia.
  - exact Hrun.
  - exists vars'. split; [reflexivity|]. split; [exact Hview|]. vm_compute. reflexivity.
Defined.

(** ** Encoding and scaling (lines 251-269) *)

Section Preparing.
Context {num : Type} {num_eq_dec : EqDecision num} (L : Lib num).

Lemma filter_named_columns (c : string) (cols : list (string * list (cell num))) :
  (List.filter (fun p => negb (named c p)) cols).*1
  = List.filter (fun n => negb (bool_decide (n = c))) cols.*1.
Proof.
  induction cols as [|p cols IH]; [reflexivity|]. cbn. unfold named at 1.
  destruct (bool_decide (p.1 = c)); cbn; now rewrite IH.
Qed.

Lemma frame_drop_columns (d d' : DataFrame num) (c : string) :
  frame_drop d c = Ret d' ->
  columns d' = List.filter (fun n => negb (bool_decide (n = c))) (columns d) /\
  df_index d' = df_index d /\
  c ∉ columns d'.
Proof.
  unfold frame_drop. case_bool_decide; [|discriminate]. intros [= <-].
  unfold columns. cbn. rewrite filter_named_columns. split; [reflexivity|].
  split; [reflexivity|]. intros Hin. apply list_elem_of_In, filter_In in Hin as [_ Hin].
  now rewrite bool_decide_eq_true_2 in Hin.
Qed.

Lemma DataFrame_of_array_shape (n : nat) (a : list (list num)) (names : list string)
    (d : DataFrame num) :
  DataFrame_of_array n a names = Ret d ->
  columns d = names /\ df_index d = List.map Z.of_nat (seq 0 n).
Proof.
  unfold DataFrame_of_array.
  destruct (bool_decide (length a = length names)) eqn:Hlen; cbn; [|discriminate].
  destruct (forallb _ a); [|discriminate]. intros [= <-]. cbn. split; [|reflexivity].
  apply bool_decide_eq_true in Hlen. unfold columns. cbn.
  apply fst_zip. rewrite length_map. lia.
Qed.

(** X6. After the encoding step the encoded table carries, in its [price]
    column, the prices of the cleaned table, the encoder having been fitted
    on the cleaned table without that column; [dataset_cleaned] is gone
    ([del]), the encoded table is a new object (its reference was not in
    use before), and no other table has changed: the objects are those of
    before, [dataset_cleaned] taken away and the encoded table added. *)
Theorem encoding_restores_price (dataset_cleaned : nat) (c : DataFrame num)
    (e : env num) (s s' : state num) (dataset_encoded : nat) :
  heap s !! dataset_cleaned = Some c ->
  encoding L dataset_cleaned e s = (Ret dataset_encoded, s') ->
  heap s !! dataset_encoded = None /\
  dataset_encoded <> dataset_cleaned /\
  heap s' !! dataset_cleaned = None /\
  (forall l, l <> dataset_cleaned -> l <> dataset_encoded -> heap s' !! l = heap s !! l) /\
  exists features target encoded enc,
    heap s' = delete dataset_cleaned (<[dataset_encoded := enc]> (heap s)) /\
    frame_drop c "price" = Ret features /\
    ("price" ∉ columns features) /\
    getitem c "price" = Ret target /\
    MEstimateEncoder_fit_transform L ["city"; "street"; "statezip"] 0.5 features target
      = Ret encoded /\
    heap s' !! dataset_encoded = Some enc /\
    getitem enc "price" = Ret target /\
    forall col, col <> "price" -> getitem enc col = getitem encoded col.
Proof.
  intros Hlive H. unfold encoding in H.
  rewrite run_bind, (deref_live _ c) in H by exact Hlive.
  rewrite run_bind in H. unfold lift at 1 in H.
  destruct (frame_drop c "price") as [features|x] eqn:Hfeatures; [|discriminate].
  rewrite run_bind in H. unfold lift at 1 in H.
  destruct (getitem c "price") as [target|x] eqn:Htarget; [|discriminate].
  rewrite run_bind in H. unfold lift at 1 in H.
  destruct (MEstimateEncoder_fit_transform L _ _ features target) as [encoded|x] eqn:Henc;
    [|discriminate].
  rewrite run_bind in H. unfold new_frame at 1 in H. cbv zeta in H.
  change (mkState (stdout s) (<[fresh (dom (heap s)):=encoded]> (heap s)) (ticks s) (draws s))
    with (with_object s (fresh (dom (heap s))) encoded) in H.
  set (fresh_ref := fresh (dom (heap s))) in H.
  assert (Hfresh : fresh_ref <> dataset_cleaned).
  { intros Heq. apply (is_fresh (dom (heap s))). fold fresh_ref. rewrite Heq.
    apply elem_of_dom. now exists c. }
  assert (Hc : heap (with_object s fresh_ref encoded) !! dataset_cleaned = Some c).
  { cbn. now rewrite lookup_insert_ne. }
  rewrite run_bind, (frame_getitem_run _ _ c), Htarget in H by exact Hc.
  rewrite run_bind, (frame_setitem_run _ _ _ encoded) in H by apply heap_with_object.
  destruct (setitem encoded "price" target) as [enc|x] eqn:Hset; [|discriminate].
  cbn in H. injection H as <- <-. cbn.
  split; [apply (not_elem_of_dom (D := gset nat)), is_fresh|].
  split; [exact Hfresh|]. split; [apply lookup_delete_eq|]. split.
  { intros l Hl Hl'. rewrite lookup_delete_ne by congruence.
    now rewrite !lookup_insert_ne by congruence. }
  exists features, target, encoded, enc.
  split; [now rewrite insert_insert_eq|].
  split; [reflexivity|]. split; [apply (frame_drop_columns c features "price" Hfeatures)|].
  split; [reflexivity|]. split; [exact Henc|]. split.
  { rewrite lookup_delete_ne by congruence. apply lookup_insert_eq. }
  split; [exact (getitem_setitem encoded enc "price" target Hset)|].
  intros col Hcol. exact (getitem_setitem_other encoded enc "price" col target Hcol Hset).
Qed.

(** X7. The scaling step hands on the prices of the encoded table as [y]
    and a feature table [X_normalized] with the columns of the encoded
    table, [price] left out, in their order; the rows of [X_normalized] are
    labelled afresh 0, 1, ..., whatever labels the rows carried before. No
    table object changes. *)
Theorem scaling_relabels_rows (dataset_encoded : nat) (enc X_normalized : DataFrame num)
    (y : list (cell num)) (e : env num) (s s' : state num) :
  heap s !! dataset_encoded = Some enc ->
  scaling L dataset_encoded e s = (Ret (X_normalized, y), s') ->
  getitem enc "price" = Ret y /\
  columns X_normalized
    = List.filter (fun n => negb (bool_decide (n = "price"))) (columns enc) /\
  df_index X_normalized = List.map Z.of_nat (seq 0 (nrows enc)) /\
  heap s' = heap s.
Proof.
  intros Hlive H. unfold scaling in H.
  rewrite run_bind, (frame_getitem_run _ _ enc) in H by exact Hlive.
  destruct (getitem enc "price") as [y0|x] eqn:Hy; [|discriminate].
  rewrite run_bind, (deref_live _ enc) in H by exact Hlive.
  rewrite run_bind in H. unfold lift at 1 in H.
  destruct (frame_drop enc "price") as [X|x] eqn:HX; [|discriminate].
  unfold mbind, M_bind, print, lift in H. cbn in H.
  destruct (StandardScaler_fit_transform L X) as [scaled|x]; [|discriminate].
  destruct (DataFrame_of_array (nrows X) scaled (columns X)) as [Xn|x] eqn:HXn; [|discriminate].
  injection H as <- <- <-. cbn.
  destruct (frame_drop_columns enc X "price" HX) as (Hcols & Hidx & _).
  destruct (DataFrame_of_array_shape _ _ _ _ HXn) as [Hnames Hrows].
  split; [reflexivity|]. split; [now rewrite Hnames|]. split; [|reflexivity].
  rewrite Hrows. unfold nrows. now rewrite Hidx.
Qed.

End Preparing.

Lemma encoding_restores_price_witness :
  exists enc,
    (encoding (QInstance.QLib QInstance.no_files) 0 QInstance.a_clock Examples.with_chosen).1
      = Ret 1%nat /\
    heap (encoding (QInstance.QLib QInstance.no_files) 0 QInstance.a_clock
            Examples.with_chosen).2 !! 0%nat = None /\
    heap (encoding (QInstance.QLib QInstance.no_files) 0 QInstance.a_clock
            Examples.with_chosen).2 !! 1%nat = Some enc /\
    getitem enc "price" = getitem Examples.chosen "price".
Proof.
  destruct (encoding (QInstance.QLib QInstance.no_files) 0 QInstance.a_clock
              Examples.with_chosen) as [o s'] eqn:Hrun.
  assert (Ho : o = Ret 1%nat) by (apply (f_equal fst) in Hrun; vm_compute in Hrun; congruence).
  subst o.
  destruct (encoding_restores_price (QInstance.QLib QInstance.no_files) 0 Examples.chosen
              QInstance.a_clock Examples.with_chosen s' 1 eq_refl Hrun)
    as (_ & _ & Hgone & _ & features & target & encoded & enc & _ & _ & _ & Htarget & _ & Henc
        & Hprice & _).
  exists enc. cbn [fst snd]. split; [reflexivity|]. split; [exact Hgone|].
  split; [exact Henc|]. now rewrite Hprice, <- Htarget.
Defined.

Lemma scaling_relabels_rows_witness :
  exists X_normalized y,
    (scaling (QInstance.QLib QInstance.no_files) 0 QInstance.a_clock Examples.with_kept).1
      = Ret (X_normalized, y) /\
    df_index Examples.kept = [0; 2; 5] /\
    df_index X_normalized = [0; 1; 2] /\
    columns X_normalized = ["bedrooms"; "city"].
Proof.
  destruct (scaling (QInstance.QLib QInstance.no_files) 0 QInstance.a_clock
              Examples.with_kept) as [o s'] eqn:Hrun.
  destruct o as [[X_normalized y]|x];
    [|apply (f_equal fst) in Hrun; vm_compute in Hrun; discriminate].
  destruct (scaling_relabels_rows (QInstance.QLib QInstance.no_files) 0 Examples.kept
              X_normalized y QInstance.a_clock Examples.with_kept s' eq_refl Hrun)
    as (_ & Hcols & Hidx & _).
  exists X_normalized, y. cbn [fst snd]. split; [reflexivity|]. split; [reflexivity|].
  split; [rewrite Hidx; vm_compute; reflexivity | rewrite Hcols; vm_compute; reflexivity].
Defined.

(** ** What the Z-score report flags, the removal drops (lines 206-207, 240-243) *)

Section Flagged.
Context {num : Type} {num_eq_dec : EqDecision num} (L : Lib num).
Hypothesis flt_asym : forall x y, flt L x y = true -> flt L y x = false.

Lemma zscore_mask_flag (col : list (cell num)) (mask : list bool) (i : nat) :
  zscore_mask L col = Ret mask -> mask !! i = Some true ->
  exists zs z, zscore L col = Ret zs /\ zs !! i = Some z /\
    flt L (float3 L) (fabs L z) = true.
Proof.
  unfold zscore_mask, mbind, outcome_bind, obind. intros H Hi.
  destruct (zscore L col) as [zs|x]; [|discriminate]. injection H as <-.
  rewrite lookup_map in Hi. destruct (zs !! i) as [z|] eqn:Hz; [|discriminate].
  injection Hi as Hi. now exists zs, z.
Qed.

(** X8. A row that the Z-score report counts as an outlier of one of the
    five checked variables (|z| > 3, lines 206-207) is not in the cleaned
    table (which keeps |z| < 3, lines 240-243). The report also runs on
    [yr_built], which the removal does not check. *)
Theorem zscore_flagged_rows_are_removed (data_set : nat) (d : DataFrame num)
    (e : env num) (s s' : state num) (dataset_cleaned : nat)
    (var : string) (col : list (cell num)) (mask : list bool) (i : nat) (label : Z) :
  heap s !! data_set = Some d ->
  NoDup (df_index d) ->
  NoDup (columns d) ->
  outlier_removal L data_set e s = (Ret dataset_cleaned, s') ->
  var ∈ variables_to_check ->
  getitem d var = Ret col ->
  zscore_mask L col = Ret mask ->
  mask !! i = Some true ->
  df_index d !! i = Some label ->
  var ∈ continuous_discrete_vars /\
  exists cleaned, heap s' !! dataset_cleaned = Some cleaned /\ label ∉ df_index cleaned.
Proof.
  intros Hlive Hidx Hcols Hrun Hvar Hcol Hmask Hi Hlabel.
  split.
  { unfold variables_to_check in Hvar. unfold continuous_discrete_vars.
    rewrite !elem_of_cons in *. rewrite elem_of_nil in Hvar. tauto. }
  unfold outlier_removal in Hrun.
  rewrite run_bind, (deref_live _ _ _ _ Hlive) in Hrun.
  rewrite run_bind in Hrun. unfold lift at 1 in Hrun.
  destruct (filtered_entries L d) as [keep|x] eqn:Hkeep; [|discriminate].
  rewrite run_bind in Hrun. unfold lift at 1 in Hrun.
  destruct (frame_mask d keep) as [cleaned|x] eqn:Hcleaned; [|discriminate].
  cbn in Hrun. injection Hrun as <- <-.
  exists cleaned. cbn. rewrite lookup_insert_eq. split; [reflexivity|].
  destruct (filtered_entries_keep L d cleaned keep Hidx Hcols Hkeep Hcleaned) as [_ Hrows].
  rewrite (Hrows i label Hlabel). intros Hall.
  rewrite forallb_forall in Hall. specialize (Hall var).
  rewrite <- list_elem_of_In in Hall. specialize (Hall Hvar).
  destruct (zscore_mask_flag col mask i Hmask Hi) as (zs & z & Hzs & Hz & Hflag).
  unfold z_within in Hall. rewrite Hcol, Hzs, Hz in Hall.
  apply flt_asym in Hflag. congruence.
Qed.

End Flagged.

Lemma Qlt_bool_asym (x y : Q) :
  QInstance.Qlt_bool x y = true -> QInstance.Qlt_bool y x = false.
Proof.
  intros H. apply not_true_iff_false. rewrite Qlt_bool_lt in *.
  intros H'. exact (Qlt_irrefl x (Qlt_trans _ _ _ H H')).
Qed.

Lemma zscore_flagged_rows_are_removed_witness :
  exists col mask cleaned,
    getitem Examples.spiky "bedrooms" = Ret col /\
    zscore_mask (QInstance.QLib QInstance.no_files) col = Ret mask /\
    mask !! 16%nat = Some true /\
    heap (outlier_removal (QInstance.QLib QInstance.no_files) 0 QInstance.a_clock
            Examples.with_spiky).2 !! 1%nat = Some cleaned /\
    bool_decide (16 ∈ df_index cleaned) = false.
Proof.
  destruct (getitem Examples.spiky "bedrooms") as [col|x] eqn:Hcol;
    [|vm_compute in Hcol; discriminate].
  destruct (zscore_mask (QInstance.QLib QInstance.no_files) col) as [mask|x] eqn:Hmask;
    [|injection Hcol as <-; vm_compute in Hmask; discriminate].
  assert (Hi : mask !! 16%nat = Some true).
  { injection Hcol as <-. apply (f_equal (fun o => match o with Ret m => m !! 16%nat | _ => None end))
      in Hmask. rewrite <- Hmask. vm_compute. reflexivity. }
  destruct (zscore_flagged_rows_are_removed (QInstance.QLib QInstance.no_files) Qlt_bool_asym
              0 Examples.spiky QInstance.a_clock Examples.with_spiky
              (outlier_removal (QInstance.QLib QInstance.no_files) 0 QInstance.a_clock
                 Examples.with_spiky).2 1 "bedrooms" col mask 16 16)
    as [_ (cleaned & Hcleaned & Hout)].
  - reflexivity.
  - refine (bool_decide_unpack _ _). vm_compute. exact I.
  - refine (bool_decide_unpack _ _). vm_compute. exact I.
  - vm_compute. reflexivity.
  - refine (bool_decide_unpack _ _). vm_compute. exact I.
  - exact Hcol.
  - exact Hmask.
  - exact Hi.
  - vm_compute. reflexivity.
  - exists col, mask, cleaned. split; [reflexivity|]. split; [exact Hmask|].
    split; [exact Hi|]. split; [exact Hcleaned|]. now apply bool_decide_eq_false.
Defined.

(** ** Ties between models (lines 333-336) *)

Section Ties.
Context {num : Type} {num_eq_dec : EqDecision num} (L : Lib num).

Section Order.
Variable better : num -> num -> bool.
Hypothesis better_irrefl : forall x, better x x = false.
Hypothesis better_trans :
  forall x y z, better x y = true -> better y z = true -> better x z = true.
Hypothesis better_cotrans :
  forall x y z, fisnan L y = false -> better x z = true ->
    better x y = true \/ better y z = true.

Lemma first_best_earliest (xs seen : list num) (best : option (nat * num)) :
  champion L better seen best ->
  earliest L better seen best ->
  earliest L better (seen ++ xs) (first_best L better xs (length seen) best).
Proof.
  revert seen best. induction xs as [|x xs IH]; intros seen best Hc He; cbn [first_best].
  - now rewrite app_nil_r.
  - pose proof (first_best_champion L better better_irrefl better_trans [x] seen best Hc) as Hc'.
    cbn [first_best] in Hc'.
    replace (seen ++ x :: xs)%list with ((seen ++ [x]) ++ xs)%list by now rewrite <- app_assoc.
    replace (S (length seen)) with (length (seen ++ [x])) by (rewrite length_app; cbn; lia).
    apply IH; [exact Hc'|]. clear Hc' IH.
    assert (Hkeep : forall j v, best = Some (j, v) -> earliest L better (seen ++ [x]) (Some (j, v))).
    { intros j v ->. cbn in *. destruct Hc as (Hj & _ & _). intros k y Hk Hy.
      pose proof (lookup_lt_Some _ _ _ Hj) as Hlt.
      rewrite lookup_app_l in Hy by lia. now apply (He k y). }
    assert (Hnew : forall v, (best = None \/ exists j, best = Some (j, v) /\ better x v = true) ->
              fisnan L x = false -> earliest L better (seen ++ [x]) (Some (length seen, x))).
    { intros v Hbest Hx k y Hk Hy Hnan. rewrite lookup_app_l in Hy by exact Hk.
      assert (Hin : y ∈ seen) by (apply list_elem_of_lookup; now exists k).
      destruct Hbest as [->|(j & -> & Hxv)]; cbn in Hc.
      - rewrite (Hc y Hin) in Hnan. discriminate.
      - destruct Hc as (_ & _ & Hmin). specialize (Hmin y Hin Hnan).
        destruct (better_cotrans x y v Hnan Hxv) as [H|H]; [exact H | congruence]. }
    destruct (fisnan L x) eqn:Hx.
    + destruct best as [[j v]|]; [now apply Hkeep | exact I].
    + destruct best as [[j v]|].
      * destruct (better x v) eqn:Hxv; [|now apply Hkeep].
        apply (Hnew v); [right; now exists j | reflexivity].
      * apply (Hnew x); [now left | reflexivity].
Qed.

Lemma first_best_first (xs : list num) (j : nat) (v : num) :
  first_best L better xs 0 None = Some (j, v) ->
  xs !! j = Some v /\
  forall k y, (k < j)%nat -> xs !! k = Some y -> fisnan L y = false -> better v y = true.
Proof.
  intros H.
  assert (Hnone : champion L better [] None).
  { intros x Hx. now apply elem_of_nil in Hx. }
  pose proof (first_best_champion L better better_irrefl better_trans xs [] None Hnone) as Hc.
  pose proof (first_best_earliest xs [] None Hnone I) as He.
  cbn [length app] in Hc, He. rewrite H in Hc, He. split; [apply Hc | exact He].
Qed.

End Order.

Hypothesis flt_irrefl : forall x, flt L x x = false.
Hypothesis flt_trans :
  forall x y z, flt L x y = true -> flt L y z = true -> flt L x z = true.
Hypothesis flt_cotrans :
  forall x y z, fisnan L y = false -> flt L x z = true ->
    flt L x y = true \/ flt L y z = true.

Lemma idxmin_first (xs : list num) (i : nat) :
  idxmin L xs = Ret i ->
  exists v, xs !! i = Some v /\
    forall k y, (k < i)%nat -> xs !! k = Some y -> fisnan L y = false -> flt L v y = true.
Proof.
  unfold idxmin. intros H.
  destruct (first_best L _ xs 0 None) as [[j v]|] eqn:Hbest; [|discriminate].
  injection H as ->. exists v.
  apply (first_best_first (fun x b => flt L x b)); [exact flt_irrefl | | | exact Hbest].
  - intros x y z. apply flt_trans.
  - intros x y z. apply flt_cotrans.
Qed.

Lemma idxmax_first (xs : list num) (i : nat) :
  idxmax L xs = Ret i ->
  exists v, xs !! i = Some v /\
    forall k y, (k < i)%nat -> xs !! k = Some y -> fisnan L y = false -> flt L y v = true.
Proof.
  unfold idxmax. intros H.
  destruct (first_best L _ xs 0 None) as [[j v]|] eqn:Hbest; [|discriminate].
  injection H as ->. exists v.
  apply (first_best_first (fun x b => flt L b x)); [exact flt_irrefl | | | exact Hbest].
  - intros x y z Hxy Hyz. now apply (flt_trans z y x).
  - intros x y z Hy Hzx. destruct (flt_cotrans z y x Hy Hzx) as [H|H]; [now right | now left].
Qed.

(** X9. Ties go to the model trained first: every row of the metrics table
    above the row of the model named best by MSE has a strictly greater
    MSE, and every row above the row of the model named best by R2 has a
    strictly smaller R2 score (rows with a NaN score apart). *)
Theorem model_selection_first_among_equals (y_test : list (cell num))
    (predictions : list (string * list num)) (metrics_df : list metrics_row)
    (e : env num) (s s' : state num) (best_mse best_r2 : string) (best : option string) :
  model_selection L y_test predictions metrics_df e s = (Ret (best_mse, best_r2, best), s') ->
  (exists i row, metrics_df !! i = Some row /\ Model row = best_mse /\
     forall k r, (k < i)%nat -> metrics_df !! k = Some r -> fisnan L (MSE r) = false ->
       flt L (MSE row) (MSE r) = true) /\
  (exists j row, metrics_df !! j = Some row /\ Model row = best_r2 /\
     forall k r, (k < j)%nat -> metrics_df !! k = Some r -> fisnan L (R2_Score r) = false ->
       flt L (R2_Score r) (R2_Score row) = true).
Proof.
  intros H. unfold model_selection in H.
  rewrite run_bind in H. unfold lift at 1 in H.
  destruct (idxmin L (List.map MSE metrics_df)) as [i|x] eqn:Hi; [|discriminate].
  rewrite run_bind in H. unfold lift at 1 in H.
  destruct (loc metrics_df i) as [row_mse|x] eqn:Hrow_mse; [|discriminate].
  rewrite run_bind in H. unfold lift at 1 in H.
  destruct (idxmax L (List.map R2_Score metrics_df)) as [j|x] eqn:Hj; [|discriminate].
  rewrite run_bind in H. unfold lift at 1 in H.
  destruct (loc metrics_df j) as [row_r2|x] eqn:Hrow_r2; [|discriminate].
  apply loc_row in Hrow_mse, Hrow_r2.
  apply idxmin_first in Hi as (v & Hv & Hv_first).
  apply idxmax_first in Hj as (w & Hw & Hw_first).
  rewrite lookup_map, Hrow_mse in Hv. injection Hv as <-.
  rewrite lookup_map, Hrow_r2 in Hw. injection Hw as <-.
  assert (Hnames : best_mse = Model row_mse /\ best_r2 = Model row_r2).
  { unfold mbind, M_bind, print, plt_show, lift in H. cbn in H.
    destruct (bool_decide (Model row_mse = Model row_r2)).
    - destruct (dict_get (Model row_mse) predictions); [|discriminate].
      now injection H as <- <- _ _.
    - now injection H as <- <- _ _. }
  destruct Hnames as [-> ->]. split.
  - exists i, row_mse. split; [exact Hrow_mse|]. split; [reflexivity|].
    intros k r Hk Hr. apply (Hv_first k (MSE r) Hk). now rewrite lookup_map, Hr.
  - exists j, row_r2. split; [exact Hrow_r2|]. split; [reflexivity|].
    intros k r Hk Hr. apply (Hw_first k (R2_Score r) Hk). now rewrite lookup_map, Hr.
Qed.

End Ties.

Lemma Qlt_bool_cotrans (x y z : Q) :
  QInstance.Qlt_bool x z = true ->
  QInstance.Qlt_bool x y = true \/ QInstance.Qlt_bool y z = true.
Proof.
  rewrite !Qlt_bool_lt. intros Hxz.
  destruct (Qlt_le_dec y z) as [Hyz|Hzy]; [now right | left].
  exact (Qlt_le_trans _ _ _ Hxz Hzy).
Qed.

Lemma model_selection_first_among_equals_witness :
  (model_selection (QInstance.QLib QInstance.no_files) Examples.test_y
     Examples.some_predictions Examples.agreed QInstance.a_clock initial_state).1
  = Ret ("Random Forest", "Random Forest", Some "Random Forest") /\
  List.map MSE Examples.agreed = [16%Q; 9%Q; 9%Q] /\
  exists i row, Examples.agreed !! i = Some row /\ Model row = "Random Forest".
Proof.
  destruct (model_selection (QInstance.QLib QInstance.no_files) Examples.test_y
              Examples.some_predictions Examples.agreed QInstance.a_clock initial_state)
    as [[[[best_mse best_r2] best]|x] s'] eqn:Hrun; [|vm_compute in Hrun; discriminate].
  destruct (model_selection_first_among_equals (QInstance.QLib QInstance.no_files)
              Qlt_bool_irrefl Qlt_bool_trans (fun x y z _ => Qlt_bool_cotrans x y z)
              Examples.test_y Examples.some_predictions
              Examples.agreed QInstance.a_clock initial_state s' best_mse best_r2 best Hrun)
    as [(i & row & Hrow & Hname & _) _].
  vm_compute in Hrun. injection Hrun as <- <- <- _.
  split; [reflexivity|]. split; [reflexivity|]. now exists i, row.
Defined.

(** ** From the evaluation loop to the selection (lines 312-352) *)

Section Composition.
Context {num : Type} {num_eq_dec : EqDecision num} (L : Lib num).

Lemma first_best_lookup (better : num -> num -> bool) (xs seen : list num)
    (best : option (nat * num)) (j : nat) (v : num) :
  (forall j' v', best = Some (j', v') -> seen !! j' = Some v') ->
  first_best L better xs (length seen) best = Some (j, v) ->
  (seen ++ xs)%list !! j = Some v.
Proof.
  revert seen best. induction xs as [|x xs IH]; intros seen best Hbest H; cbn [first_best] in H.
  - rewrite app_nil_r. now apply Hbest.
  - replace (seen ++ x :: xs)%list with ((seen ++ [x]) ++ xs)%list by now rewrite <- app_assoc.
    replace (S (length seen)) with (length (seen ++ [x])) in H by (rewrite length_app; cbn; lia).
    apply IH in H; [exact H|]. intros j' v' Hnew.
    assert (Hold : best = Some (j', v') -> (seen ++ [x])%list !! j' = Some v').
    { intros Hb. apply lookup_app_l_Some. now apply Hbest. }
    assert (Hhere : (seen ++ [x])%list !! length seen = Some x).
    { rewrite lookup_app_r by lia. now rewrite Nat.sub_diag. }
    destruct (fisnan L x); [now apply Hold|].
    destruct best as [[j0 b]|].
    + destruct (better x b); [|now apply Hold]. now injection Hnew as <- <-.
    + now injection Hnew as <- <-.
Qed.

Lemma first_best_is_Some (better : num -> num -> bool) (xs : list num) (i : nat)
    (best : option (nat * num)) :
  is_Some best \/ (exists x, x ∈ xs /\ fisnan L x = false) ->
  is_Some (first_best L better xs i best).
Proof.
  revert i best. induction xs as [|x xs IH]; intros i best H; cbn [first_best].
  - destruct H as [H|(x & Hx & _)]; [exact H | now apply elem_of_nil in Hx].
  - apply IH. destruct H as [[[j b] ->]|(y & Hy & Hnan)].
    + left. destruct (fisnan L x); [eauto|]. destruct (better x b); eauto.
    + apply elem_of_cons in Hy as [->|Hy]; [|right; now exists y].
      left. rewrite Hnan. destruct best as [[j b]|]; [|eauto]. destruct (better x b); eauto.
Qed.

Lemma first_best_in_range (better : num -> num -> bool) (xs : list num) :
  (exists x, x ∈ xs /\ fisnan L x = false) ->
  exists j v, first_best L better xs 0 None = Some (j, v) /\ xs !! j = Some v.
Proof.
  intros H.
  destruct (first_best_is_Some better xs 0 None (or_intror H)) as [[j v] Hbest].
  exists j, v. split; [exact Hbest|].
  apply (first_best_lookup better xs [] None j v); [discriminate | exact Hbest].
Qed.

Lemma loc_in_range {A} (f : @metrics_row num -> A) (metrics_df : list metrics_row)
    (j : nat) (v : A) :
  List.map f metrics_df !! j = Some v -> exists row, loc metrics_df j = Ret row /\ row ∈ metrics_df.
Proof.
  rewrite lookup_map. unfold loc. destruct (metrics_df !! j) as [row|] eqn:Hrow; [|discriminate].
  intros _. exists row. split; [reflexivity|]. apply list_elem_of_lookup. now exists j.
Qed.

Lemma nan_free_column (f : @metrics_row num -> num) (metrics_df : list metrics_row) :
  (exists row, row ∈ metrics_df /\ fisnan L (f row) = false) ->
  exists x, x ∈ List.map f metrics_df /\ fisnan L x = false.
Proof.
  intros (row & Hrow & Hnan). exists (f row). split; [|exact Hnan].
  apply list_elem_of_In, in_map, list_elem_of_In, Hrow.
Qed.

Lemma scored_model_predicted (y_test : list (cell num)) (predictions : list (string * list num))
    (metrics_df : list metrics_row) (row : metrics_row) :
  Forall2 (scores L y_test) predictions metrics_df -> row ∈ metrics_df ->
  exists predicted, dict_get (Model row) predictions = Ret predicted.
Proof.
  intros Hall Hrow. unfold dict_get.
  induction Hall as [|item r items rows Hscores _ IH]; [now apply elem_of_nil in Hrow|].
  cbn [find]. case_bool_decide as Hname; [eauto|].
  apply elem_of_cons in Hrow as [->|Hrow]; [|now apply IH].
  destruct Hscores as [Hmodel _]. congruence.
Qed.

(** X10. The selection cannot fail on the table the evaluation loop built
    from the same predictions: as soon as one MSE and one R2 score of the
    table are not NaN, it returns its verdict. The rows it looks up exist,
    and the model it names has its predictions in the dictionary. *)
Theorem selection_after_evaluation (y_test : list (cell num))
    (predictions : list (string * list num)) (metrics_df : list metrics_row)
    (e e' : env num) (s s1 s2 : state num) :
  evaluation_loop L y_test predictions [] e s = (Ret metrics_df, s1) ->
  (exists row, row ∈ metrics_df /\ fisnan L (MSE row) = false) ->
  (exists row, row ∈ metrics_df /\ fisnan L (R2_Score row) = false) ->
  exists best_mse best_r2 best s',
    model_selection L y_test predictions metrics_df e' s2
    = (Ret (best_mse, best_r2, best), s') /\
    (exists row, row ∈ metrics_df /\ Model row = best_mse) /\
    (exists row, row ∈ metrics_df /\ Model row = best_r2) /\
    forall name, best = Some name -> exists predicted, (name, predicted) ∈ predictions.
Proof.
  intros Hrows Hmse Hr2.
  apply evaluation_loop_rows in Hrows as (new & -> & Hscores). cbn [app] in *.
  destruct (first_best_in_range (fun x b => flt L x b) _ (nan_free_column MSE _ Hmse))
    as (i & v & Hi & Hv).
  destruct (first_best_in_range (fun x b => flt L b x) _
              (nan_free_column R2_Score _ Hr2)) as (j & w & Hj & Hw).
  destruct (loc_in_range MSE _ _ _ Hv) as (row_mse & Hrow_mse & Hin_mse).
  destruct (loc_in_range R2_Score _ _ _ Hw) as (row_r2 & Hrow_r2 & Hin_r2).
  destruct (scored_model_predicted y_test predictions new row_mse Hscores Hin_mse)
    as [predicted Hpredicted].
  unfold model_selection.
  rewrite run_bind. unfold lift at 1, idxmin. rewrite Hi.
  rewrite run_bind. unfold lift at 1. rewrite Hrow_mse.
  rewrite run_bind. unfold lift at 1, idxmax. rewrite Hj.
  rewrite run_bind. unfold lift at 1. rewrite Hrow_r2.
  unfold mbind, M_bind, print, plt_show, lift. cbn.
  destruct (bool_decide (Model row_mse = Model row_r2)).
  - rewrite Hpredicted. eexists _, _, _, _. split; [reflexivity|].
    split; [now exists row_mse|]. split; [now exists row_r2|].
    intros name [= <-]. exists predicted.
    unfold dict_get in Hpredicted.
    destruct (find _ predictions) as [p|] eqn:Hfind; [|discriminate].
    injection Hpredicted as <-. apply find_some in Hfind as [Hin Hname].
    apply bool_decide_eq_true in Hname. rewrite <- Hname.
    apply list_elem_of_In. now destruct p.
  - eexists _, _, _, _. split; [reflexivity|].
    split; [now exists row_mse|]. split; [now exists row_r2|]. discriminate.
Qed.

End Composition.

Lemma selection_after_evaluation_witness :
  exists metrics_df best_mse best_r2 best,
    (evaluation_loop (QInstance.QLib QInstance.no_files) Examples.test_y
       Examples.some_predictions [] QInstance.a_clock initial_state).1 = Ret metrics_df /\
    (model_selection (QInstance.QLib QInstance.no_files) Examples.test_y
       Examples.some_predictions metrics_df QInstance.a_clock initial_state).1
    = Ret (best_mse, best_r2, best) /\
    List.map Model metrics_df = ["Multiple Linear Regression"; "Random Forest"; "XGBoost"].
Proof.
  destruct (evaluation_loop (QInstance.QLib QInstance.no_files) Examples.test_y
              Examples.some_predictions [] QInstance.a_clock initial_state)
    as [[metrics_df|x] s1] eqn:Hrows; [|vm_compute in Hrows; discriminate].
  assert (Hnames : List.map Model metrics_df
                   = ["Multiple Linear Regression"; "Random Forest"; "XGBoost"]).
  { vm_compute in Hrows. now injection Hrows as <- _. }
  assert (Hrow : exists row, row ∈ metrics_df).
  { destruct metrics_df as [|row rows]; [discriminate|]. exists row. left. }
  destruct Hrow as [row Hrow].
  destruct (selection_after_evaluation (QInstance.QLib QInstance.no_files) Examples.test_y
              Examples.some_predictions metrics_df QInstance.a_clock QInstance.a_clock
              initial_state s1 initial_state Hrows)
    as (best_mse & best_r2 & best & s' & Hrun & _).
  - now exists row.
  - now exists row.
  - exists metrics_df, best_mse, best_r2, best. cbn [fst]. split; [reflexivity|].
    split; [now rewrite Hrun | exact Hnames].
Defined.

(** ** A data set without a selected column (lines 162-163) *)

Section Missing.
Context {num : Type} {num_eq_dec : EqDecision num} (L : Lib num).

Lemma filter_named_nil (c : string) (cols : list (string * list (cell num))) :
  List.filter (named c) cols = [] <-> c ∉ cols.*1.
Proof.
  rewrite <- find_named_None. induction cols as [|p cols IH]; cbn; [tauto|].
  destruct (named c p); [split; discriminate | exact IH].
Qed.

Lemma getitem_list_cases (d : DataFrame num) (cols : list string) :
  (Forall (fun c => c ∈ columns d) cols /\ exists d', getitem_list d cols = Ret d') \/
  (exists c, c ∈ cols /\ (c ∉ columns d) /\ getitem_list d cols = Raise (mkExn KeyError c)).
Proof.
  unfold getitem_list.
  induction cols as [|c cols IH]; [left; split; [constructor | now eexists]|].
  cbn [omapM].
  destruct (List.filter (named c) (df_columns d)) as [|p ps] eqn:Hc.
  - right. exists c. split; [left|]. split; [now apply filter_named_nil | reflexivity].
  - assert (Hin : c ∈ columns d).
    { destruct (decide (c ∈ columns d)) as [H|H]; [exact H|].
      apply filter_named_nil in H. congruence. }
    cbn [obind]. destruct IH as [[Hall [d' Hd']]|(c' & Hc' & Hout & Hraise)].
    + left. split; [now constructor|].
      destruct (omapM _ cols) as [pss|x]; [|discriminate]. now eexists.
    + right. exists c'. split; [now right|]. split; [exact Hout|].
      destruct (omapM _ cols) as [pss|x]; [discriminate|]. exact Hraise.
Qed.

(** X11. The feature selection succeeds exactly when the data set has each
    of the ten selected columns; it then returns a new object (a reference
    that was not in use before) holding the selection, and leaves the full
    table and every other table as they were. If a selected column is
    missing it fails with a [KeyError], before anything is printed and
    without creating a table. *)
Theorem feature_selection_needs_every_column (data_set : nat) (d : DataFrame num)
    (e : env num) (s : state num) :
  heap s !! data_set = Some d ->
  (Forall (fun c => c ∈ columns d) selected_features /\
   exists data_set' s' d',
     feature_selection data_set e s = (Ret data_set', s') /\
     heap s !! data_set' = None /\
     getitem_list d selected_features = Ret d' /\
     heap s' = <[data_set' := d']> (heap s) /\
     data_set' <> data_set /\ heap s' !! data_set = Some d) \/
  (exists c, c ∈ selected_features /\ (c ∉ columns d) /\
   exists msg, feature_selection data_set e s = (Raise (mkExn KeyError msg), s)).
Proof.
  intros Hlive. unfold feature_selection.
  rewrite run_bind, (deref_live _ _ _ _ Hlive).
  rewrite run_bind. unfold lift at 1.
  destruct (getitem_list_cases d selected_features)
    as [[Hall [d' Hd']]|(c & Hc & Hout & Hraise)].
  - left. split; [exact Hall|]. rewrite Hd'.
    rewrite run_bind. unfold new_frame at 1. cbv zeta.
    set (s1 := mkState _ _ _ _).
    rewrite run_bind. unfold frame_info.
    rewrite run_bind, (deref_live _ d' _ s1) by (unfold s1; cbn; apply lookup_insert_eq).
    unfold mbind, M_bind, print. cbn.
    eexists _, _, d'. split; [reflexivity|].
    assert (Hfresh : fresh (dom (heap s)) <> data_set).
    { intros Heq. apply (is_fresh (dom (heap s))). rewrite Heq.
      apply elem_of_dom. now exists d. }
    split; [apply (not_elem_of_dom (D := gset nat)), is_fresh|].
    split; [reflexivity|]. split; [reflexivity|].
    split; [exact Hfresh|]. cbn. now rewrite lookup_insert_ne.
  - right. exists c. split; [exact Hc|]. split; [exact Hout|].
    rewrite Hraise. now exists c.
Qed.

End Missing.

Lemma feature_selection_needs_every_column_witness :
  (exists msg,
     feature_selection 0 QInstance.a_clock Examples.with_spiky
     = (Raise (mkExn KeyError msg), Examples.with_spiky)) /\
  bool_decide ("street" ∈ columns Examples.spiky) = false.
Proof.
  split; [|vm_compute; reflexivity].
  destruct (feature_selection_needs_every_column 0 Examples.spiky QInstance.a_clock
              Examples.with_spiky eq_refl)
    as [[Hall _]|(_ & _ & _ & msg & Hrun)].
  - exfalso. apply Forall_forall with (x := "street") in Hall.
    + revert Hall. refine (bool_decide_eq_false_1 _ _). vm_compute. reflexivity.
    + refine (bool_decide_unpack _ _). vm_compute. exact I.
  - now exists msg.
Defined.

(** ** Rows on the boundary (lines 206-207, 240-243) *)

Section Boundary.
Context {num : Type} {num_eq_dec : EqDecision num} (L : Lib num).

(** X12. The report counts |z| > 3 and the removal keeps |z| < 3. A row
    for which neither holds on a checked variable (|z| is 3 exactly, or the
    z-score is NaN, as for every row of a constant column) is dropped from
    the cleaned table without being counted as an outlier. *)
Theorem boundary_rows_are_dropped_unreported (data_set : nat) (d : DataFrame num)
    (e : env num) (s s' : state num) (dataset_cleaned : nat)
    (var : string) (col : list (cell num)) (zs : list num) (z : num) (i : nat) (label : Z) :
  heap s !! data_set = Some d ->
  NoDup (df_index d) ->
  NoDup (columns d) ->
  outlier_removal L data_set e s = (Ret dataset_cleaned, s') ->
  var ∈ variables_to_check ->
  getitem d var = Ret col ->
  zscore L col = Ret zs ->
  zs !! i = Some z ->
  flt L (fabs L z) (float3 L) = false ->
  flt L (float3 L) (fabs L z) = false ->
  df_index d !! i = Some label ->
  exists mask cleaned,
    zscore_mask L col = Ret mask /\ mask !! i = Some false /\
    heap s' !! dataset_cleaned = Some cleaned /\ label ∉ df_index cleaned.
Proof.
  intros Hlive Hidx Hcols Hrun Hvar Hcol Hzs Hz Hbelow Habove Hlabel.
  unfold outlier_removal in Hrun.
  rewrite run_bind, (deref_live _ _ _ _ Hlive) in Hrun.
  rewrite run_bind in Hrun. unfold lift at 1 in Hrun.
  destruct (filtered_entries L d) as [keep|x] eqn:Hkeep; [|discriminate].
  rewrite run_bind in Hrun. unfold lift at 1 in Hrun.
  destruct (frame_mask d keep) as [cleaned|x] eqn:Hcleaned; [|discriminate].
  cbn in Hrun. injection Hrun as <- <-.
  exists (List.map (fun z => flt L (float3 L) (fabs L z)) zs), cleaned.
  split; [unfold zscore_mask, mbind, outcome_bind, obind; now rewrite Hzs|].
  split; [now rewrite lookup_map, Hz; cbn; rewrite Habove|].
  cbn. rewrite lookup_insert_eq. split; [reflexivity|].
  destruct (filtered_entries_keep L d cleaned keep Hidx Hcols Hkeep Hcleaned) as [_ Hrows].
  rewrite (Hrows i label Hlabel). intros Hall.
  rewrite forallb_forall in Hall. specialize (Hall var).
  rewrite <- list_elem_of_In in Hall. specialize (Hall Hvar).
  unfold z_within in Hall. rewrite Hcol, Hzs, Hz in Hall. congruence.
Qed.

End Boundary.

Lemma boundary_rows_are_dropped_unreported_witness :
  exists col zs mask cleaned,
    getitem Examples.edge "bedrooms" = Ret col /\
    zscore (QInstance.QLib QInstance.no_files) col = Ret zs /\
    zs !! 9%nat = Some 3%Q /\
    zscore_mask (QInstance.QLib QInstance.no_files) col = Ret mask /\
    mask !! 9%nat = Some false /\
    heap (outlier_removal (QInstance.QLib QInstance.no_files) 0 QInstance.a_clock
            Examples.with_edge).2 !! 1%nat = Some cleaned /\
    bool_decide (9 ∈ df_index cleaned) = false.
Proof.
  destruct (getitem Examples.edge "bedrooms") as [col|x] eqn:Hcol;
    [|vm_compute in Hcol; discriminate].
  destruct (zscore (QInstance.QLib QInstance.no_files) col) as [zs|x] eqn:Hzs;
    [|injection Hcol as <-; vm_compute in Hzs; discriminate].
  assert (Hz : zs !! 9%nat = Some 3%Q).
  { injection Hcol as <-.
    apply (f_equal (fun o => match o with Ret m => m !! 9%nat | _ => None end)) in Hzs.
    rewrite <- Hzs. vm_compute. reflexivity. }
  destruct (boundary_rows_are_dropped_unreported (QInstance.QLib QInstance.no_files)
              0 Examples.edge QInstance.a_clock Examples.with_edge
              (outlier_removal (QInstance.QLib QInstance.no_files) 0 QInstance.a_clock
                 Examples.with_edge).2 1 "bedrooms" col zs 3%Q 9 9)
    as (mask & cleaned & Hmask & Hflag & Hcleaned & Hout).
  - reflexivity.
  - refine (bool_decide_unpack _ _). vm_compute. exact I.
  - refine (bool_decide_unpack _ _). vm_compute. exact I.
  - vm_compute. reflexivity.
  - refine (bool_decide_unpack _ _). vm_compute. exact I.
  - exact Hcol.
  - exact Hzs.
  - exact Hz.
  - vm_compute. reflexivity.
  - vm_compute. reflexivity.
  - vm_compute. reflexivity.
  - exists col, zs, mask, cleaned. split; [reflexivity|]. split; [exact Hzs|].
    split; [exact Hz|]. split; [exact Hmask|]. split; [exact Hflag|].
    split; [exact Hcleaned|]. now apply bool_decide_eq_false.
Defined.

(** ** What the mutual information is computed on (lines 103-108) *)

Section Scores.
Context {num : Type} {num_eq_dec : EqDecision num} (L : Lib num).

Lemma factorize_loop (l : nat) (cs : list string) (d0 : DataFrame num)
    (e : env num) (s s' : state num) :
  NoDup cs ->
  heap s !! l = Some d0 ->
  for_each cs (fun column => col ← frame_getitem l column;
                             frame_setitem l column (factorize L col)) e s = (Ret tt, s') ->
  exists d1,
    heap s' !! l = Some d1 /\
    columns d1 = columns d0 /\ df_index d1 = df_index d0 /\
    (forall c, c ∈ cs -> exists col, getitem d0 c = Ret col /\ getitem d1 c = Ret (factorize L col)) /\
    (forall c, c ∉ cs -> getitem d1 c = getitem d0 c).
Proof.
  revert d0 s. induction cs as [|c cs IH]; intros d0 s Hnd Hlive H; cbn [for_each] in H.
  - injection H as <-. exists d0. split; [exact Hlive|]. split; [reflexivity|].
    split; [reflexivity|]. split; [|reflexivity]. intros c Hc. now apply elem_of_nil in Hc.
  - apply NoDup_cons in Hnd as [Hc Hnd].
    rewrite run_bind, run_bind, (frame_getitem_run _ _ d0) in H by exact Hlive.
    destruct (getitem d0 c) as [col|x] eqn:Hcol; [|discriminate].
    rewrite (frame_setitem_run _ _ _ d0) in H by exact Hlive.
    destruct (setitem d0 c (factorize L col)) as [d0'|x] eqn:Hset; [|discriminate].
    destruct (setitem_shape d0 d0' c _ (getitem_Ret_columns d0 c col Hcol) Hset)
      as [Hcols Hidx].
    apply (IH d0' _ Hnd (heap_with_object s l d0')) in H
      as (d1 & Hd1 & Hcols1 & Hidx1 & Hin & Hout).
    exists d1. split; [exact Hd1|]. split; [congruence|]. split; [congruence|]. split.
    + intros c' Hc'. apply elem_of_cons in Hc' as [->|Hc'].
      * exists col. split; [exact Hcol|]. rewrite (Hout c Hc).
        exact (getitem_setitem d0 d0' c _ Hset).
      * destruct (Hin c' Hc') as (col' & Hcol' & Hcode). exists col'. split; [|exact Hcode].
        rewrite <- Hcol'. symmetry. apply (getitem_setitem_other d0 d0' c c' (factorize L col)); [|exact Hset].
        intros ->. contradiction.
    + intros c' Hc'. apply not_elem_of_cons in Hc' as [Hne Hc']. rewrite (Hout c' Hc').
      exact (getitem_setitem_other d0 d0' c c' _ Hne Hset).
Qed.

Lemma mapM_reads {B} (l : nat) (d : DataFrame num) (f : list (cell num) -> B)
    (cols : list string) (e : env num) (s : state num) :
  heap s !! l = Some d ->
  mapM (fun col => col' ← frame_getitem l col; mret (f col')) cols e s
  = (omapM (fun col => obind (getitem d col) (fun col' => Ret (f col'))) cols, s).
Proof.
  intros Hlive. induction cols as [|c cols IH]; [reflexivity|]. cbn [mapM omapM].
  rewrite run_bind, run_bind, (frame_getitem_run _ _ d) by exact Hlive.
  destruct (getitem d c) as [col|x]; [|reflexivity]. cbn [obind].
  rewrite run_ret, run_bind, IH. now destruct (omapM _ cols).
Qed.

(** X13. The mutual information is computed on a copy of the data set in
    which [date], [street], [city], [statezip] and [country] are replaced
    by their integer codes and every other column is as loaded: the
    features are that copy without [price], the target is the [price] of
    the data set, the generator is seeded with 0, a feature counts as
    discrete when its column in the copy is of integers, and there is one
    score for each feature. *)
Theorem mutual_information_scores_the_encoded_copy (data_set : nat) (d : DataFrame num)
    (e : env num) (s s' : state num) (mi_scores : list num) :
  heap s !! data_set = Some d ->
  mutual_information L data_set e s = (Ret mi_scores, s') ->
  exists mi X y flags,
    columns mi = columns d /\ df_index mi = df_index d /\
    (forall c, c ∈ ["date"; "street"; "city"; "statezip"; "country"] ->
       exists col, getitem d c = Ret col /\ getitem mi c = Ret (factorize L col)) /\
    (forall c, c ∉ ["date"; "street"; "city"; "statezip"; "country"] ->
       getitem mi c = getitem d c) /\
    frame_drop mi "price" = Ret X /\
    getitem d "price" = Ret y /\
    Forall2 (fun c flag => exists col, getitem mi c = Ret col /\
                             flag = bool_decide (dtype_of col = Int64))
      (columns X) flags /\
    mutual_info_regression L X y flags (Seeded 0) = Ret mi_scores /\
    length mi_scores = length (columns X).
Proof.
  intros Hlive H. unfold mutual_information in H.
  assert (Hcopy : frame_copy data_set e s
                  = (Ret (fresh (dom (heap s))), with_object s (fresh (dom (heap s))) d)).
  { unfold frame_copy. rewrite run_bind, (deref_live _ d) by exact Hlive. reflexivity. }
  rewrite run_bind, Hcopy in H. set (mi_data_set := fresh (dom (heap s))) in H.
  rewrite run_bind in H.
  destruct (for_each _ _ e (with_object s mi_data_set d)) as [[[]|x] s1] eqn:Hloop;
    [|discriminate].
  apply (factorize_loop mi_data_set _ d) in Hloop
    as (mi & Hmi & Hcols & Hidx & Hcoded & Hother);
    [| refine (bool_decide_unpack _ _); vm_compute; exact I | apply heap_with_object].
  rewrite run_bind, (deref_live _ mi) in H by exact Hmi.
  rewrite run_bind in H. unfold lift at 1 in H.
  destruct (index_drop (columns mi) "price") as [features|x] eqn:Hfeatures; [|discriminate].
  rewrite run_bind, (mapM_reads _ mi) in H by exact Hmi.
  destruct (omapM _ features) as [flags|x] eqn:Hflags; [|discriminate].
  rewrite run_bind in H. unfold lift at 1 in H.
  destruct (frame_drop mi "price") as [X|x] eqn:HX; [|discriminate].
  rewrite run_bind in H. unfold lift at 1 in H.
  destruct (getitem mi "price") as [y|x] eqn:Hy; [|discriminate].
  rewrite run_bind in H. cbn [check_random_state] in H. rewrite run_ret in H.
  rewrite run_bind in H. unfold lift at 1 in H.
  destruct (mutual_info_regression L X y flags (Seeded 0)) as [scores|x] eqn:Hscores;
    [|discriminate].
  unfold mbind, M_bind, lift, raise, print, plt_show in H. cbn in H.
  assert (Hnames : columns X = features).
  { destruct (frame_drop_columns mi X "price" HX) as [-> _].
    unfold index_drop in Hfeatures.
    destruct (bool_decide ("price" ∈ columns mi)); [|discriminate]. now injection Hfeatures. }
  rewrite <- Hnames in H.
  case_bool_decide as Hlen; [|discriminate]. cbn in H. injection H as <- _.
  exists mi, X, y, flags. split; [exact Hcols|]. split; [exact Hidx|].
  split; [exact Hcoded|]. split; [exact Hother|]. split; [exact HX|]. split.
  { rewrite <- Hy. symmetry. apply Hother.
    refine (bool_decide_eq_false_1 _ _). vm_compute. reflexivity. }
  split; [|split; [exact Hscores | exact Hlen]].
  rewrite Hnames. apply omapM_Forall2 in Hflags. clear - Hflags.
  induction Hflags as [|c flag cs flags' Hc _ IH]; [constructor|].
  constructor; [|exact IH].
  cbn in Hc. destruct (getitem mi c) as [col|x]; [|discriminate].
  injection Hc as <-. now exists col.
Qed.

End Scores.

Lemma mutual_information_scores_the_encoded_copy_witness :
  exists mi_scores mi,
    (mutual_information (QInstance.QLib QInstance.no_files) 0 QInstance.a_clock
       Examples.with_raw).1 = Ret mi_scores /\
    S (length mi_scores) = length (columns Examples.raw) /\
    columns mi = columns Examples.raw /\
    getitem mi "city" = Ret (Examples.ints [0; 1; 2; 3; 4]).
Proof.
  destruct (mutual_information (QInstance.QLib QInstance.no_files) 0 QInstance.a_clock
              Examples.with_raw) as [[mi_scores|x] s'] eqn:Hrun;
    [|vm_compute in Hrun; discriminate].
  destruct (mutual_information_scores_the_encoded_copy (QInstance.QLib QInstance.no_files)
              0 Examples.raw QInstance.a_clock Examples.with_raw s' mi_scores eq_refl Hrun)
    as (mi & X & y & flags & Hcols & _ & Hcoded & _).
  destruct (Hcoded "city") as (col & Hcol & Hcity).
  { refine (bool_decide_unpack _ _). vm_compute. exact I. }
  exists mi_scores, mi. cbn [fst]. split; [reflexivity|]. split.
  { vm_compute in Hrun. injection Hrun as <- _. vm_compute. reflexivity. }
  split; [exact Hcols|]. rewrite Hcity.
  vm_compute in Hcol. injection Hcol as <-. vm_compute. reflexivity.
Defined.

(** ** The target of the regression (lines 251-269) *)

Section Target.
Context {num : Type} {num_eq_dec : EqDecision num} (L : Lib num).

(** X14. Encoding followed by scaling hands the models, as target [y], the
    [price] column of the cleaned table, neither encoded nor scaled, and a
    feature table in which [price] is not a column. *)
Theorem target_is_the_cleaned_price (dataset_cleaned : nat) (c X_normalized : DataFrame num)
    (y : list (cell num)) (e : env num) (s s' : state num) :
  heap s !! dataset_cleaned = Some c ->
  (dataset_encoded ← encoding L dataset_cleaned; scaling L dataset_encoded) e s
    = (Ret (X_normalized, y), s') ->
  getitem c "price" = Ret y /\ "price" ∉ columns X_normalized.
Proof.
  intros Hlive H. rewrite run_bind in H.
  destruct (encoding L dataset_cleaned e s) as [[dataset_encoded|x] s1] eqn:Hencoding;
    [|discriminate].
  assert (Henc : exists enc, heap s1 !! dataset_encoded = Some enc /\
                   getitem enc "price" = getitem c "price").
  { unfold encoding in Hencoding.
    rewrite run_bind, (deref_live _ c) in Hencoding by exact Hlive.
    rewrite run_bind in Hencoding. unfold lift at 1 in Hencoding.
    destruct (frame_drop c "price") as [features|x]; [|discriminate].
    rewrite run_bind in Hencoding. unfold lift at 1 in Hencoding.
    destruct (getitem c "price") as [target|x] eqn:Htarget; [|discriminate].
    rewrite run_bind in Hencoding. unfold lift at 1 in Hencoding.
    destruct (MEstimateEncoder_fit_transform L _ _ features target) as [encoded|x];
      [|discriminate].
    rewrite run_bind in Hencoding. unfold new_frame at 1 in Hencoding. cbv zeta in Hencoding.
    change (mkState (stdout s) (<[fresh (dom (heap s)):=encoded]> (heap s)) (ticks s) (draws s))
      with (with_object s (fresh (dom (heap s))) encoded) in Hencoding.
    set (fresh_ref := fresh (dom (heap s))) in Hencoding.
    assert (Hfresh : fresh_ref <> dataset_cleaned).
    { intros Heq. apply (is_fresh (dom (heap s))). fold fresh_ref. rewrite Heq.
      apply elem_of_dom. now exists c. }
    assert (Hc : heap (with_object s fresh_ref encoded) !! dataset_cleaned = Some c).
    { cbn. now rewrite lookup_insert_ne. }
    rewrite run_bind, (frame_getitem_run _ _ c), Htarget in Hencoding by exact Hc.
    rewrite run_bind, (frame_setitem_run _ _ _ encoded) in Hencoding by apply heap_with_object.
    destruct (setitem encoded "price" target) as [enc|x] eqn:Hset; [|discriminate].
    cbn in Hencoding. injection Hencoding as <- <-. exists enc. cbn. split.
    - rewrite lookup_delete_ne by congruence. apply lookup_insert_eq.
    - exact (getitem_setitem encoded enc "price" target Hset). }
  destruct Henc as (enc & Henc & Hprice).
  unfold scaling in H.
  rewrite run_bind, (frame_getitem_run _ _ enc) in H by exact Henc.
  destruct (getitem enc "price") as [y0|x] eqn:Hy; [|discriminate].
  rewrite run_bind, (deref_live _ enc) in H by exact Henc.
  rewrite run_bind in H. unfold lift at 1 in H.
  destruct (frame_drop enc "price") as [X|x] eqn:HX; [|discriminate].
  unfold mbind, M_bind, print, lift in H. cbn in H.
  destruct (StandardScaler_fit_transform L X) as [scaled|x]; [|discriminate].
  destruct (DataFrame_of_array (nrows X) scaled (columns X)) as [Xn|x] eqn:HXn; [|discriminate].
  injection H as <- <- _.
  split; [now symmetry|].
  destruct (DataFrame_of_array_shape _ _ _ _ HXn) as [-> _].
  apply (frame_drop_columns enc X "price" HX).
Qed.

End Target.

Lemma target_is_the_cleaned_price_witness :
  exists X_normalized y,
    ((dataset_encoded ← encoding (QInstance.QLib QInstance.no_files) 0;
      scaling (QInstance.QLib QInstance.no_files) dataset_encoded)
       QInstance.a_clock Examples.with_chosen).1 = Ret (X_normalized, y) /\
    y = Examples.floats [313000; 2384000; 342000; 420000; 550000] /\
    bool_decide ("price" ∈ columns X_normalized) = false.
Proof.
  destruct ((dataset_encoded ← encoding (QInstance.QLib QInstance.no_files) 0;
             scaling (QInstance.QLib QInstance.no_files) dataset_encoded)
              QInstance.a_clock Examples.with_chosen)
    as [[[X_normalized y]|x] s'] eqn:Hrun; [|vm_compute in Hrun; discriminate].
  destruct (target_is_the_cleaned_price (QInstance.QLib QInstance.no_files) 0 Examples.chosen
              X_normalized y QInstance.a_clock Examples.with_chosen s' eq_refl Hrun)
    as [Hy Hout].
  exists X_normalized, y. cbn [fst]. split; [reflexivity|]. split.
  - vm_compute in Hy. now injection Hy as <-.
  - now apply bool_decide_eq_false.
Defined.
